(** * Adhyayan AI: session tokens and the client session state machine

    A shallow embedding of the authentication core of the repository:

    - the backend (the Express server): the [verifyToken] middleware and
      the [POST /api/auth/google] identity-exchange handler;
    - the client ([client/lib/api.ts]): [ApiService] (the authenticated
      API gateway) and [AuthProvider] (the session state machine).

    JavaScript values are restricted to the shapes that flow through this
    code: scalar fields are [jsval] (undefined, null or a string), user
    objects are records of such fields.  Library functions whose code is
    not part of the repository ([jwt.sign], [jwt.verify], [JSON.parse],
    [JSON.stringify]) are Section variables; [fetch], the document store
    and the identity provider are inputs of the operations.

    The client is modelled in the browser ([window] and [localStorage]
    exist).  An asynchronous function runs to its end before the next
    event or call is taken: interleavings at [await] are not modelled.
    The body of a request is not modelled, only its endpoint, method and
    headers. *)

From Stdlib Require Import ZArith Ascii String.
From stdpp Require Import base option list gmap strings.

Local Open Scope Z_scope.
Local Open Scope string_scope.

(** ** JavaScript values and strings *)

Module JS.

(** A scalar as it arrives from a JSON body or a property access. *)
Inductive jsval : Type :=
| JUndefined
| JNull
| JStr (s : string).

#[global] Instance jsval_eq_dec : EqDecision jsval.
Proof. solve_decision. Defined.

(** JavaScript truthiness of a scalar: [undefined], [null] and the empty
    string are falsy. *)
Definition truthy (v : jsval) : bool :=
  match v with
  | JStr s => negb (String.eqb s "")
  | _ => false
  end.

(** Truthiness of a [string | undefined] ([!x] in the source). *)
Definition truthy_str (o : option string) : bool :=
  match o with
  | Some s => negb (String.eqb s "")
  | None => false
  end.

(** [s.split(sep)] for a one-character separator: the pieces between the
    occurrences of [sep], empty pieces included; never the empty list. *)
Fixpoint split (sep : ascii) (s : string) : list string :=
  match s with
  | EmptyString => [EmptyString]
  | String c r =>
      if Ascii.eqb c sep then EmptyString :: split sep r
      else match split sep r with
           | [] => [String c EmptyString]
           | w :: ws => String c w :: ws
           end
  end.

(** [c] does not occur in [s]. *)
Fixpoint lacks (c : ascii) (s : string) : bool :=
  match s with
  | EmptyString => true
  | String a r => negb (Ascii.eqb a c) && lacks c r
  end.

Definition space : ascii := " "%char.

End JS.
Import JS.

(** The identity record [{uid, email, displayName, photoURL}] exchanged
    between the client, the backend and the token store. *)
Record UserInfo : Type := mkUser {
  uid : jsval;
  email : jsval;
  displayName : jsval;
  photoURL : jsval
}.

(** ** Backend *)

Module Server.

(** The payload handed to [jwt.sign]. *)
Record Claims : Type := mkClaims {
  c_uid : jsval;
  c_email : jsval;
  c_displayName : jsval
}.

(** The object [jwt.verify] returns: the payload with the issued-at and
    expiry times (seconds) the library adds. *)
Record Decoded : Type := mkDecoded {
  d_uid : jsval;
  d_email : jsval;
  d_displayName : jsval;
  d_iat : Z;
  d_exp : Z
}.

(** A thrown JavaScript error, as far as the code looks at it. *)
Record JsError : Type := mkError {
  name : string;
  message : string
}.

(** JSON bodies the handlers write. *)
Inductive ResBody : Type :=
| ErrorJson (error : string)
| AuthJson (success : bool) (token : string) (user : UserInfo)
| ValidateJson (success : bool) (user : Decoded) (msg : string)
| LogoutJson (success : bool) (msg : string).

Record HttpResponse : Type := mkResponse {
  status : Z;
  body : ResBody
}.

(** What a middleware does with a request: answer it, or attach
    [req.user] and call [next()]. *)
Inductive Middleware : Type :=
| Respond (r : HttpResponse)
| Next (req_user : Decoded).

(** [process.env.JWT_SECRET || "your-secret-key"] *)
Definition jwtSecret (env_JWT_SECRET : option string) : string :=
  match env_JWT_SECRET with
  | Some s => if String.eqb s "" then "your-secret-key" else s
  | None => "your-secret-key"
  end.

(** [expiresIn: "7d"], in seconds. *)
Definition expiresIn_7d : Z := 7 * 24 * 60 * 60.

(** The clock [jsonwebtoken] reads: [Math.floor(Date.now() / 1000)]. *)
Definition clockTimestamp (now_ms : Z) : Z := now_ms / 1000.

Section Middleware.

(** [jwt.verify(token, secret)] at a clock time in seconds: the decoded
    payload, or the error it throws. *)
Variable jwt_verify : string -> string -> Z -> Decoded + JsError.

(** [verifyToken(req, res, next)]; [authorization] is
    [req.headers.authorization]. *)
Definition verifyToken (env_JWT_SECRET : option string) (now_ms : Z)
    (authorization : option string) : Middleware :=
  if negb (truthy_str authorization) then
    Respond (mkResponse 401 (ErrorJson "No authorization header provided"))
  else
    let authHeader := default "" authorization in
    let token := split space authHeader !! 1%nat in
    if negb (truthy_str token) then
      Respond (mkResponse 401 (ErrorJson "No token provided"))
    else
      match jwt_verify (default "" token) (jwtSecret env_JWT_SECRET)
              (clockTimestamp now_ms) with
      | inl decoded => Next decoded
      | inr error =>
          if String.eqb (name error) "TokenExpiredError" then
            Respond (mkResponse 401 (ErrorJson "Token expired"))
          else if String.eqb (name error) "JsonWebTokenError" then
            Respond (mkResponse 401 (ErrorJson "Invalid token format"))
          else
            Respond (mkResponse 401 (ErrorJson "Invalid token"))
      end.

End Middleware.

(** [app.get("/api/auth/validate", verifyToken, ...)] *)
Definition auth_validate (mw : Middleware) : HttpResponse :=
  match mw with
  | Respond r => r
  | Next req_user =>
      mkResponse 200 (ValidateJson true req_user "Token is valid")
  end.

(** [app.post("/api/auth/logout", verifyToken, ...)] *)
Definition auth_logout (mw : Middleware) : HttpResponse :=
  match mw with
  | Respond r => r
  | Next _ => mkResponse 200 (LogoutJson true "Logged out successfully")
  end.

(** *** The User Record store *)

(** Modelled from the spec: the [User] schema ([./models/User]) is not
    among the sources.  A record has the external subject id, email,
    display name, avatar URL and last-updated timestamp; the handler sets
    [updated_at] only when it updates a record, so a record it creates
    has none of its own ([None]: whatever the schema defaults to). *)
Record UserRecord : Type := mkRecord {
  firebase_uid : jsval;
  r_email : jsval;
  display_name : jsval;
  photo_url : jsval;
  updated_at : option Z
}.

(** How the document store behaves during one request. *)
Inductive DbOutcome : Type :=
| DbOk
| FindOneThrows
| SaveThrows.

(** [User.findOne({ firebase_uid: uid })]: the first matching document,
    with its position in the collection. *)
Definition findOne (uid : jsval) (db : list UserRecord)
    : option (nat * UserRecord) :=
  list_find (fun r => firebase_uid r = uid) db.

(** The request body [{ idToken, user }]; a field the body lacks is
    [None] ([undefined]). *)
Record AuthBody : Type := mkBody {
  idToken : option string;
  user : option UserInfo
}.

Definition TypeError : JsError :=
  mkError "TypeError" "Cannot read properties of undefined".

Definition dbError : JsError :=
  mkError "MongoError" "database not available".

(** The inner [try] block of the exchange handler: look the user up,
    create or update the record, save it.  [inr] is the error the block
    throws; the collection is then as it was. *)
Definition storeUser (now_ms : Z) (user : option UserInfo)
    (out : DbOutcome) (db : list UserRecord) : list UserRecord + JsError :=
  match user with
  | None => inr TypeError
  | Some user =>
      match out with
      | FindOneThrows => inr dbError
      | _ =>
          match findOne (uid user) db with
          | None =>
              let dbUser :=
                mkRecord (uid user) (email user) (displayName user)
                         (photoURL user) None in
              match out with
              | SaveThrows => inr dbError
              | _ => inl (db ++ [dbUser])%list
              end
          | Some (i, dbUser) =>
              let dbUser :=
                mkRecord (firebase_uid dbUser) (r_email dbUser)
                         (displayName user) (photoURL user) (Some now_ms) in
              match out with
              | SaveThrows => inr dbError
              | _ => inl (<[i := dbUser]> db)
              end
          end
      end
  end.

Section Exchange.

(** [jwt.sign(payload, secret, { expiresIn })] at a clock time in
    seconds, with the lifetime in seconds. *)
Variable jwt_sign : Claims -> string -> Z -> Z -> string.

(** [app.post("/api/auth/google", ...)]: the response and the
    collection afterwards. *)
Definition auth_google (env_JWT_SECRET : option string) (now_ms : Z)
    (req_body : AuthBody) (out : DbOutcome) (db : list UserRecord)
    : HttpResponse * list UserRecord :=
  let db' :=
    match storeUser now_ms (user req_body) out db with
    | inl db' => db'
    | inr _ => db   (* logged, not surfaced *)
    end in
  match user req_body with
  | None =>
      (* [user.uid] throws: the outer [catch] answers *)
      (mkResponse 500 (ErrorJson "Authentication failed"), db')
  | Some user =>
      let jwtToken :=
        jwt_sign (mkClaims (uid user) (email user) (displayName user))
                 (jwtSecret env_JWT_SECRET)
                 (clockTimestamp now_ms) expiresIn_7d in
      (mkResponse 200
         (AuthJson true jwtToken
            (mkUser (uid user) (email user) (displayName user)
                    (photoURL user))),
       db')
  end.

End Exchange.

End Server.

(** ** Client *)

Module Client.

(** *** The browser, the identity provider and the React state *)

Inductive Navigation : Type :=
| HardRedirect (href : string)     (* [window.location.href = href] *)
| RouterPush (path : string).      (* [router.push(path)] *)

(** An outbound request, as far as the backend looks at it; [url] is the
    endpoint below [API_BASE_URL]. *)
Record Request : Type := mkRequest {
  url : string;
  method : string;
  headers : gmap string string
}.

(** What [fetch] does with a request: it rejects (with a [TypeError]
    whose message mentions "fetch" or not), or a response arrives. *)
Inductive FetchOutcome : Type :=
| FetchRejects (mentions_fetch : bool)
| Responds (status : Z) (text : string).

(** The identity provider's user object; [getIdToken] is the outcome of
    [firebaseUser.getIdToken()], [None] when it rejects. *)
Record FirebaseUser : Type := mkFirebaseUser {
  fb_uid : jsval;
  fb_email : jsval;
  fb_displayName : jsval;
  fb_photoURL : jsval;
  getIdToken : option string
}.

Record World : Type := mkWorld {
  (* the browser *)
  localStorage : gmap string string;
  pathname : string;
  navigations : list Navigation;
  requests : list Request;
  (* [AuthProvider]: React state, the ref and the effect's flag *)
  user : option UserInfo;
  loading : bool;
  isAuthenticated : bool;
  hasProcessedInitialAuth : bool;
  isComponentMounted : bool;
  (* [auth.currentUser] *)
  currentUser : option FirebaseUser
}.

Definition with_localStorage (f : gmap string string -> gmap string string)
    (w : World) : World :=
  mkWorld (f (localStorage w)) (pathname w) (navigations w) (requests w)
          (user w) (loading w) (isAuthenticated w)
          (hasProcessedInitialAuth w) (isComponentMounted w) (currentUser w).

Definition with_navigation (n : Navigation) (w : World) : World :=
  mkWorld (localStorage w) (pathname w) (navigations w ++ [n])%list
          (requests w) (user w) (loading w) (isAuthenticated w)
          (hasProcessedInitialAuth w) (isComponentMounted w) (currentUser w).

Definition with_request (r : Request) (w : World) : World :=
  mkWorld (localStorage w) (pathname w) (navigations w)
          (requests w ++ [r])%list (user w) (loading w) (isAuthenticated w)
          (hasProcessedInitialAuth w) (isComponentMounted w) (currentUser w).

Definition with_user (u : option UserInfo) (w : World) : World :=
  mkWorld (localStorage w) (pathname w) (navigations w) (requests w)
          u (loading w) (isAuthenticated w)
          (hasProcessedInitialAuth w) (isComponentMounted w) (currentUser w).

Definition with_loading (b : bool) (w : World) : World :=
  mkWorld (localStorage w) (pathname w) (navigations w) (requests w)
          (user w) b (isAuthenticated w)
          (hasProcessedInitialAuth w) (isComponentMounted w) (currentUser w).

Definition with_isAuthenticated (b : bool) (w : World) : World :=
  mkWorld (localStorage w) (pathname w) (navigations w) (requests w)
          (user w) (loading w) b
          (hasProcessedInitialAuth w) (isComponentMounted w) (currentUser w).

Definition with_hasProcessedInitialAuth (b : bool) (w : World) : World :=
  mkWorld (localStorage w) (pathname w) (navigations w) (requests w)
          (user w) (loading w) (isAuthenticated w)
          b (isComponentMounted w) (currentUser w).

Definition with_isComponentMounted (b : bool) (w : World) : World :=
  mkWorld (localStorage w) (pathname w) (navigations w) (requests w)
          (user w) (loading w) (isAuthenticated w)
          (hasProcessedInitialAuth w) b (currentUser w).

Definition with_currentUser (c : option FirebaseUser) (w : World) : World :=
  mkWorld (localStorage w) (pathname w) (navigations w) (requests w)
          (user w) (loading w) (isAuthenticated w)
          (hasProcessedInitialAuth w) (isComponentMounted w) c.

(** *** Computations: state and exceptions *)

Inductive Error : Type :=
| FetchTypeError            (* the rejection of [fetch], as it is *)
| NetworkError              (* "Network error: Unable to connect ..." *)
| ApiError (status : Z)     (* "API request failed with status ..." *)
| InvalidJson               (* "Invalid JSON response: ..." *)
| SyntaxError               (* thrown by [JSON.parse] *)
| NullAccess                (* a property read on [null] *)
| NoTokenReceived           (* "No token received from backend" *)
| AudioFailed               (* "Podcast audio generation failed: ..." *)
| IdentityProviderError.    (* a rejection of the identity provider *)

Inductive Result (A : Type) : Type :=
| Return (a : A)
| Throw (e : Error).
Arguments Return {A} a.
Arguments Throw {A} e.

Definition M (A : Type) : Type := World -> Result A * World.

#[global] Instance M_ret : MRet M := fun A a w => (Return a, w).

#[global] Instance M_bind : MBind M := fun A B f m w =>
  match m w with
  | (Return a, w') => f a w'
  | (Throw e, w') => (Throw e, w')
  end.

Definition throw {A} (e : Error) : M A := fun w => (Throw e, w).

(** [try { m } catch (error) { h error }] *)
Definition try_catch {A} (m : M A) (h : Error -> M A) : M A := fun w =>
  match m w with
  | (Return a, w') => (Return a, w')
  | (Throw e, w') => h e w'
  end.

Definition gets {A} (f : World -> A) : M A := fun w => (Return (f w), w).
Definition modify (f : World -> World) : M unit := fun w => (Return tt, f w).
Definition when (b : bool) (m : M unit) : M unit := if b then m else mret tt.

Definition getItem (key : string) : M (option string) :=
  gets (fun w => localStorage w !! key).
Definition setItem (key value : string) : M unit :=
  modify (with_localStorage (insert key value)).
Definition removeItem (key : string) : M unit :=
  modify (with_localStorage (delete key)).

Definition setUser (u : option UserInfo) : M unit := modify (with_user u).
Definition setLoading (b : bool) : M unit := modify (with_loading b).
Definition setIsAuthenticated (b : bool) : M unit :=
  modify (with_isAuthenticated b).

(** [await fetch(url, requestOptions)]: the request leaves, the outcome
    is what the network and the backend make of it. *)
Definition do_fetch (fetch : Request -> FetchOutcome) (r : Request)
    : M FetchOutcome :=
  modify (with_request r);; mret (fetch r).

(** *** [ApiService]: the authenticated API gateway *)

(** The result of [JSON.parse]: it throws, or yields [null] (for the
    cached user: any falsy value), or a value. *)
Inductive Parsed (A : Type) : Type :=
| ParseThrows
| ParsedNull
| ParsedValue (a : A).
Arguments ParseThrows {A}.
Arguments ParsedNull {A}.
Arguments ParsedValue {A} a.

(** A parsed response body as far as the callers read it:
    [response.token] and [response.user]. *)
Record ApiResponse : Type := mkApiResponse {
  token : jsval;
  r_user : option UserInfo
}.

(** The string of a token that is truthy. *)
Definition str (v : jsval) : string :=
  match v with
  | JStr s => s
  | _ => ""
  end.

Definition response_ok (status : Z) : bool :=
  (200 <=? status)%Z && (status <=? 299)%Z.

Section WithJSON.

(** [JSON.parse] on a response body, and on the cached user;
    [JSON.stringify] on a user object. *)
Variable JSON_parse_response : string -> Parsed ApiResponse.
Variable JSON_parse_user : string -> Parsed UserInfo.
Variable JSON_stringify_user : UserInfo -> string.

(** [JSON.stringify(response.user)]; of [undefined] it is [undefined],
    which [setItem] stores as a string. *)
Definition stringify_user (u : option UserInfo) : string :=
  match u with
  | Some u => JSON_stringify_user u
  | None => "undefined"
  end.

Definition getToken : M (option string) := getItem "authToken".

(** The headers [getHeaders] builds, given what [getToken] returned. *)
Definition headers_with (token : option string) : gmap string string :=
  let headers : gmap string string :=
    <["Content-Type" := "application/json"]>
      (<["Accept" := "application/json"]> ∅) in
  if truthy_str token
  then <["Authorization" := "Bearer " +:+ default "" token]> headers
  else headers.

Definition getHeaders : M (gmap string string) :=
  token ← getToken;
  mret (headers_with token).

(** The error thrown for an answer that is not 2xx, after its body was
    read: [new Error(error.error || ...)] with the parsed body, or
    [new Error(...)] when the body does not parse; reading [error.error]
    of a body that parses to [null] throws a [TypeError], which the outer
    [catch] throws again as it is (its message does not mention
    "fetch"). *)
Definition error_of_answer (status : Z) (errorText : string) : Error :=
  match JSON_parse_response errorText with
  | ParsedNull => NullAccess
  | _ => ApiError status
  end.

(** [makeRequest(endpoint, options)]; [None] is a body that parses to
    [null]. *)
Definition makeRequest (fetch : Request -> FetchOutcome)
    (endpoint method : string) : M (option ApiResponse) :=
  headers ← getHeaders;
  let requestOptions := mkRequest endpoint method headers in
  response ← do_fetch fetch requestOptions;
  match response with
  | FetchRejects mentions_fetch =>
      if mentions_fetch then throw NetworkError else throw FetchTypeError
  | Responds status text =>
      if negb (response_ok status) then
        when (status =? 401)%Z
          (removeItem "authToken";;
           removeItem "user";;
           modify (with_navigation (HardRedirect "/")));;
        throw (error_of_answer status text)
      else if String.eqb text "" then
        mret (Some (mkApiResponse JUndefined None))   (* [{ success: true }] *)
      else
        match JSON_parse_response text with
        | ParseThrows => throw InvalidJson
        | ParsedNull => mret None
        | ParsedValue r => mret (Some r)
        end
  end.

Definition post (fetch : Request -> FetchOutcome) (endpoint : string)
    : M (option ApiResponse) :=
  makeRequest fetch endpoint "POST".

Definition get (fetch : Request -> FetchOutcome) (endpoint : string)
    : M (option ApiResponse) :=
  makeRequest fetch endpoint "GET".

Definition delete (fetch : Request -> FetchOutcome) (endpoint : string)
    : M (option ApiResponse) :=
  makeRequest fetch endpoint "DELETE".

(** [apiService.authenticateWithGoogle(idToken, user)] *)
Definition authenticateWithGoogle (fetch : Request -> FetchOutcome)
    : M ApiResponse :=
  response ← post fetch "/auth/google";
  match response with
  | None => throw NullAccess
  | Some response =>
      when (truthy (token response))
        (setItem "authToken" (str (token response));;
         setItem "user" (stringify_user (r_user response)));;
      mret response
  end.

Definition getUserProfile (fetch : Request -> FetchOutcome) :=
  get fetch "/user/profile".

(** [apiService.logout()] *)
Definition api_logout (fetch : Request -> FetchOutcome)
    : M (option ApiResponse) :=
  response ← post fetch "/auth/logout";
  removeItem "authToken";;
  removeItem "user";;
  mret response.

(** [apiService.getStoredUser()] *)
Definition getStoredUser : M (option UserInfo) :=
  userData ← getItem "user";
  if truthy_str userData then
    match JSON_parse_user (default "" userData) with
    | ParseThrows => throw SyntaxError
    | ParsedNull => mret None
    | ParsedValue u => mret (Some u)
    end
  else mret None.

Definition generateMindMap (fetch : Request -> FetchOutcome) :=
  post fetch "/mindmap/generate".
Definition getMindMaps (fetch : Request -> FetchOutcome) :=
  get fetch "/mindmap/list".
Definition getMindMap (fetch : Request -> FetchOutcome) (id : string) :=
  get fetch ("/mindmap/" +:+ id).
Definition deleteMindMap (fetch : Request -> FetchOutcome) (id : string) :=
  delete fetch ("/mindmap/" +:+ id).
Definition chatWithGroq (fetch : Request -> FetchOutcome) :=
  post fetch "/chat/groq".
Definition getAvailableVoices (fetch : Request -> FetchOutcome) :=
  get fetch "/audio/voices".
Definition testConnection (fetch : Request -> FetchOutcome) :=
  get fetch "/test".

(** [apiService.generateAudio(text, voiceId, topicTitle)]: its own
    [fetch], not [makeRequest]; the result is the response blob. *)
Definition generateAudio (fetch : Request -> FetchOutcome) : M string :=
  headers ← getHeaders;
  response ← do_fetch fetch (mkRequest "/audio/generate" "POST" headers);
  match response with
  | FetchRejects _ => throw FetchTypeError
  | Responds status text =>
      if negb (response_ok status) then throw AudioFailed
      else mret text
  end.

(** *** [AuthProvider]: the session state machine *)

Definition setHasProcessedInitialAuth (b : bool) : M unit :=
  modify (with_hasProcessedInitialAuth b).

(** [router.push("/dashboard")] when the page is the entry page. *)
Definition redirectFromHome : M unit :=
  path ← gets pathname;
  when (String.eqb path "/") (modify (with_navigation (RouterPush "/dashboard"))).

Definition clearStorage : M unit :=
  removeItem "authToken";;
  removeItem "user".

(** [auth.signOut()]; [resolves] is whether the identity provider
    completes it. *)
Definition signOut (resolves : bool) : M unit :=
  if resolves then modify (with_currentUser None)
  else throw IdentityProviderError.

(** [if (auth.currentUser) { await auth.signOut() }] *)
Definition signOutIfSignedIn (resolves : bool) : M unit :=
  cu ← gets currentUser;
  when (bool_decide (is_Some cu)) (signOut resolves).

(** [login(idToken, userData)] *)
Definition login (fetch : Request -> FetchOutcome) (userData : UserInfo)
    : M unit :=
  try_catch
    (response ← authenticateWithGoogle fetch;
     if truthy (token response) then
       setItem "authToken" (str (token response));;
       setItem "user" (stringify_user (r_user response));;
       setUser (Some userData);;
       setIsAuthenticated true;;
       redirectFromHome
     else throw NoTokenReceived)
    (fun error => throw error).

(** [logout()]; [signOut_try] and [signOut_catch] are the outcomes of
    the [auth.signOut()] of the [try] block and of the [catch] block. *)
Definition logout (fetch : Request -> FetchOutcome)
    (signOut_try signOut_catch : bool) : M unit :=
  try_catch
    (api_logout fetch;;
     setUser None;;
     setIsAuthenticated false;;
     signOutIfSignedIn signOut_try;;
     clearStorage)
    (fun _ =>
     setUser None;;
     setIsAuthenticated false;;
     clearStorage;;
     signOutIfSignedIn signOut_catch).

Definition userData_of (firebaseUser : FirebaseUser) : UserInfo :=
  mkUser (fb_uid firebaseUser) (fb_email firebaseUser)
         (fb_displayName firebaseUser) (fb_photoURL firebaseUser).

(** The callback given to [onAuthStateChanged].  It runs to its end
    before the next action is taken. *)
Definition onAuthStateChanged (fetch : Request -> FetchOutcome)
    (firebaseUser : option FirebaseUser) : M unit :=
  mounted ← gets isComponentMounted;
  if negb mounted then mret tt else
  processed ← gets hasProcessedInitialAuth;
  match firebaseUser with
  | Some firebaseUser =>
      when (negb processed)
        (try_catch
           (match getIdToken firebaseUser with
            | None => throw IdentityProviderError
            | Some idToken =>
                authenticateWithGoogle fetch;;
                setUser (Some (userData_of firebaseUser));;
                setIsAuthenticated true;;
                setHasProcessedInitialAuth true;;
                redirectFromHome
            end)
           (fun _ => mret tt))
  | None =>
      when processed
        (setUser None;;
         setIsAuthenticated false;;
         setHasProcessedInitialAuth false;;
         clearStorage)
  end;;
  mounted ← gets isComponentMounted;
  when mounted (setLoading false).

(** The body of the effect, up to the subscription: the cached-session
    check. *)
Definition useEffect : M unit :=
  modify (with_isComponentMounted true);;
  storedUser ← getStoredUser;
  token ← getItem "authToken";
  when (bool_decide (is_Some storedUser) && truthy_str token)
    (setUser storedUser;;
     setIsAuthenticated true;;
     setHasProcessedInitialAuth true).

(** The cleanup of the effect. *)
Definition cleanup : M unit :=
  modify (with_isComponentMounted false).

(** The provider before its effect has run: [useState(null)],
    [useState(true)], [useState(false)], [useRef(false)]. *)
Definition initial (storage : gmap string string) (path : string)
    (idp : option FirebaseUser) : World :=
  mkWorld storage path [] [] None true false false false idp.

(** Construction of the session state machine: the initial render and
    the effect. *)
Definition mount (storage : gmap string string) (path : string)
    (idp : option FirebaseUser) : Result unit * World :=
  useEffect (initial storage path idp).

(** *** Sequences of events and calls *)

Inductive Action : Type :=
| AuthStateChanged (fetch : Request -> FetchOutcome)
                   (firebaseUser : option FirebaseUser)
| Login (fetch : Request -> FetchOutcome) (userData : UserInfo)
| Logout (fetch : Request -> FetchOutcome)
         (signOut_try signOut_catch : bool).

(** One action; an identity-provider event reports the provider's
    current user. *)
Definition run (a : Action) : M unit :=
  match a with
  | AuthStateChanged fetch firebaseUser =>
      modify (with_currentUser firebaseUser);;
      onAuthStateChanged fetch firebaseUser
  | Login fetch userData => login fetch userData
  | Logout fetch s1 s2 => logout fetch s1 s2
  end.

Definition step (w : World) (a : Action) : World := snd (run a w).


(** *** The session invariant *)




End WithJSON.

End Client.

(** ** The client against the backend *)

Module Wire.

(** The logout route of the backend, seen from the client when the
    network delivers: the response to a request is what [verifyToken] and
    the handler make of its [Authorization] header.  [JSON_stringify] is
    the serialisation [res.json] applies to the body. *)
Definition logout_route
    (jwt_verify : string -> string -> Z -> Server.Decoded + Server.JsError)
    (env_JWT_SECRET : option string) (now_ms : Z)
    (JSON_stringify : Server.ResBody -> string)
    (r : Client.Request) : Client.FetchOutcome :=
  let res :=
    Server.auth_logout
      (Server.verifyToken jwt_verify env_JWT_SECRET now_ms
         (Client.headers r !! "Authorization")) in
  Client.Responds (Server.status res) (JSON_stringify (Server.body res)).


End Wire.

(** ** An instance of the token library

    The theorems about the backend take [jwt.sign] and [jwt.verify] as
    given, with the contract of the library as hypotheses.  [ClearJwt] is
    a small implementation that meets the contract, to run the model on
    concrete requests: a token is the serialised payload and times, with
    the encoded secret in the place of the signature.  Its errors have
    the names the library gives them: [TokenExpiredError] from the expiry
    on, and [JsonWebTokenError] both for a token that is malformed ("jwt
    malformed") and for one whose signature does not match ("invalid
    signature"). *)

Module ClearJwt.

Import Server.

Definition bit (b : bool) : ascii := if b then "1"%char else "0"%char.
Definition is_one (c : ascii) : bool := Ascii.eqb c "1"%char.

Fixpoint enc_string (s : string) : string :=
  match s with
  | EmptyString => EmptyString
  | String (Ascii b0 b1 b2 b3 b4 b5 b6 b7) r =>
      String (bit b0) (String (bit b1) (String (bit b2) (String (bit b3)
      (String (bit b4) (String (bit b5) (String (bit b6) (String (bit b7)
      (enc_string r))))))))
  end.

Fixpoint dec_string (s : string) : string :=
  match s with
  | String c0 (String c1 (String c2 (String c3
    (String c4 (String c5 (String c6 (String c7 r))))))) =>
      String (Ascii (is_one c0) (is_one c1) (is_one c2) (is_one c3)
                    (is_one c4) (is_one c5) (is_one c6) (is_one c7))
             (dec_string r)
  | _ => EmptyString
  end.

Definition enc_val (v : jsval) : string :=
  match v with
  | JUndefined => "u"
  | JNull => "n"
  | JStr s => String "s"%char (enc_string s)
  end.

Definition dec_val (s : string) : jsval :=
  match s with
  | String c r =>
      if Ascii.eqb c "s"%char then JStr (dec_string r)
      else if Ascii.eqb c "n"%char then JNull
      else JUndefined
  | EmptyString => JUndefined
  end.

Fixpoint enc_pos (p : positive) : string :=
  match p with
  | xH => EmptyString
  | xO q => String "0"%char (enc_pos q)
  | xI q => String "1"%char (enc_pos q)
  end.

Fixpoint dec_pos (s : string) : positive :=
  match s with
  | EmptyString => xH
  | String c r => if is_one c then xI (dec_pos r) else xO (dec_pos r)
  end.

Definition enc_Z (z : Z) : string :=
  match z with
  | Z0 => "z"
  | Zpos p => String "p"%char (enc_pos p)
  | Zneg p => String "m"%char (enc_pos p)
  end.

Definition dec_Z (s : string) : Z :=
  match s with
  | String c r =>
      if Ascii.eqb c "p"%char then Zpos (dec_pos r)
      else if Ascii.eqb c "m"%char then Zneg (dec_pos r)
      else Z0
  | EmptyString => Z0
  end.

Definition dot : ascii := "."%char.

(** The separators of tokens and of headers; the encodings produce
    neither. *)
Definition separator (c : ascii) : Prop := c = dot \/ c = space.

Definition sign (payload : Claims) (secret : string) (iat lifetime : Z)
    : string :=
  enc_val (c_uid payload) +:+ String dot (
  enc_val (c_email payload) +:+ String dot (
  enc_val (c_displayName payload) +:+ String dot (
  enc_Z iat +:+ String dot (
  enc_Z (iat + lifetime) +:+ String dot (
  enc_string secret))))).

Definition verify (token secret : string) (clock : Z) : Decoded + JsError :=
  match split dot token with
  | [u; e; n; i; x; s] =>
      if String.eqb s (enc_string secret) then
        if (dec_Z x <=? clock)%Z then
          inr (mkError "TokenExpiredError" "jwt expired")
        else
          inl (mkDecoded (dec_val u) (dec_val e) (dec_val n)
                         (dec_Z i) (dec_Z x))
      else inr (mkError "JsonWebTokenError" "invalid signature")
  | _ => inr (mkError "JsonWebTokenError" "jwt malformed")
  end.

End ClearJwt.

(** * The rest of the backend, and the mind-map page

    The routes of the Express server beside the identity exchange (podcast
    audio, voices, chat, mind maps, the profile), the two functions that
    build and repair a mind map, and the page of the client that makes up
    a map of its own.  Groq, ElevenLabs and the document store are inputs
    of the handlers, as [fetch] is for the client; the texts of the
    prompts are not modelled, the texts the handlers write are. *)

From stdpp Require pretty.

(** ** Text

    A JavaScript string is modelled by the bytes of its UTF-8 encoding;
    the functions below read characters off these bytes. *)

Module Text.


Definition chars (s : string) : list ascii := list_ascii_of_string s.
Definition text (l : list ascii) : string := string_of_list_ascii l.

(** The one-byte white space and line terminators: U+0009 to U+000D and
    U+0020. *)
Definition space_byte (c : ascii) : bool :=
  let n := N_of_ascii c in
  ((9 <=? n) && (n <=? 13) || (n =? 32))%N.

(** The three-byte white space and line terminators: U+1680,
    U+2000 to U+200A, U+2028, U+2029, U+202F, U+205F, U+3000, U+FEFF. *)
Definition space_bytes3 (c d e : ascii) : bool :=
  let c := N_of_ascii c in
  let d := N_of_ascii d in
  let e := N_of_ascii e in
  ((c =? 225) && (d =? 154) && (e =? 128)
   || (c =? 226) && (d =? 128)
      && ((128 <=? e) && (e <=? 138) || (e =? 168) || (e =? 169) || (e =? 175))
   || (c =? 226) && (d =? 129) && (e =? 159)
   || (c =? 227) && (d =? 128) && (e =? 128)
   || (c =? 239) && (d =? 187) && (e =? 191))%N.

(** The two-byte one: U+00A0. *)
Definition space_bytes2 (c d : ascii) : bool :=
  ((N_of_ascii c =? 194) && (N_of_ascii d =? 160))%N.

(** The number of bytes of the white-space character a text begins
    with; 0 when it begins with none. *)
Definition leading_space (l : list ascii) : nat :=
  match l with
  | c :: d :: e :: _ =>
      if space_byte c then 1
      else if space_bytes2 c d then 2
      else if space_bytes3 c d e then 3
      else 0
  | [c; d] =>
      if space_byte c then 1 else if space_bytes2 c d then 2 else 0
  | [c] => if space_byte c then 1 else 0
  | [] => 0
  end%nat.

(** The same for the end of a text, given last byte first. *)
Definition trailing_space (r : list ascii) : nat :=
  match r with
  | e :: d :: c :: _ =>
      if space_byte e then 1
      else if space_bytes2 d e then 2
      else if space_bytes3 c d e then 3
      else 0
  | [e; d] =>
      if space_byte e then 1 else if space_bytes2 d e then 2 else 0
  | [e] => if space_byte e then 1 else 0
  | [] => 0
  end%nat.

(** Dropping white-space characters while there are some; the fuel is
    the length of the text. *)
Fixpoint strip (measure : list ascii -> nat) (fuel : nat) (l : list ascii)
    : list ascii :=
  match fuel with
  | O => l
  | S fuel =>
      match measure l with
      | O => l
      | k => strip measure fuel (drop k l)
      end
  end.

(** [s.trim()]: the white space is taken off the start, then off the
    end. *)
Definition trimStart_chars (l : list ascii) : list ascii :=
  strip leading_space (length l) l.
Definition trimEnd_chars (l : list ascii) : list ascii :=
  reverse (strip trailing_space (length l) (reverse l)).

Definition trim (s : string) : string :=
  text (trimEnd_chars (trimStart_chars (chars s))).


(** [s.toLowerCase()] on the letters A to Z; the source applies it to
    three constant words of such letters only. *)
Definition lower (c : ascii) : ascii :=
  let n := N_of_ascii c in
  if ((65 <=? n) && (n <=? 90))%N then ascii_of_N (n + 32) else c.
Definition toLowerCase (s : string) : string := text (lower <$> chars s).

(** [String(n)] for a natural number. *)
Definition of_nat (n : nat) : string := pretty.pretty n.
Definition of_Z (z : Z) : string := pretty.pretty z.

(** Truthiness of a string: [""] is falsy. *)
Definition nonempty (s : string) : bool := negb (String.eqb s "").

(** [a || b] on strings. *)
Definition or_else (a b : string) : string := if nonempty a then a else b.

(** A byte below 128 that is not white space: no white-space character
    contains it. *)
Definition plain (c : ascii) : Prop :=
  (N_of_ascii c < 128)%N /\ space_byte c = false.

End Text.

(** ** Mind maps (backend) *)

Module MindMaps.

Record Position : Type := mkPosition {
  x : Z;
  y : Z
}.

(** A node of a mind map.  The fields are as loose as the data: a
    language model may leave any of them out. *)
Record Node : Type := mkNode {
  node_id : jsval;
  label : jsval;
  node_type : jsval;
  level : option Z;
  position : option Position;
  content : jsval;
  parent : jsval;
  children : option (list string)
}.

Record Edge : Type := mkEdge {
  edge_id : jsval;
  source : jsval;
  target : jsval;
  edge_type : jsval
}.

(** The [id] the handler gives a map: the key of the stored document,
    or a timestamp. *)
Inductive MapId : Type :=
| IdText (s : string)
| IdNumber (n : Z).

(** [mindMapData]; [nodes] and [edges] are [None] when the field is
    missing or is not an array, and an element of [nodes] is [None] when
    it is [null]. *)
Record MindMapData : Type := mkData {
  title : jsval;
  nodes : option (list (option Node));
  edges : option (list Edge);
  map_id : option MapId
}.

#[global] Instance Position_eq_dec : EqDecision Position.
Proof. solve_decision. Defined.
#[global] Instance Node_eq_dec : EqDecision Node.
Proof. solve_decision. Defined.
#[global] Instance Edge_eq_dec : EqDecision Edge.
Proof. solve_decision. Defined.

(** [a || b] on scalars. *)
Definition or_val (a b : jsval) : jsval := if truthy a then a else b.

Definition str (v : jsval) : string :=
  match v with
  | JStr s => s
  | _ => ""
  end.

Definition newline : ascii := "010"%char.

(** *** [responseText.match(/\{[\s\S]*\}/)] *)

(** The text after the first [c]. *)
Fixpoint after_first (c : ascii) (s : string) : option string :=
  match s with
  | EmptyString => None
  | String a r => if Ascii.eqb a c then Some r else after_first c r
  end.

(** The text up to the last [c], [c] included. *)
Fixpoint upto_last (c : ascii) (s : string) : option string :=
  match s with
  | EmptyString => None
  | String a r =>
      match upto_last c r with
      | Some p => Some (String a p)
      | None => if Ascii.eqb a c then Some (String a EmptyString) else None
      end
  end.

(** [jsonMatch[0]]: from the first opening brace to the last closing
    brace after it. *)
Definition jsonMatch (responseText : string) : option string :=
  r ← after_first "{"%char responseText;
  p ← upto_last "}"%char r;
  Some (String "{"%char p).

(** *** [createFallbackMindMap] *)

Definition root_content (subjectName : string) : string :=
  "Welcome to " +:+
  subjectName +:+
  "! This comprehensive mind map will guide you through all the essential concepts and help you master this subject step by step. Each topic has been carefully structured to build upon previous knowledge and provide a complete learning experience.

Key learning areas covered:
• Fundamental concepts and principles
• Practical applications and examples
• Advanced techniques and methodologies
• Real-world case studies and scenarios
• Current trends and future developments

Use the interactive features to explore each topic in depth and track your learning progress.".

Definition topic_content (label : string) : string :=
  "This section covers " +:+
  label +:+
  " in comprehensive detail. Here you'll learn the fundamental concepts, practical applications, and key principles that form the foundation of this important area of study.

Key learning objectives:
• Understand the core concepts and terminology
• Apply theoretical knowledge to practical scenarios  
• Analyze real-world examples and case studies
• Develop critical thinking skills in this domain
• Connect this topic to broader subject themes

Learning approach:
- Start with basic definitions and concepts
- Progress through practical examples
- Practice with interactive exercises
- Test understanding with assessments
- Apply knowledge to real-world scenarios

Take your time to explore each concept thoroughly and use the AI assistant to ask questions and clarify any doubts you may have.".

Definition subtopic_content (subtopic label : string) : string :=
  "This subtopic focuses on " +:+
  Text.toLowerCase subtopic +:+
  " aspects of " +:+
  label +:+
  ". 

Detailed content about " +:+
  Text.toLowerCase subtopic +:+
  ":
• In-depth explanation of concepts
• Step-by-step learning approach
• Practical exercises and examples
• Assessment opportunities
• Real-world applications

Learning resources:
- Interactive demonstrations
- Practice problems
- Case studies
- Video explanations
- Additional reading materials

Use the AI chat feature to ask specific questions about this subtopic and get personalized explanations tailored to your learning needs.".

Definition default_topics (subjectName : string) : list string :=
  ["Introduction to " +:+ subjectName;
   "Fundamentals of " +:+ subjectName;
   "Core Concepts";
   "Advanced Topics";
   "Applications";
   "Future Trends"].

(** The topics: the first six lines of the syllabus that are not blank,
    or the default ones when there is none. *)
Definition topics_of (subjectName syllabus : string) : list string :=
  let topics :=
    take 6 (filter (fun line => Text.trim line <> "") (split newline syllabus)) in
  if bool_decide (length topics = 0%nat) then default_topics subjectName
  else topics.

(** [node.children.push(child)] on the node at index [i]. *)
Definition push_child_at (i : nat) (child : string) (nodes : list Node)
    : list Node :=
  alter (fun n =>
           mkNode (node_id n) (label n) (node_type n) (level n) (position n)
                  (content n) (parent n)
                  ((fun l => l ++ [child])%list <$> children n))
        i nodes.

(** [nodes.find((n) => n.id === id)], then [children.push(child)] when
    a node is found. *)
Definition push_child_of (id child : string) (nodes : list Node) : list Node :=
  match list_find (fun n => node_id n = JStr id) nodes with
  | Some (i, _) => push_child_at i child nodes
  | None => nodes
  end.

Definition subtopics : list string := ["Basics"; "Advanced"; "Practice"].

Section Layout.

(** The rounded positions on the two circles: of topic [index] of
    [count], at angle [index * 2 * Math.PI / count] and radius 200 around
    (400, 300); and of its subtopic [subIndex], at radius 120 around the
    topic.  The floating-point trigonometry is not modelled. *)
Variable topic_position : nat -> nat -> Position.
Variable subtopic_position : nat -> nat -> nat -> Position.

Definition root_node (subjectName : string) : Node :=
  mkNode (JStr "root") (JStr subjectName) (JStr "root") (Some 0)
         (Some (mkPosition 400 300)) (JStr (root_content subjectName))
         JUndefined (Some []).

(** The body of [subtopics.forEach]. *)
Definition add_subtopic (label nodeId : string) (index count : nat)
    (st : list Node * list Edge) (sub : nat * string)
    : list Node * list Edge :=
  let '(subIndex, subtopic) := sub in
  let subNodeId := nodeId +:+ "_sub_" +:+ Text.of_nat subIndex in
  let nodes :=
    (st.1 ++ [mkNode (JStr subNodeId) (JStr subtopic) (JStr "subtopic")
                     (Some 2) (Some (subtopic_position index count subIndex))
                     (JStr (subtopic_content subtopic label))
                     (JStr nodeId) (Some [])])%list in
  let edges :=
    (st.2 ++ [mkEdge (JStr ("edge_" +:+ nodeId +:+ "_" +:+ subNodeId))
                     (JStr nodeId) (JStr subNodeId) (JStr "default")])%list in
  (push_child_of nodeId subNodeId nodes, edges).

(** The body of [topics.forEach]. *)
Definition add_topic (count : nat) (st : list Node * list Edge)
    (t : nat * string) : list Node * list Edge :=
  let '(index, topic) := t in
  let nodeId := "topic_" +:+ Text.of_nat (index + 1) in
  let label :=
    Text.or_else (Text.trim topic) ("Topic " +:+ Text.of_nat (index + 1)) in
  let nodes := push_child_at 0 nodeId st.1 in
  let nodes :=
    (nodes ++ [mkNode (JStr nodeId) (JStr label) (JStr "topic") (Some 1)
                      (Some (topic_position index count))
                      (JStr (topic_content label)) (JStr "root") (Some [])])%list in
  let edges :=
    (st.2 ++ [mkEdge (JStr ("edge_root_" +:+ nodeId)) (JStr "root")
                     (JStr nodeId) (JStr "default")])%list in
  if bool_decide (index < 3)%nat then
    fold_left (add_subtopic label nodeId index count)
              (imap pair subtopics) (nodes, edges)
  else (nodes, edges).

(** The tree over given topics. *)
Definition build (subjectName : string) (topics : list string)
    : list Node * list Edge :=
  fold_left (add_topic (length topics)) (imap pair topics)
            ([root_node subjectName], []).

Definition createFallbackMindMap (subjectName syllabus : string)
    : MindMapData :=
  let '(nodes, edges) := build subjectName (topics_of subjectName syllabus) in
  mkData (JStr subjectName) (Some (Some <$> nodes)) (Some edges) None.

(** *** [validateAndEnhanceMindMap] *)

(** The clock and the random numbers (as texts) that the identifier of
    the [i]-th node is made of when it has none. *)
Variable Date_now : nat -> Z.
Variable Math_random : nat -> string.

Definition learn_content (node : Node) : string :=
  "Learn about " +:+
  str (or_val (label node) (JStr "this topic")) +:+
  " and its key concepts. This section provides comprehensive coverage of the fundamental principles and practical applications.".

(** The callback of [nodes.map]. *)
Definition enhance (i : nat) (node : Node) : Node :=
  mkNode
    (or_val (node_id node)
       (JStr ("node_" +:+ Text.of_Z (Date_now i) +:+ "_" +:+ Math_random i)))
    (or_val (label node) (JStr "Untitled Topic"))
    (or_val (node_type node) (JStr "topic"))
    (Some (match level node with
           | Some l => if (l =? 0)%Z then 1 else l
           | None => 1
           end))
    (Some (default (mkPosition 400 300) (position node)))
    (or_val (content node) (JStr (learn_content node)))
    (or_val (parent node) JNull)
    (Some (default [] (children node))).

(** [validateAndEnhanceMindMap(mindMapData, subjectName)]; [None] is a
    falsy [mindMapData].  Reading a field of a [null] node throws. *)
Definition validateAndEnhanceMindMap (mindMapData : option MindMapData)
    (subjectName : string) : MindMapData + Server.JsError :=
  match mindMapData with
  | None =>
      inl (createFallbackMindMap subjectName ("General topics for " +:+ subjectName))
  | Some data =>
      match nodes data with
      | None =>
          inl (createFallbackMindMap subjectName
                 ("General topics for " +:+ subjectName))
      | Some ns =>
          match mapM (fun n => n) ns with
          | None => inr Server.TypeError
          | Some objects =>
              inl (mkData (title data)
                          (Some (Some <$> imap enhance objects))
                          (Some (default [] (edges data)))
                          (map_id data))
          end
      end
  end.

End Layout.

End MindMaps.

(** ** The other routes of the backend *)

Module Routes.

Import Server.

(** A call to a service outside the backend. *)
Inductive Call : Type :=
| GroqCall (model : string)
| TextToSpeechCall (voice_id script : string)
| VoicesCall.

(** What [groq.chat.completions.create] does for the request at hand
    with a given model: it throws, or answers, and
    [completion.choices[0]?.message?.content] is then [content].  The
    texts of the prompts are not modelled. *)
Inductive Completion : Type :=
| GroqThrows (error_status : option Z)
| GroqAnswers (content : jsval).

(** What [fetch] does with a request to ElevenLabs: it rejects, or a
    response arrives, with its status and its body; the body is [None]
    when reading it ([response.text()], [response.buffer()],
    [response.json()]) rejects. *)
Inductive Upstream : Type :=
| UpstreamRejects
| UpstreamResponds (status : Z) (body : option string).

(** The [details] of an error body: none, a text, or the message of
    the error that was caught. *)
Inductive Details : Type :=
| NoDetails
| DetailsText (s : string)
| ErrorMessage.

(** A voice as ElevenLabs lists it, and as the backend passes it on. *)
Record Labels : Type := mkLabels {
  l_gender : jsval;
  l_age : jsval;
  l_accent : jsval
}.

Record Voice : Type := mkVoice {
  v_voice_id : jsval;
  v_name : jsval;
  v_category : jsval;
  v_description : jsval;
  v_preview_url : jsval;
  v_labels : option Labels
}.

Record VoiceInfo : Type := mkVoiceInfo {
  voice_id : jsval;
  name : jsval;
  category : jsval;
  description : jsval;
  preview_url : jsval;
  podcast_recommended : bool;
  gender : jsval;
  age : jsval;
  accent : jsval
}.

(** A stored mind map.  The [MindMap] schema is not among the sources: a
    document has its key and the fields the handlers write and read. *)
Record MindMapDoc : Type := mkDoc {
  _id : string;
  user_uid : jsval;
  subject_name : string;
  syllabus : string;
  mindmap_data : MindMaps.MindMapData;
  created_at : Z;
  updated_at : Z
}.

Record Summary : Type := mkSummary {
  s_id : string;
  s_subject_name : string;
  s_created_at : Z
}.

Inductive Payload : Type :=
| FromAuth (body : ResBody)
| Failure (success : option bool) (error : string) (details : Details)
| Audio (headers : list (string * string)) (audio : string)
| VoiceList (voices podcast_recommendations : list VoiceInfo)
| MindMapReply (mindMap : MindMaps.MindMapData) (note : option string)
| ChatReply (response : jsval) (timestamp : string) (note : option string)
| MindMapList (mindMaps : list Summary)
| MindMapFound (mindMap : MindMapDoc)
| Deleted (message deletedId : string)
| Profile (user : UserRecord).

Record Reply : Type := mkReply {
  status : Z;
  payload : Payload
}.

(** What a handler does with a request: it answers, or an error leaves
    it and no answer is sent. *)
Inductive Outcome : Type :=
| Answers (reply : Reply)
| Unanswered.

(** A field of a JSON request body: a scalar as elsewhere, or a value of
    another type (a number, a boolean, an array, an object).  Of such a
    value the handlers read the truthiness and, in a template, the text
    [String(v)]; it has no string methods. *)
Inductive Field : Type :=
| Plain (v : jsval)
| Other (is_truthy : bool) (as_text : string).

Definition field_truthy (f : Field) : bool :=
  match f with
  | Plain v => truthy v
  | Other is_truthy _ => is_truthy
  end.

(** The text of a field in a template. *)
Definition shown (f : Field) : string :=
  match f with
  | Plain JUndefined => "undefined"
  | Plain JNull => "null"
  | Plain (JStr s) => s
  | Other _ as_text => as_text
  end.

(** The error of calling a string method on a value that has none. *)
Definition not_a_function : JsError :=
  mkError "TypeError" "is not a function".


(** A route behind [verifyToken]: the middleware answers, or the
    handler runs with [req.user]. *)
Definition behind_verifyToken {A} (mw : Middleware)
    (unchanged : A) (handler : Decoded -> Reply * A) : Reply * A :=
  match mw with
  | Respond r => (mkReply (Server.status r) (FromAuth (Server.body r)), unchanged)
  | Next req_user => handler req_user
  end.

Definition response_ok (status : Z) : bool :=
  (200 <=? status)%Z && (status <=? 299)%Z.

(** *** CORS *)

Definition allowedOrigins (NODE_ENV : option string) : list string :=
  if bool_decide (NODE_ENV = Some "production") then
    ["https://adhyayan-ai.vercel.app";
     "https://adhyayan-ai-git-main.vercel.app";
     "https://adhyayan-ai-git-main-sanks011.vercel.app"]
  else
    ["http://localhost:3000";
     "http://127.0.0.1:3000";
     "http://localhost:3001";
     "http://127.0.0.1:3001"].

(** The [origin] option of [cors]: whether the callback is called with
    [true]. *)
Definition cors_origin (NODE_ENV origin : option string) : bool :=
  if negb (truthy_str origin) then true
  else if bool_decide (default "" origin ∈ allowedOrigins NODE_ENV) then true
  else true.   (* "Allow all origins in development" *)

(** The middleware that adds the CORS headers: the headers it sets, and
    whether it answers the request itself (a preflight, with 200) or calls
    [next()]. *)
Inductive Passage : Type :=
| Ends (status : Z)
| CallsNext.

Definition cors_headers (NODE_ENV : option string) (method : string)
    (origin : option string) : list (string * string) * Passage :=
  let allow_origin :=
    if bool_decide (default "" origin ∈ allowedOrigins NODE_ENV)
       || negb (truthy_str origin)
    then [("Access-Control-Allow-Origin",
           if truthy_str origin then default "" origin else "*")]
    else [] in
  let headers :=
    (allow_origin ++
     [("Access-Control-Allow-Methods", "GET, POST, PUT, DELETE, OPTIONS, PATCH");
      ("Access-Control-Allow-Headers",
       "Content-Type, Authorization, X-Requested-With, Accept, Origin");
      ("Access-Control-Allow-Credentials", "true");
      ("Access-Control-Max-Age", "86400")])%list in
  (headers, if String.eqb method "OPTIONS" then Ends 200 else CallsNext).

(** *** Podcast audio *)

Section Groq.

Variable groq : string -> Completion.

Definition podcast_fallback (topicTitle content : string) : string :=
  "Welcome to your learning journey with " +:+
  topicTitle +:+
  "! 

Let me take you through this fascinating topic in a way that's both engaging and easy to understand. 

" +:+
  content +:+
  "

What makes this particularly interesting is how it connects to so many aspects of our daily lives. Think about it this way... when you really understand " +:+
  topicTitle +:+
  ", you're not just learning facts, you're gaining insights that can transform how you see the world.

Here's the key takeaway: every expert was once a beginner, and every complex topic becomes simple when broken down into digestible pieces. 

So take your time with this material, ask questions, and remember that learning is a journey, not a destination. You've got this!".

Definition podcast_models : list string :=
  ["llama-3.1-8b-instant"; "llama3-8b-8192"; "mixtral-8x7b-32768"].

(** The loop over [modelsToTry]: the script of the first model that
    answers one that is not blank, and the models that were called. *)
Fixpoint first_script (models : list string) : option string * list Call :=
  match models with
  | [] => (None, [])
  | model :: rest =>
      match groq model with
      | GroqAnswers script =>
          if truthy script && Text.nonempty (Text.trim (MindMaps.str script))
          then (Some (Text.trim (MindMaps.str script)), [GroqCall model])
          else let '(r, calls) := first_script rest in
               (r, GroqCall model :: calls)
      | GroqThrows _ =>
          let '(r, calls) := first_script rest in
          (r, GroqCall model :: calls)
      end
  end.

(** [generatePodcastScript(topicTitle, content)]; the handler calls it
    with a [content] that is a string, and the title enters the templates
    only, as its text.  Every call to Groq is inside the [try] of the loop
    and nothing else in the outer [try] throws: its [catch] is not
    reached. *)
Definition generatePodcastScript (topicTitle content : string)
    : string * list Call :=
  let '(script, calls) := first_script podcast_models in
  (default (podcast_fallback topicTitle content) script, calls).



Variable text_to_speech : string -> string -> Upstream.


(** *** Chat *)








(** *** Voices *)

Definition recommended_ids : list string :=
  ["21m00Tcm4TlvDq8ikWAM";
   "AZnzlk1XvdvUeBnXmlld";
   "EXAVITQu4vr4xnSDxMaL";
   "ErXwobaYiN019PkySvjV";
   "VR6AewLTigWG4xSOukaG"].

(** The callback of [data.voices.map]. *)
Definition voice_info (voice : Voice) : VoiceInfo :=
  mkVoiceInfo (v_voice_id voice) (v_name voice) (v_category voice)
    (v_description voice) (v_preview_url voice)
    (bool_decide (v_voice_id voice ∈ JStr <$> recommended_ids))
    (MindMaps.or_val (from_option l_gender JUndefined (v_labels voice))
                     (JStr "unknown"))
    (MindMaps.or_val (from_option l_age JUndefined (v_labels voice))
                     (JStr "unknown"))
    (MindMaps.or_val (from_option l_accent JUndefined (v_labels voice))
                     (JStr "unknown")).

(** [array.sort(compare)]: the sort is stable; [insert] puts an element
    before the first one it does not come after. *)
Fixpoint insert_sorted {A} (compare : A -> A -> Z) (a : A) (l : list A)
    : list A :=
  match l with
  | [] => [a]
  | b :: l' =>
      if (compare a b <=? 0)%Z then a :: b :: l'
      else b :: insert_sorted compare a l'
  end.

Definition Array_sort {A} (compare : A -> A -> Z) (l : list A) : list A :=
  foldr (insert_sorted compare) [] l.

(** The comparison that puts the recommended voices first. *)
Definition recommended_first (a b : VoiceInfo) : Z :=
  if podcast_recommended a && negb (podcast_recommended b) then (-1)
  else if negb (podcast_recommended a) && podcast_recommended b then 1
  else 0.

Variable voices_api : Upstream.
Variable JSON_parse_voices : string -> Client.Parsed (option (list Voice)).

(** [app.get("/api/audio/voices", verifyToken, ...)], behind the
    middleware; the parsed body is [data.voices], [None] when the field
    is missing. *)
Definition audio_voices : Reply * list Call :=
  let failed := mkReply 500 (Failure None "Failed to fetch voices" ErrorMessage) in
  (match voices_api with
   | UpstreamRejects => failed
   | UpstreamResponds status None => failed
   | UpstreamResponds status (Some content) =>
       if negb (response_ok status) then
         mkReply status (Failure None "Failed to fetch voices"
                                 (DetailsText content))
       else
         match JSON_parse_voices content with
         | Client.ParsedValue (Some data_voices) =>
             let voices :=
               Array_sort recommended_first (voice_info <$> data_voices) in
             mkReply 200
               (VoiceList voices
                  (filter (fun v => podcast_recommended v = true) voices))
         | _ => failed
         end
   end, [VoicesCall]).

(** *** Mind maps *)

(** The request body of [/api/mindmap/generate].  The subject is a
    text where the body has one: the maps carry it as their title, and
    what the store makes of another value is with its schema. *)
Record GenerateBody : Type := mkGenerateBody {
  g_subjectName : jsval;
  g_syllabus : Field
}.

(** What saving a new document does: the store assigns the key and the
    timestamps, or the save fails. *)
Inductive SaveOutcome : Type :=
| Saved (_id : string) (created_at updated_at : Z)
| SaveFails.

Variable JSON_parse_mindmap : string -> Client.Parsed MindMaps.MindMapData.
Variable topic_position : nat -> nat -> MindMaps.Position.
Variable subtopic_position : nat -> nat -> nat -> MindMaps.Position.
Variable Date_now : nat -> Z.
Variable Math_random : nat -> string.

Definition createFallbackMindMap :=
  MindMaps.createFallbackMindMap topic_position subtopic_position.

Definition validateAndEnhanceMindMap :=
  MindMaps.validateAndEnhanceMindMap topic_position subtopic_position
    Date_now Math_random.

(** [createFallbackMindMap(subjectName, syllabus)] on the field of the
    body: [syllabus.split] throws unless the syllabus is a string. *)
Definition fallback_of (subjectName : string) (syllabus : Field)
    : MindMaps.MindMapData + JsError :=
  match syllabus with
  | Plain (JStr text) => inl (createFallbackMindMap subjectName text)
  | _ => inr not_a_function
  end.

Definition generate_models : list string :=
  ["llama-3.1-8b-instant"; "llama3-8b-8192"; "llama3-70b-8192";
   "mixtral-8x7b-32768"; "gemma-7b-it"].

(** The loop over [modelsToTry]: [mindMapData] when the loop ends
    ([None] is [null]), and the models that were called. *)
Fixpoint first_mindmap (models : list string)
    : option MindMaps.MindMapData * list Call :=
  match models with
  | [] => (None, [])
  | model :: rest =>
      let continue :=
        let '(r, calls) := first_mindmap rest in
        (r, GroqCall model :: calls) in
      match groq model with
      | GroqThrows _ => continue
      | GroqAnswers content =>
          let responseText := MindMaps.str (MindMaps.or_val content (JStr "")) in
          match MindMaps.jsonMatch responseText with
          | None => continue
          | Some json =>
              match JSON_parse_mindmap json with
              | Client.ParseThrows => continue
              | Client.ParsedNull => (None, [GroqCall model])
              | Client.ParsedValue data => (Some data, [GroqCall model])
              end
          end
      end
  end.

Definition with_id (id : MindMaps.MapId) (data : MindMaps.MindMapData)
    : MindMaps.MindMapData :=
  MindMaps.mkData (MindMaps.title data) (MindMaps.nodes data)
                  (MindMaps.edges data) (Some id).

(** [app.post("/api/mindmap/generate", verifyToken, ...)], behind the
    middleware: the outcome, the collection afterwards and the calls;
    [now_ms] is the [Date.now()] of a temporary identifier.  The [catch]
    of the handler calls [createFallbackMindMap] again, outside any
    [try]: when that throws, the handler ends without an answer.  A
    document is taken to keep the syllabus as a text: of a syllabus that
    is not a string, its text. *)
Definition mindmap_generate (now_ms : Z) (save : SaveOutcome)
    (req_user : Decoded) (body : GenerateBody) (db : list MindMapDoc)
    : Outcome * list MindMapDoc * list Call :=
  if negb (truthy (g_subjectName body))
     || negb (field_truthy (g_syllabus body))
  then (Answers (mkReply 400
                   (Failure None "Subject name and syllabus are required"
                            NoDetails)), db, [])
  else
    let subjectName := MindMaps.str (g_subjectName body) in
    let syllabus := g_syllabus body in
    (* the outer [catch] *)
    let caught :=
      match fallback_of subjectName syllabus with
      | inl fallbackMindMap =>
          Answers
            (mkReply 200
               (MindMapReply
                  (with_id (MindMaps.IdNumber now_ms) fallbackMindMap)
                  (Some
                     "Generated using fallback method due to API limitations")))
      | inr _ => Unanswered
      end in
    let '(mindMapData, calls) := first_mindmap generate_models in
    let mindMapData :=
      match mindMapData with
      | Some data => inl data
      | None => fallback_of subjectName syllabus
      end in
    match mindMapData with
    | inr _ => (caught, db, calls)
    | inl mindMapData =>
        match validateAndEnhanceMindMap (Some mindMapData) subjectName with
        | inr _ => (caught, db, calls)
        | inl mindMapData =>
            match save with
            | Saved _id created updated =>
                (Answers
                   (mkReply 200
                      (MindMapReply
                         (with_id (MindMaps.IdText _id) mindMapData) None)),
                 (db ++ [mkDoc _id (d_uid req_user) subjectName
                               (shown syllabus) mindMapData
                               created updated])%list,
                 calls)
            | SaveFails =>
                (Answers
                   (mkReply 200
                      (MindMapReply
                         (with_id (MindMaps.IdNumber now_ms) mindMapData)
                         None)),
                 db, calls)
            end
        end
    end.

End Groq.

Section Store.

(** Whether the store answers, and whether a text casts to a document
    key (a query on a key that does not cast throws). *)
Variable db_ok : bool.
Variable castable : string -> bool.

(** The sort of the store by [created_at], newest first. *)
Variable sort_newest_first : list MindMapDoc -> list MindMapDoc.

Definition summary (mindMap : MindMapDoc) : Summary :=
  mkSummary (_id mindMap) (subject_name mindMap) (created_at mindMap).

(** [app.get("/api/mindmap/list", verifyToken, ...)] *)
Definition mindmap_list (req_user : Decoded) (db : list MindMapDoc) : Reply :=
  if db_ok then
    mkReply 200
      (MindMapList
         (summary <$>
            sort_newest_first
              (filter (fun m => user_uid m = d_uid req_user) db)))
  else mkReply 200 (MindMapList []).

(** [MindMap.findOne({ _id: id, user_uid: uid })] *)
Definition find_owned (id : string) (uid : jsval) (db : list MindMapDoc)
    : option (nat * MindMapDoc) :=
  list_find (fun m => _id m = id /\ user_uid m = uid) db.

(** [app.get("/api/mindmap/:id", verifyToken, ...)] *)
Definition mindmap_get (id : string) (req_user : Decoded)
    (db : list MindMapDoc) : Reply :=
  if db_ok && castable id then
    match find_owned id (d_uid req_user) db with
    | None => mkReply 404 (Failure None "Mind map not found" NoDetails)
    | Some (_, mindMap) => mkReply 200 (MindMapFound mindMap)
    end
  else mkReply 500 (Failure None "Failed to fetch mind map" NoDetails).

(** [app.delete("/api/mindmap/:id", verifyToken, ...)]: the reply and
    the collection afterwards. *)
Definition mindmap_delete (id : string) (req_user : Decoded)
    (db : list MindMapDoc) : Reply * list MindMapDoc :=
  if db_ok && castable id then
    match find_owned id (d_uid req_user) db with
    | Some (i, _) =>
        (mkReply 200 (Deleted "Mind map deleted successfully" id),
         delete i db)
    | None =>
        (mkReply 404
           (Failure (Some false)
              "Mind map not found or you don't have permission to delete it"
              NoDetails), db)
    end
  else
    (mkReply 500 (Failure (Some false) "Failed to delete mind map" ErrorMessage),
     db).

(** [app.get("/api/user/profile", verifyToken, ...)] *)
Definition user_profile (req_user : Decoded) (users : list UserRecord)
    : Reply :=
  if db_ok then
    match findOne (d_uid req_user) users with
    | None => mkReply 404 (Failure None "User not found" NoDetails)
    | Some (_, user) => mkReply 200 (Profile user)
    end
  else mkReply 500 (Failure None "Failed to fetch user profile" NoDetails).

End Store.

End Routes.

(** ** The mind-map page (client) *)

Module Page.

Import MindMaps.

(** *** [generateDummyMindMap] *)

Definition root_content (subject : string) : string :=
  "Welcome to " +:+
  subject +:+
  "! This mind map will guide you through all the essential concepts and help you master this subject step by step.".

Definition topic_content (label : string) : string :=
  "This section covers " +:+
  label +:+
  ". Here you'll learn the key concepts, practical applications, and important details that will help you understand this topic thoroughly. 

Key points to remember:
• Understanding the fundamentals is crucial
• Practice with real examples
• Connect concepts to practical applications
• Review regularly for better retention

Take your time to explore this topic and use the interactive features to enhance your learning experience.".

Definition subtopic_content (subtopic label : string) : string :=
  "This is a subtopic focusing on " +:+
  subtopic +:+
  " aspects of " +:+
  label +:+
  ". 

Detailed content about " +:+
  Text.toLowerCase subtopic +:+
  ":
• In-depth explanation of concepts
• Step-by-step learning approach
• Practical exercises and examples
• Assessment opportunities

Use the quiz feature to test your understanding and the AI chat to ask specific questions about this subtopic.".

Definition default_topics (subject : string) : list string :=
  ["Introduction to " +:+ subject; "Fundamentals"; "Core Concepts";
   "Advanced Topics"; "Applications"; "Future Trends"].

(** [content ? content.split(...).filter(line => line.trim()) : [...]] *)
Definition topics_of (subject content : string) : list string :=
  if Text.nonempty content then
    filter (fun line => Text.trim line <> "") (split newline content)
  else default_topics subject.

(** A node without a [parent] has [undefined] there, and one without
    [children] has [None]. *)
Definition root_node (subject : string) : Node :=
  mkNode (JStr "root") (JStr subject) (JStr "root") (Some 0)
         (Some (mkPosition 400 300)) (JStr (root_content subject))
         JUndefined (Some []).

(** The body of [subtopics.forEach]. *)
Definition add_subtopic (label nodeId : string) (index : nat)
    (st : list Node * list Edge) (sub : nat * string)
    : list Node * list Edge :=
  let '(subIndex, subtopic) := sub in
  let subNodeId := nodeId +:+ "_sub_" +:+ Text.of_nat subIndex in
  ((st.1 ++ [mkNode (JStr subNodeId) (JStr subtopic) (JStr "subtopic")
                    (Some 2)
                    (Some (mkPosition (100 + Z.of_nat subIndex * 150)
                                      (400 + Z.of_nat index * 100)))
                    (JStr (subtopic_content subtopic label))
                    (JStr nodeId) None])%list,
   (st.2 ++ [mkEdge (JStr ("edge_" +:+ nodeId +:+ "_" +:+ subNodeId))
                    (JStr nodeId) (JStr subNodeId) (JStr "default")])%list).

(** The body of [topics.slice(0, 6).forEach]. *)
Definition add_topic (st : list Node * list Edge) (t : nat * string)
    : list Node * list Edge :=
  let '(index, topic) := t in
  let nodeId := "node_" +:+ Text.of_nat (index + 1) in
  let label :=
    Text.or_else (Text.trim topic) ("Topic " +:+ Text.of_nat (index + 1)) in
  let nodes := push_child_at 0 nodeId st.1 in
  let nodes :=
    (nodes ++ [mkNode (JStr nodeId) (JStr label) (JStr "topic") (Some 1)
                      (Some (mkPosition
                               (200 + Z.of_nat (index mod 3) * 400)
                               (150 + Z.of_nat (index / 3) * 300)))
                      (JStr (topic_content label)) (JStr "root") None])%list in
  let edges :=
    (st.2 ++ [mkEdge (JStr ("edge_root_" +:+ nodeId)) (JStr "root")
                     (JStr nodeId) (JStr "default")])%list in
  if bool_decide (index < 3)%nat then
    fold_left (add_subtopic label nodeId index) (imap pair subtopics)
              (nodes, edges)
  else (nodes, edges).

Definition build (subject : string) (topics : list string)
    : list Node * list Edge :=
  fold_left add_topic (imap pair (take 6 topics)) ([root_node subject], []).

Record DummyMindMap : Type := mkDummy {
  d_id : string;
  d_title : string;
  d_subject : string;
  d_content : string;
  d_nodes : list Node;
  d_edges : list Edge;
  d_created_at : string;
  d_updated_at : string
}.

(** [generateDummyMindMap(subject, content)]; [now_ms] is [Date.now()]
    and [created], [updated] are the two [new Date().toISOString()]. *)
Definition generateDummyMindMap (now_ms : Z) (created updated : string)
    (subject content : string) : DummyMindMap :=
  let '(nodes, edges) := build subject (topics_of subject content) in
  mkDummy ("mindmap_" +:+ Text.of_Z now_ms) subject subject content
          nodes edges created updated.

(** *** Signing out and the guards of the page *)

Section WithJSON.

Variable JSON_parse_response : string -> Client.Parsed Client.ApiResponse.

(** [handleSignOut] *)
Definition handleSignOut (fetch : Client.Request -> Client.FetchOutcome)
    (signOut_try signOut_catch : bool) : Client.M unit :=
  Client.try_catch
    (Client.logout JSON_parse_response fetch signOut_try signOut_catch;;
     Client.modify (Client.with_navigation (Client.RouterPush "/")))
    (fun _ => mret tt).

End WithJSON.

(** What the component returns. *)
Inductive View : Type :=
| LoadingView
| Nothing
| Content.

(** The guards at the head of the render: [if (loading)], then
    [if (!isAuthenticated || !user)]. *)
Definition render : Client.M View :=
  loading ← Client.gets Client.loading;
  if loading : bool then (mret LoadingView : Client.M View) else
  isAuthenticated ← Client.gets Client.isAuthenticated;
  user ← Client.gets Client.user;
  if negb isAuthenticated || negb (bool_decide (is_Some user)) then
    (Client.modify (Client.with_navigation (Client.RouterPush "/"));;
     mret Nothing : Client.M View)
  else mret Content.

End Page.

(** * Properties *)

(** ** Splitting strings *)

Lemma split_not_nil sep s : split sep s <> [].
Proof.
  destruct s as [|c r]; simpl; [discriminate|].
  destruct (Ascii.eqb c sep); [discriminate|].
  destruct (split sep r); discriminate.
Qed.

Lemma split_lacks sep s : lacks sep s = true -> split sep s = [s].
Proof.
  induction s as [|c r IH]; simpl; [reflexivity|].
  intros [Hc Hr]%andb_prop.
  apply negb_true_iff in Hc. rewrite Hc, (IH Hr). reflexivity.
Qed.

Lemma split_app sep a b :
  lacks sep a = true -> split sep (a +:+ String sep b) = a :: split sep b.
Proof.
  induction a as [|c r IH]; simpl.
  - intros _. rewrite Ascii.eqb_refl. reflexivity.
  - intros [Hc Hr]%andb_prop.
    apply negb_true_iff in Hc. rewrite Hc, (IH Hr). reflexivity.
Qed.

Lemma lacks_app c a b : lacks c (a +:+ b) = lacks c a && lacks c b.
Proof.
  induction a as [|x r IH]; simpl; [reflexivity|].
  rewrite IH, andb_assoc. reflexivity.
Qed.

Lemma eqb_empty_false s : s <> "" -> String.eqb s "" = false.
Proof. intros H. apply String.eqb_neq. exact H. Qed.

Lemma truthy_str_Some s : s <> "" -> truthy_str (Some s) = true.
Proof. intros H. simpl. rewrite (eqb_empty_false s H). reflexivity. Qed.

(** The second segment of a header made of a scheme, a space and a
    token. *)
Lemma second_segment scheme t :
  lacks space scheme = true -> lacks space t = true ->
  split space (scheme +:+ String space t) !! 1%nat = Some t.
Proof.
  intros Hs Ht. rewrite (split_app _ _ _ Hs), (split_lacks _ _ Ht).
  reflexivity.
Qed.

Lemma app_not_empty a c b : a +:+ String c b <> "".
Proof. destruct a; discriminate. Qed.

(** ** The token verification middleware *)

Section VerifyToken.

Import Server.

Variable jwt_verify : string -> string -> Z -> Decoded + JsError.
Variable env_JWT_SECRET : option string.
Variable now_ms : Z.

Let verifyToken := verifyToken jwt_verify env_JWT_SECRET now_ms.
Let reject (code : string) := Respond (mkResponse 401 (ErrorJson code)).

Lemma verifyToken_no_header : verifyToken None = reject "No authorization header provided".
Proof. reflexivity. Qed.

Lemma verifyToken_empty_header :
  verifyToken (Some "") = reject "No authorization header provided".
Proof. reflexivity. Qed.

(** A header without a space has no second segment. *)
Lemma verifyToken_one_segment h :
  h <> "" -> lacks space h = true ->
  verifyToken (Some h) = reject "No token provided".
Proof.
  intros Hne Hl. subst verifyToken. unfold Server.verifyToken.
  rewrite (truthy_str_Some h Hne). simpl.
  rewrite (split_lacks _ _ Hl). reflexivity.
Qed.

(** A scheme followed by a space and nothing has an empty one. *)
Lemma verifyToken_empty_segment scheme :
  lacks space scheme = true ->
  verifyToken (Some (scheme +:+ String space "")) = reject "No token provided".
Proof.
  intros Hl. subst verifyToken. unfold Server.verifyToken.
  rewrite truthy_str_Some by apply app_not_empty. simpl.
  rewrite (second_segment scheme "" Hl eq_refl). reflexivity.
Qed.

(** With a scheme and a token, the outcome is that of [jwt.verify] on
    the token, whatever the scheme. *)
Lemma verifyToken_two_segments scheme t :
  lacks space scheme = true -> lacks space t = true -> t <> "" ->
  verifyToken (Some (scheme +:+ String space t)) =
  match jwt_verify t (jwtSecret env_JWT_SECRET) (clockTimestamp now_ms) with
  | inl decoded => Next decoded
  | inr error =>
      if String.eqb (name error) "TokenExpiredError" then reject "Token expired"
      else if String.eqb (name error) "JsonWebTokenError"
           then reject "Invalid token format"
           else reject "Invalid token"
  end.
Proof.
  intros Hs Ht Hne. subst verifyToken. unfold Server.verifyToken.
  rewrite truthy_str_Some by apply app_not_empty. simpl.
  rewrite (second_segment scheme t Hs Ht).
  rewrite (truthy_str_Some t Hne). reflexivity.
Qed.

(** In general: the token is the second segment of the header, and
    the outcome is that of [jwt.verify] on it. *)
Lemma verifyToken_second_segment header :
  header <> "" ->
  verifyToken (Some header) =
  match split space header !! 1%nat with
  | None => reject "No token provided"
  | Some token =>
      if String.eqb token "" then reject "No token provided"
      else
        match jwt_verify token (jwtSecret env_JWT_SECRET)
                (clockTimestamp now_ms) with
        | inl decoded => Next decoded
        | inr error =>
            if String.eqb (name error) "TokenExpiredError"
            then reject "Token expired"
            else if String.eqb (name error) "JsonWebTokenError"
                 then reject "Invalid token format"
                 else reject "Invalid token"
        end
  end.
Proof.
  intros Hne. subst verifyToken. unfold Server.verifyToken.
  rewrite (truthy_str_Some header Hne). cbn [negb default from_option].
  unfold id.
  destruct (split space header !! 1%nat) as [token|]; [|reflexivity].
  cbn [truthy_str from_option]. destruct (String.eqb token ""); reflexivity.
Qed.

End VerifyToken.

(** C7, as amended.  The middleware answers 401 with "No
    authorization header provided" when the header is missing or empty and
    with "No token provided" when the header has no second segment or an
    empty one; when [jwt.verify] throws on the token, it answers 401 with
    one of three codes, chosen by the name of the error and by nothing
    else: "Token expired" (TokenExpiredError), "Invalid token format"
    (JsonWebTokenError) and "Invalid token" (any other error); the three
    codes are pairwise different. *)
Theorem verifyToken_failure_kinds
    (jwt_verify : string -> string -> Z -> Server.Decoded + Server.JsError)
    (env_JWT_SECRET : option string) (now_ms : Z) :
  let verifyToken := Server.verifyToken jwt_verify env_JWT_SECRET now_ms in
  let reject code :=
    Server.Respond (Server.mkResponse 401 (Server.ErrorJson code)) in
  verifyToken None = reject "No authorization header provided" /\
  verifyToken (Some "") = reject "No authorization header provided" /\
  (forall header, header <> "" ->
     split space header !! 1%nat = None \/
     split space header !! 1%nat = Some "" ->
     verifyToken (Some header) = reject "No token provided") /\
  (forall header token error,
     split space header !! 1%nat = Some token -> token <> "" ->
     jwt_verify token (Server.jwtSecret env_JWT_SECRET)
                (Server.clockTimestamp now_ms) = inr error ->
     verifyToken (Some header) =
       reject (if String.eqb (Server.name error) "TokenExpiredError"
               then "Token expired"
               else if String.eqb (Server.name error) "JsonWebTokenError"
                    then "Invalid token format"
                    else "Invalid token")) /\
  "Token expired" <> "Invalid token format" /\
  "Token expired" <> "Invalid token" /\
  "Invalid token format" <> "Invalid token".
Proof.
  intros verifyToken reject. subst verifyToken reject.
  split; [reflexivity|]. split; [reflexivity|].
  split; [|split; [|repeat split; discriminate]].
  - intros header Hne Hsegment.
    rewrite (verifyToken_second_segment _ _ _ _ Hne).
    destruct Hsegment as [-> | ->]; reflexivity.
  - intros header token error Hsegment Hne Hverify.
    assert (header <> "") as Hheader by (intros ->; discriminate).
    rewrite (verifyToken_second_segment _ _ _ _ Hheader), Hsegment.
    rewrite (eqb_empty_false token Hne), Hverify.
    destruct (String.eqb (Server.name error) "TokenExpiredError");
      [reflexivity|].
    destruct (String.eqb (Server.name error) "JsonWebTokenError");
      reflexivity.
Qed.

(** C10. The middleware takes the second space-separated segment of
    the header as the token and looks at nothing else: for every header,
    the outcome is that of [jwt.verify] on its second segment, and 401 "No
    token provided" when there is none or it is empty.  So any first word
    followed by a space and a token that [jwt.verify] accepts is accepted
    with the decoded claims, whatever follows after another space; and the
    same token alone, with no word before it, is answered 401 "No token
    provided". *)
Theorem verifyToken_takes_second_segment
    (jwt_verify : string -> string -> Z -> Server.Decoded + Server.JsError)
    (env_JWT_SECRET : option string) (now_ms : Z) :
  let verifyToken := Server.verifyToken jwt_verify env_JWT_SECRET now_ms in
  let reject code :=
    Server.Respond (Server.mkResponse 401 (Server.ErrorJson code)) in
  let verify token :=
    jwt_verify token (Server.jwtSecret env_JWT_SECRET)
               (Server.clockTimestamp now_ms) in
  (forall header, header <> "" ->
     verifyToken (Some header) =
       match split space header !! 1%nat with
       | None => reject "No token provided"
       | Some token =>
           if String.eqb token "" then reject "No token provided"
           else
             match verify token with
             | inl decoded => Server.Next decoded
             | inr error =>
                 if String.eqb (Server.name error) "TokenExpiredError"
                 then reject "Token expired"
                 else if String.eqb (Server.name error) "JsonWebTokenError"
                      then reject "Invalid token format"
                      else reject "Invalid token"
             end
       end) /\
  (forall scheme token decoded,
     lacks space scheme = true -> lacks space token = true -> token <> "" ->
     verify token = inl decoded ->
     verifyToken (Some (scheme +:+ " " +:+ token)) = Server.Next decoded /\
     (forall rest,
        verifyToken (Some (scheme +:+ " " +:+ token +:+ " " +:+ rest)) =
          Server.Next decoded) /\
     verifyToken (Some token) = reject "No token provided").
Proof.
  intros verifyToken reject verify. subst verifyToken reject verify.
  split; [intros header Hne; apply verifyToken_second_segment, Hne|].
  intros scheme token decoded Hs Ht Hne Hv. split; [|split].
  - change (scheme +:+ " " +:+ token) with (scheme +:+ String space token).
    rewrite (verifyToken_two_segments _ _ _ _ _ Hs Ht Hne), Hv. reflexivity.
  - intros rest.
    change (scheme +:+ " " +:+ token +:+ " " +:+ rest)
      with (scheme +:+ String space (token +:+ String space rest)).
    rewrite verifyToken_second_segment by apply app_not_empty.
    rewrite (split_app _ _ _ Hs), (split_app _ _ _ Ht).
    change ((scheme :: token :: split space rest) !! 1%nat) with (Some token).
    cbv beta iota. rewrite (eqb_empty_false token Hne), Hv. reflexivity.
  - apply verifyToken_one_segment; assumption.
Qed.

(** ** The reference token library meets the library contract *)

Module ClearJwtFacts.

Import Server ClearJwt.

Lemma dec_enc_string s : dec_string (enc_string s) = s.
Proof.
  induction s as [|[b0 b1 b2 b3 b4 b5 b6 b7] r IH]; [reflexivity|].
  cbn [enc_string dec_string]. rewrite IH.
  destruct b0, b1, b2, b3, b4, b5, b6, b7; reflexivity.
Qed.

Lemma dec_enc_val v : dec_val (enc_val v) = v.
Proof. destruct v; simpl; [reflexivity..|]. rewrite dec_enc_string. reflexivity. Qed.

Lemma dec_enc_pos p : dec_pos (enc_pos p) = p.
Proof. induction p; simpl; congruence. Qed.

Lemma dec_enc_Z z : dec_Z (enc_Z z) = z.
Proof. destruct z; simpl; rewrite ?dec_enc_pos; reflexivity. Qed.

Lemma lacks_bit c b r :
  separator c -> lacks c (String (bit b) r) = lacks c r.
Proof. intros [-> | ->]; destruct b; reflexivity. Qed.

Lemma lacks_enc_string c s : separator c -> lacks c (enc_string s) = true.
Proof.
  intros Hc. induction s as [|[b0 b1 b2 b3 b4 b5 b6 b7] r IH]; [reflexivity|].
  cbn [enc_string]. rewrite !(lacks_bit c) by exact Hc. exact IH.
Qed.

Lemma lacks_enc_val c v : separator c -> lacks c (enc_val v) = true.
Proof.
  intros Hc. destruct v as [| |s]; [destruct Hc as [-> | ->]; reflexivity..|].
  change (enc_val (JStr s)) with (String "s"%char (enc_string s)).
  cbn [lacks]. rewrite (lacks_enc_string c s Hc).
  destruct Hc as [-> | ->]; reflexivity.
Qed.

Lemma lacks_enc_pos c p : separator c -> lacks c (enc_pos p) = true.
Proof.
  intros Hc. induction p as [p IH|p IH|]; [| |reflexivity].
  - change (enc_pos p~1) with (String (bit true) (enc_pos p)).
    rewrite (lacks_bit c) by exact Hc. exact IH.
  - change (enc_pos p~0) with (String (bit false) (enc_pos p)).
    rewrite (lacks_bit c) by exact Hc. exact IH.
Qed.

Lemma lacks_enc_Z c z : separator c -> lacks c (enc_Z z) = true.
Proof.
  intros Hc. destruct z as [|p|p]; cbn [enc_Z lacks];
    rewrite ?(lacks_enc_pos c p Hc); destruct Hc as [-> | ->]; reflexivity.
Qed.

Lemma split_sign payload secret iat lifetime :
  split dot (sign payload secret iat lifetime) =
  [enc_val (c_uid payload); enc_val (c_email payload);
   enc_val (c_displayName payload); enc_Z iat; enc_Z (iat + lifetime);
   enc_string secret].
Proof.
  unfold sign.
  rewrite !split_app by (apply lacks_enc_val || apply lacks_enc_Z; left; reflexivity).
  rewrite split_lacks by (apply lacks_enc_string; left; reflexivity).
  reflexivity.
Qed.

Lemma verify_sign payload secret iat lifetime clock :
  verify (sign payload secret iat lifetime) secret clock =
  if (iat + lifetime <=? clock)%Z
  then inr (mkError "TokenExpiredError" "jwt expired")
  else inl (mkDecoded (c_uid payload) (c_email payload)
                      (c_displayName payload) iat (iat + lifetime)).
Proof.
  unfold verify. rewrite split_sign, String.eqb_refl.
  rewrite !dec_enc_val, !dec_enc_Z. reflexivity.
Qed.

Lemma verify_fresh payload secret iat lifetime clock :
  clock < iat + lifetime ->
  verify (sign payload secret iat lifetime) secret clock =
  inl (mkDecoded (c_uid payload) (c_email payload) (c_displayName payload)
                 iat (iat + lifetime)).
Proof.
  intros H. rewrite verify_sign.
  destruct (Z.leb_spec (iat + lifetime) clock); [lia|reflexivity].
Qed.

Lemma verify_expired payload secret iat lifetime clock :
  iat + lifetime <= clock ->
  exists msg, verify (sign payload secret iat lifetime) secret clock =
              inr (mkError "TokenExpiredError" msg).
Proof.
  intros H. rewrite verify_sign.
  destruct (Z.leb_spec (iat + lifetime) clock); [eauto|lia].
Qed.

Lemma sign_compact payload secret iat lifetime :
  lacks space (sign payload secret iat lifetime) = true /\
  sign payload secret iat lifetime <> "".
Proof.
  split.
  - unfold sign. repeat (rewrite lacks_app; cbn [lacks]).
    rewrite !lacks_enc_val, !lacks_enc_Z, lacks_enc_string
      by (right; reflexivity).
    reflexivity.
  - unfold sign. apply app_not_empty.
Qed.

End ClearJwtFacts.

(** ** The identity exchange *)

Lemma auth_google_response
    (jwt_sign : Server.Claims -> string -> Z -> Z -> string)
    env_JWT_SECRET now_ms idToken (u : UserInfo) out db :
  fst (Server.auth_google jwt_sign env_JWT_SECRET now_ms
         (Server.mkBody idToken (Some u)) out db) =
  Server.mkResponse 200
    (Server.AuthJson true
       (jwt_sign (Server.mkClaims (uid u) (email u) (displayName u))
                 (Server.jwtSecret env_JWT_SECRET)
                 (Server.clockTimestamp now_ms) Server.expiresIn_7d)
       u).
Proof. destruct u. reflexivity. Qed.

Section RoundTrip.

Import Server.

Variable jwt_sign : Claims -> string -> Z -> Z -> string.
Variable jwt_verify : string -> string -> Z -> Decoded + JsError.

(** The contract of the token library: a token verifies under the
    secret it was signed with while the clock is before its expiry, and
    yields the payload with the two times; from the expiry on,
    verification throws [TokenExpiredError]; a token is a non-empty
    string without spaces. *)
Hypothesis verify_fresh : forall payload secret iat lifetime clock,
  clock < iat + lifetime ->
  jwt_verify (jwt_sign payload secret iat lifetime) secret clock =
  inl (mkDecoded (c_uid payload) (c_email payload) (c_displayName payload)
                 iat (iat + lifetime)).
Hypothesis verify_expired : forall payload secret iat lifetime clock,
  iat + lifetime <= clock ->
  exists msg, jwt_verify (jwt_sign payload secret iat lifetime) secret clock =
              inr (mkError "TokenExpiredError" msg).
Hypothesis sign_compact : forall payload secret iat lifetime,
  lacks space (jwt_sign payload secret iat lifetime) = true /\
  jwt_sign payload secret iat lifetime <> "".

(** C2. The token the exchange issues for a claimed identity, presented
    as [Authorization: Bearer <token>] under the same secret, is accepted
    while the clock (in seconds) is before the issue time plus seven days,
    and the request then carries the same uid, email and displayName; from
    that time on it is rejected with 401 "Token expired". *)
Theorem session_token_round_trip
    (env_JWT_SECRET : option string) (issued_ms : Z)
    (idToken : option string) (u : UserInfo)
    (out : DbOutcome) (db : list UserRecord) :
  exists token,
    fst (auth_google jwt_sign env_JWT_SECRET issued_ms
           (mkBody idToken (Some u)) out db) =
    mkResponse 200 (AuthJson true token u) /\
    forall now_ms,
      (clockTimestamp now_ms < clockTimestamp issued_ms + 7 * 24 * 60 * 60 ->
       exists decoded,
         verifyToken jwt_verify env_JWT_SECRET now_ms
           (Some ("Bearer " +:+ token)) = Next decoded /\
         d_uid decoded = uid u /\
         d_email decoded = email u /\
         d_displayName decoded = displayName u) /\
      (clockTimestamp issued_ms + 7 * 24 * 60 * 60 <= clockTimestamp now_ms ->
       verifyToken jwt_verify env_JWT_SECRET now_ms
         (Some ("Bearer " +:+ token)) =
       Respond (mkResponse 401 (ErrorJson "Token expired"))).
Proof.
  eexists. split; [apply auth_google_response|].
  set (payload := mkClaims (uid u) (email u) (displayName u)).
  set (secret := jwtSecret env_JWT_SECRET).
  set (iat := clockTimestamp issued_ms).
  destruct (sign_compact payload secret iat expiresIn_7d) as [Hsp Hne].
  intros now_ms.
  change ("Bearer " +:+ jwt_sign payload secret iat expiresIn_7d)
    with ("Bearer" +:+ String space (jwt_sign payload secret iat expiresIn_7d)).
  rewrite (verifyToken_two_segments jwt_verify env_JWT_SECRET now_ms
             "Bearer" _ eq_refl Hsp Hne).
  fold secret. split.
  - intros Hfresh. rewrite verify_fresh by exact Hfresh.
    eexists. split; [reflexivity|]. repeat split.
  - intros Hexp. destruct (verify_expired payload secret iat expiresIn_7d
                             (clockTimestamp now_ms) Hexp) as [msg ->].
    reflexivity.
Qed.

End RoundTrip.

Lemma session_token_round_trip_witness :
  let u := mkUser (JStr "u1") (JStr "a@b.com") (JStr "A") JNull in
  exists token,
    fst (Server.auth_google ClearJwt.sign None 0
           (Server.mkBody (Some "assertion") (Some u)) Server.DbOk []) =
    Server.mkResponse 200 (Server.AuthJson true token u) /\
    (exists decoded,
       Server.verifyToken ClearJwt.verify None 604799999
         (Some ("Bearer " +:+ token)) = Server.Next decoded /\
       Server.d_uid decoded = JStr "u1" /\
       Server.d_email decoded = JStr "a@b.com" /\
       Server.d_displayName decoded = JStr "A") /\
    Server.verifyToken ClearJwt.verify None 604800000
      (Some ("Bearer " +:+ token)) =
    Server.Respond (Server.mkResponse 401 (Server.ErrorJson "Token expired")).
Proof.
  intros u.
  destruct (session_token_round_trip ClearJwt.sign ClearJwt.verify
              ClearJwtFacts.verify_fresh ClearJwtFacts.verify_expired
              ClearJwtFacts.sign_compact None 0 (Some "assertion") u
              Server.DbOk []) as (token & Hresp & Htime).
  exists token. split; [exact Hresp|]. split.
  - apply (Htime 604799999). reflexivity.
  - apply (Htime 604800000). discriminate.
Defined.

(** C5, at a body without the claimed identity record: the exchange
    answers 500 "Authentication failed", a server-error status and not a
    client-error one.  [user.uid] throws inside the inner [try], which
    swallows it, and again at [jwt.sign], where the outer [catch]
    answers. *)
Theorem exchange_without_user_is_500
    (jwt_sign : Server.Claims -> string -> Z -> Z -> string)
    (env_JWT_SECRET : option string) (now_ms : Z) (idToken : option string)
    (out : Server.DbOutcome) (db : list Server.UserRecord) :
  let response :=
    fst (Server.auth_google jwt_sign env_JWT_SECRET now_ms
           (Server.mkBody idToken None) out db) in
  response = Server.mkResponse 500 (Server.ErrorJson "Authentication failed") /\
  ~ (400 <= Server.status response < 500).
Proof. split; [reflexivity|]. simpl. lia. Qed.

(** C6. When the upsert of the User Record raises, whatever the error and
    wherever it is raised, the exchange of a well-formed body still
    answers 200 with a freshly signed token over the claimed uid, email
    and displayName and with the claimed identity echoed; the store is
    left as it was. *)
Theorem exchange_survives_persistence_failure
    (jwt_sign : Server.Claims -> string -> Z -> Z -> string)
    (env_JWT_SECRET : option string) (now_ms : Z) (idToken : option string)
    (u : UserInfo) (out : Server.DbOutcome) (db : list Server.UserRecord)
    (dbError : Server.JsError) :
  Server.storeUser now_ms (Some u) out db = inr dbError ->
  Server.auth_google jwt_sign env_JWT_SECRET now_ms
    (Server.mkBody idToken (Some u)) out db =
  (Server.mkResponse 200
     (Server.AuthJson true
        (jwt_sign (Server.mkClaims (uid u) (email u) (displayName u))
                  (Server.jwtSecret env_JWT_SECRET)
                  (Server.clockTimestamp now_ms) (7 * 24 * 60 * 60))
        u),
   db).
Proof.
  intros Hfail. unfold Server.auth_google. cbn [Server.user].
  rewrite Hfail. destruct u. reflexivity.
Qed.

Lemma exchange_survives_persistence_failure_witness :
  let u := mkUser (JStr "u1") (JStr "a@b.com") (JStr "A") JNull in
  let db := [Server.mkRecord (JStr "u1") (JStr "a@b.com") (JStr "Old") JNull None] in
  Server.auth_google ClearJwt.sign None 5000
    (Server.mkBody (Some "assertion") (Some u)) Server.SaveThrows db =
  (Server.mkResponse 200
     (Server.AuthJson true
        (ClearJwt.sign (Server.mkClaims (JStr "u1") (JStr "a@b.com") (JStr "A"))
                       "your-secret-key" 5 604800)
        u),
   db).
Proof.
  intros u db.
  apply (exchange_survives_persistence_failure ClearJwt.sign None 5000
           (Some "assertion") u Server.SaveThrows db Server.dbError).
  reflexivity.
Defined.

(** The upsert on a store that already has the subject id: the first
    record with that id is replaced, in place, by one that differs from it
    in the display name, the avatar URL and the timestamp only. *)
Lemma storeUser_update now_ms (u : UserInfo) db i r :
  Server.findOne (uid u) db = Some (i, r) ->
  Server.storeUser now_ms (Some u) Server.DbOk db =
  inl (<[i := Server.mkRecord (Server.firebase_uid r) (Server.r_email r)
                 (displayName u) (photoURL u) (Some now_ms)]> db).
Proof. intros H. unfold Server.storeUser. rewrite H. reflexivity. Qed.

(** Whatever the request and the outcome of the store, every record of
    the collection is still there afterwards, at its place, with its
    subject id and email. *)
Lemma storeUser_keeps_records now_ms user out db db' :
  Server.storeUser now_ms user out db = inl db' ->
  forall (j : nat) r0, db !! j = Some r0 ->
    exists r1, db' !! j = Some r1 /\
               Server.firebase_uid r1 = Server.firebase_uid r0 /\
               Server.r_email r1 = Server.r_email r0.
Proof.
  unfold Server.storeUser. destruct user as [u|]; [|discriminate].
  destruct (Server.findOne (uid u) db) as [[i r]|] eqn:Hfind.
  - destruct out; try discriminate. intros [= <-] j r0 Hj.
    apply list_find_Some in Hfind as (Hi & _ & _).
    destruct (decide (i = j)) as [->|Hne].
    + rewrite list_lookup_insert_eq by (eapply lookup_lt_Some; eauto).
      eexists. split; [reflexivity|]. simpl. split; congruence.
    + rewrite list_lookup_insert_ne by exact Hne. eauto.
  - destruct out; try discriminate. intros [= <-] j r0 Hj.
    exists r0. split; [|split; reflexivity].
    apply lookup_app_l_Some. exact Hj.
Qed.

(** C8. When the store already has a record with the subject id of the
    request and the store works, the exchange replaces the first such
    record, in place, by a copy whose display name, avatar URL and
    timestamp are those of the request and whose subject id and email are
    the stored ones; the collection keeps its length and its other
    records.  And whatever the request and the outcome of the store, no
    record is removed: each is still at its place afterwards with its
    subject id and email. *)
Theorem exchange_updates_profile_only
    (jwt_sign : Server.Claims -> string -> Z -> Z -> string)
    (env_JWT_SECRET : option string) (now_ms : Z) (idToken : option string)
    (u : UserInfo) (db : list Server.UserRecord)
    (k : nat) (r0 : Server.UserRecord) :
  db !! k = Some r0 ->
  Server.firebase_uid r0 = uid u ->
  let after body out :=
    snd (Server.auth_google jwt_sign env_JWT_SECRET now_ms body out db) in
  (exists i r,
     db !! i = Some r /\ Server.firebase_uid r = uid u /\
     after (Server.mkBody idToken (Some u)) Server.DbOk =
     <[i := Server.mkRecord (Server.firebase_uid r) (Server.r_email r)
              (displayName u) (photoURL u) (Some now_ms)]> db) /\
  length (after (Server.mkBody idToken (Some u)) Server.DbOk) = length db /\
  (forall body out (j : nat) r1, db !! j = Some r1 ->
     exists r2, after body out !! j = Some r2 /\
                Server.firebase_uid r2 = Server.firebase_uid r1 /\
                Server.r_email r2 = Server.r_email r1).
Proof.
  intros Hk Huid after. subst after.
  assert (Hfind : is_Some (Server.findOne (uid u) db)).
  { apply (list_find_elem_of _ _ r0); [|exact Huid].
    apply list_elem_of_lookup. eauto. }
  destruct Hfind as [[i r] Hfind].
  pose proof (storeUser_update now_ms u db i r Hfind) as Hstore.
  pose proof Hfind as (Hi & Hr & _)%list_find_Some.
  assert (Hafter :
    snd (Server.auth_google jwt_sign env_JWT_SECRET now_ms
           (Server.mkBody idToken (Some u)) Server.DbOk db) =
    <[i := Server.mkRecord (Server.firebase_uid r) (Server.r_email r)
             (displayName u) (photoURL u) (Some now_ms)]> db).
  { unfold Server.auth_google. cbn [Server.user]. rewrite Hstore. reflexivity. }
  split; [exists i, r; auto|].
  split; [rewrite Hafter; apply length_insert|].
  intros body out j r1 Hj. unfold Server.auth_google.
  destruct (Server.storeUser now_ms (Server.user body) out db) as [db'|e] eqn:Hs.
  - destruct (storeUser_keeps_records _ _ _ _ _ Hs j r1 Hj) as (r2 & ? & ? & ?).
    exists r2. destruct (Server.user body); simpl; auto.
  - exists r1. destruct (Server.user body); simpl; auto.
Qed.

Lemma exchange_updates_profile_only_witness :
  let u := mkUser (JStr "u1") (JStr "new@b.com") (JStr "New") (JStr "pic") in
  let other := Server.mkRecord (JStr "u0") (JStr "z@b.com") (JStr "Z") JNull None in
  let mine := Server.mkRecord (JStr "u1") (JStr "a@b.com") (JStr "Old") JNull None in
  let db := [other; mine] in
  exists i r,
    db !! i = Some r /\ Server.firebase_uid r = JStr "u1" /\
    snd (Server.auth_google ClearJwt.sign None 5000
           (Server.mkBody (Some "assertion") (Some u)) Server.DbOk db) =
    <[i := Server.mkRecord (Server.firebase_uid r) (Server.r_email r)
             (JStr "New") (JStr "pic") (Some 5000)]> db.
Proof.
  intros u other mine db.
  exact (proj1 (exchange_updates_profile_only ClearJwt.sign None 5000
                  (Some "assertion") u db 1 mine eq_refl eq_refl)).
Defined.

Example exchange_update_example :
  let u := mkUser (JStr "u1") (JStr "new@b.com") (JStr "New") (JStr "pic") in
  let other := Server.mkRecord (JStr "u0") (JStr "z@b.com") (JStr "Z") JNull None in
  let mine := Server.mkRecord (JStr "u1") (JStr "a@b.com") (JStr "Old") JNull None in
  snd (Server.auth_google ClearJwt.sign None 5000
         (Server.mkBody (Some "assertion") (Some u)) Server.DbOk [other; mine]) =
  [other;
   Server.mkRecord (JStr "u1") (JStr "a@b.com") (JStr "New") (JStr "pic")
                   (Some 5000)].
Proof. vm_compute. reflexivity. Qed.

Lemma verifyToken_takes_second_segment_witness :
  let token :=
    ClearJwt.sign (Server.mkClaims (JStr "u1") (JStr "a@b.com") (JStr "A"))
                  "your-secret-key" 0 604800 in
  let decoded :=
    Server.mkDecoded (JStr "u1") (JStr "a@b.com") (JStr "A") 0 604800 in
  Server.verifyToken ClearJwt.verify None 1000
    (Some ("Basic" +:+ " " +:+ token)) = Server.Next decoded /\
  Server.verifyToken ClearJwt.verify None 1000
    (Some ("Basic" +:+ " " +:+ token +:+ " " +:+ "trailer")) =
    Server.Next decoded /\
  Server.verifyToken ClearJwt.verify None 1000 (Some token) =
    Server.Respond (Server.mkResponse 401 (Server.ErrorJson "No token provided")) /\
  Server.verifyToken ClearJwt.verify None 1000
    (Some ("Bearer" +:+ " " +:+ "x" +:+ " " +:+ token)) =
    Server.Respond
      (Server.mkResponse 401 (Server.ErrorJson "Invalid token format")).
Proof.
  intros token decoded.
  destruct (verifyToken_takes_second_segment ClearJwt.verify None 1000)
    as [Hgeneral Hscheme].
  destruct (Hscheme "Basic" token decoded) as (Haccepted & Hrest & Halone).
  - reflexivity.
  - vm_compute. reflexivity.
  - discriminate.
  - vm_compute. reflexivity.
  - split; [exact Haccepted|]. split; [exact (Hrest "trailer")|].
    split; [exact Halone|].
    rewrite Hgeneral by discriminate. vm_compute. reflexivity.
Defined.

Lemma verifyToken_failure_kinds_witness :
  let token :=
    ClearJwt.sign (Server.mkClaims (JStr "u1") (JStr "a@b.com") (JStr "A"))
                  "your-secret-key" 0 604800 in
  let reject code :=
    Server.Respond (Server.mkResponse 401 (Server.ErrorJson code)) in
  let notBefore (_ _ : string) (_ : Z) : Server.Decoded + Server.JsError :=
    inr (Server.mkError "NotBeforeError" "jwt not active") in
  Server.verifyToken ClearJwt.verify None 0 (Some "Bearer") =
    reject "No token provided" /\
  Server.verifyToken ClearJwt.verify None 0 (Some ("Bearer" +:+ " ")) =
    reject "No token provided" /\
  Server.verifyToken ClearJwt.verify None 604800000
    (Some ("Bearer" +:+ " " +:+ token)) = reject "Token expired" /\
  Server.verifyToken ClearJwt.verify None 0
    (Some ("Bearer" +:+ " " +:+ "garbage")) = reject "Invalid token format" /\
  Server.verifyToken notBefore None 0
    (Some ("Bearer" +:+ " " +:+ token)) = reject "Invalid token".
Proof.
  intros token reject notBefore.
  destruct (verifyToken_failure_kinds ClearJwt.verify None 0)
    as (_ & _ & Hnone & Hcode & _).
  destruct (verifyToken_failure_kinds ClearJwt.verify None 604800000)
    as (_ & _ & _ & Hexpired & _).
  destruct (verifyToken_failure_kinds notBefore None 0)
    as (_ & _ & _ & Hother & _).
  split; [|split; [|split; [|split]]].
  - apply Hnone; [discriminate|left; reflexivity].
  - apply Hnone; [discriminate|right; reflexivity].
  - rewrite (Hexpired _ token
               (Server.mkError "TokenExpiredError" "jwt expired"));
      [reflexivity|vm_compute; reflexivity|discriminate
      |vm_compute; reflexivity].
  - rewrite (Hcode _ "garbage"
               (Server.mkError "JsonWebTokenError" "jwt malformed"));
      [reflexivity|reflexivity|discriminate|reflexivity].
  - rewrite (Hother _ token
               (Server.mkError "NotBeforeError" "jwt not active"));
      [reflexivity|vm_compute; reflexivity|discriminate|reflexivity].
Defined.

(** C7 as stated fails: a token that is well formed but signed with
    another secret, and a text that is no token at all, are both a
    [JsonWebTokenError] for the library: the middleware answers both with
    "Invalid token format", and a signature that does not verify has no
    code of its own. *)
Lemma forged_and_malformed_tokens_share_a_code :
  let claims := Server.mkClaims (JStr "u1") (JStr "a@b.com") (JStr "A") in
  let forged := ClearJwt.sign claims "another-secret" 0 604800 in
  let reject code :=
    Server.Respond (Server.mkResponse 401 (Server.ErrorJson code)) in
  ClearJwt.verify forged "another-secret" 1 =
    inl (Server.mkDecoded (JStr "u1") (JStr "a@b.com") (JStr "A") 0 604800) /\
  ClearJwt.verify forged "your-secret-key" 1 =
    inr (Server.mkError "JsonWebTokenError" "invalid signature") /\
  ClearJwt.verify "garbage" "your-secret-key" 1 =
    inr (Server.mkError "JsonWebTokenError" "jwt malformed") /\
  Server.verifyToken ClearJwt.verify None 1000
    (Some ("Bearer" +:+ " " +:+ forged)) = reject "Invalid token format" /\
  Server.verifyToken ClearJwt.verify None 1000
    (Some ("Bearer" +:+ " " +:+ "garbage")) = reject "Invalid token format".
Proof. vm_compute. repeat split. Qed.

(** ** The client: gateway and session state machine *)

(** Symbolic execution of the client's computations: [exec] unfolds
    them to the state they act on, [exec_calls] stops at the gateway and
    leaves [makeRequest] folded. *)
Ltac exec :=
  cbv [Client.mount Client.useEffect Client.initial Client.cleanup
       Client.step Client.run Client.onAuthStateChanged Client.login
       Client.logout Client.api_logout Client.authenticateWithGoogle
       Client.post Client.get Client.delete Client.getStoredUser
       Client.getUserProfile Client.redirectFromHome Client.clearStorage
       Client.signOutIfSignedIn Client.signOut
       Client.setHasProcessedInitialAuth Client.setUser Client.setLoading
       Client.setIsAuthenticated Client.getItem Client.setItem
       Client.removeItem Client.gets Client.modify Client.when Client.throw
       Client.try_catch Client.M_bind Client.M_ret Client.userData_of
       Client.makeRequest Client.getHeaders Client.getToken
       Client.generateAudio Client.do_fetch mbind mret].

Ltac exec_calls :=
  cbv [Client.mount Client.useEffect Client.initial Client.cleanup
       Client.step Client.run Client.onAuthStateChanged Client.login
       Client.logout Client.api_logout Client.authenticateWithGoogle
       Client.post Client.get Client.delete Client.getStoredUser
       Client.getUserProfile Client.redirectFromHome Client.clearStorage
       Client.signOutIfSignedIn Client.signOut
       Client.setHasProcessedInitialAuth Client.setUser Client.setLoading
       Client.setIsAuthenticated Client.getItem Client.setItem
       Client.removeItem Client.gets Client.modify Client.when Client.throw
       Client.try_catch Client.M_bind Client.M_ret Client.userData_of mbind
       mret].

(** Execution of the session state machine down to the exchange. *)
Ltac exec_session :=
  cbv [Client.step Client.run Client.onAuthStateChanged Client.login
       Client.redirectFromHome Client.clearStorage
       Client.setHasProcessedInitialAuth Client.setUser Client.setLoading
       Client.setIsAuthenticated Client.getItem Client.setItem
       Client.removeItem Client.gets Client.modify Client.when Client.throw
       Client.try_catch Client.M_bind Client.M_ret Client.userData_of mbind
       mret].

Section ClientFacts.

Import Client.

Variable JSON_parse_response : string -> Parsed ApiResponse.
Variable JSON_parse_user : string -> Parsed UserInfo.
Variable JSON_stringify_user : UserInfo -> string.

(** The request [makeRequest] sends from a world. *)
Lemma makeRequest_unfold fetch endpoint method w :
  let req := mkRequest endpoint method
               (headers_with (localStorage w !! "authToken")) in
  let w1 := with_request req w in
  makeRequest JSON_parse_response fetch endpoint method w =
  match fetch req with
  | FetchRejects mentions_fetch =>
      (Throw (if mentions_fetch then NetworkError else FetchTypeError), w1)
  | Responds status text =>
      if negb (response_ok status) then
        (Throw (error_of_answer JSON_parse_response status text),
         if (status =? 401)%Z
         then with_navigation (HardRedirect "/")
                (with_localStorage (base.delete "user")
                   (with_localStorage (base.delete "authToken") w1))
         else w1)
      else if String.eqb text "" then
        (Return (Some (mkApiResponse JUndefined None)), w1)
      else
        match JSON_parse_response text with
        | ParseThrows => (Throw InvalidJson, w1)
        | ParsedNull => (Return None, w1)
        | ParsedValue r => (Return (Some r), w1)
        end
  end.
Proof.
  intros req w1. exec. fold req. fold w1.
  destruct (fetch req) as [b|status text].
  - destruct b; reflexivity.
  - destruct (response_ok status); simpl.
    + destruct (String.eqb text ""); [reflexivity|].
      destruct (JSON_parse_response text); reflexivity.
    + destruct (status =? 401)%Z; reflexivity.
Qed.

(** Removing the two keys of the token store. *)
Lemma clear_twice (m : gmap string string) :
  base.delete "user" (base.delete "authToken"
    (base.delete "user" (base.delete "authToken" m))) =
  base.delete "user" (base.delete "authToken" m).
Proof.
  apply map_eq. intros k. rewrite !lookup_delete.
  repeat case_decide; reflexivity.
Qed.

Lemma clear_absent (m : gmap string string) :
  m !! "authToken" = None -> m !! "user" = None ->
  base.delete "user" (base.delete "authToken" m) = m.
Proof.
  intros Ht Hu. rewrite (delete_id m "authToken" Ht). apply delete_id, Hu.
Qed.

(** A 401 answer to a request sent through [makeRequest] removes both
    keys and forces the hard navigation to the entry page, whatever the
    endpoint and the method. *)
Lemma makeRequest_401_tears_down fetch endpoint method w text :
  fetch (mkRequest endpoint method
           (headers_with (localStorage w !! "authToken"))) = Responds 401 text ->
  exists w',
    makeRequest JSON_parse_response fetch endpoint method w =
      (Throw (error_of_answer JSON_parse_response 401 text), w') /\
    localStorage w' !! "authToken" = None /\
    localStorage w' !! "user" = None /\
    navigations w' = (navigations w ++ [HardRedirect "/"])%list.
Proof.
  intros Hfetch. rewrite makeRequest_unfold, Hfetch. simpl.
  eexists. split; [reflexivity|]. simpl.
  rewrite lookup_delete_ne by discriminate.
  rewrite !lookup_delete_eq. auto.
Qed.

(** [generateAudio] on an answer that is not 2xx, 401 included: it
    throws, and the request it sent is all that has happened. *)
Lemma generateAudio_not_ok fetch w status text :
  let req := mkRequest "/audio/generate" "POST"
               (headers_with (localStorage w !! "authToken")) in
  fetch req = Responds status text -> response_ok status = false ->
  generateAudio fetch w = (Throw AudioFailed, with_request req w).
Proof.
  intros req Hfetch Hok. exec. fold req. rewrite Hfetch, Hok. reflexivity.
Qed.

End ClientFacts.

(** C3, at an authenticated session whose token the backend answers 401
    to: [generateAudio] throws its error and leaves the token store and
    the page as they were, both keys still stored and no navigation
    forced. *)
Theorem generateAudio_401_keeps_session (text : string) :
  let storage : gmap string string :=
    <["authToken" := "expired.session.token"]> (<["user" := "cached user"]> ∅) in
  let w := Client.mkWorld storage "/dashboard" [] []
             (Some (mkUser (JStr "u1") (JStr "a@b.com") (JStr "A") JNull))
             false true true true None in
  let fetch (_ : Client.Request) := Client.Responds 401 text in
  exists w',
    Client.generateAudio fetch w = (Client.Throw Client.AudioFailed, w') /\
    Client.localStorage w' !! "authToken" = Some "expired.session.token" /\
    Client.localStorage w' !! "user" = Some "cached user" /\
    Client.navigations w' = [] /\
    Client.requests w' =
      [Client.mkRequest "/audio/generate" "POST"
         (Client.headers_with (Some "expired.session.token"))].
Proof.
  intros storage w fetch. eexists. split; [reflexivity|].
  repeat split.
Qed.

Section SessionFacts.

Import Client.

Variable JSON_parse_response : string -> Parsed ApiResponse.
Variable JSON_parse_user : string -> Parsed UserInfo.
Variable JSON_stringify_user : UserInfo -> string.

Let logout := logout JSON_parse_response.

(** The request [logout()] sends from a world. *)
Let logout_request (w : World) : Request :=
  mkRequest "/auth/logout" "POST" (headers_with (localStorage w !! "authToken")).

Lemma ok_not_401 status : response_ok status = true -> (status =? 401)%Z = false.
Proof. unfold response_ok. lia. Qed.

(** What [logout()] does from any world: it ends logged out with both
    keys removed, whatever the backend answers; it throws only when the
    identity provider rejects the sign-out. *)
Lemma logout_spec fetch s1 s2 w :
  exists r w',
    logout fetch s1 s2 w = (r, w') /\
    user w' = None /\
    isAuthenticated w' = false /\
    localStorage w' =
      base.delete "user" (base.delete "authToken" (localStorage w)) /\
    loading w' = loading w /\
    hasProcessedInitialAuth w' = hasProcessedInitialAuth w /\
    isComponentMounted w' = isComponentMounted w /\
    pathname w' = pathname w /\
    requests w' = (requests w ++ [logout_request w])%list /\
    navigations w' =
      match fetch (logout_request w) with
      | Responds status _ =>
          if (status =? 401)%Z
          then (navigations w ++ [HardRedirect "/"])%list
          else navigations w
      | FetchRejects _ => navigations w
      end /\
    (currentUser w = None \/ (s1 = true /\ s2 = true) ->
     r = Return tt /\ currentUser w' = None).
Proof.
  subst logout. exec_calls. rewrite makeRequest_unfold.
  fold (logout_request w).
  destruct w as [ls pn nav rq us ld ia hp cm cu].
  destruct (fetch _) as [b|status text]; simpl;
    [|destruct (response_ok status) eqn:Hok; simpl;
      [rewrite (ok_not_401 status Hok);
       destruct (String.eqb text ""); simpl;
       [|destruct (JSON_parse_response text); simpl]
      |destruct (status =? 401)%Z; simpl]];
    destruct cu as [fu|]; simpl;
    try destruct s1; try destruct s2; simpl;
    do 2 eexists; (split; [reflexivity|]); simpl;
    rewrite ?clear_twice;
    repeat (split; [reflexivity|]);
    first [reflexivity | intros [?|[? ?]]; discriminate].
Qed.

(** C4, as amended.  From the logged-out state, [logout()] returns
    without throwing when the identity provider has nobody signed in or
    completes the sign-out; user, isAuthenticated and the token store are
    as before, and so are the loading flag and the ref.  It does send the
    logout request, without an Authorization header, it leaves the
    identity provider signed out, and when the answer is 401 the gateway
    forces the hard navigation to the entry page. *)
Theorem logout_when_unauthenticated fetch s1 s2 w :
  user w = None -> isAuthenticated w = false ->
  localStorage w !! "authToken" = None -> localStorage w !! "user" = None ->
  currentUser w = None \/ (s1 = true /\ s2 = true) ->
  let request := mkRequest "/auth/logout" "POST" (headers_with None) in
  headers request !! "Authorization" = None /\
  exists w',
    logout fetch s1 s2 w = (Return tt, w') /\
    user w' = None /\
    isAuthenticated w' = false /\
    localStorage w' = localStorage w /\
    loading w' = loading w /\
    hasProcessedInitialAuth w' = hasProcessedInitialAuth w /\
    currentUser w' = None /\
    requests w' = (requests w ++ [request])%list /\
    navigations w' =
      match fetch request with
      | Responds status _ =>
          if (status =? 401)%Z
          then (navigations w ++ [HardRedirect "/"])%list
          else navigations w
      | FetchRejects _ => navigations w
      end.
Proof.
  intros Hu Ha Ht Hk Hidp request. split; [reflexivity|].
  destruct (logout_spec fetch s1 s2 w)
    as (r & w' & Hrun & ? & ? & Hls & ? & ? & _ & _ & Hreq & Hnav & Hret).
  destruct (Hret Hidp) as [-> ?].
  unfold logout_request in Hreq, Hnav. rewrite Ht in Hreq, Hnav.
  rewrite (clear_absent _ Ht Hk) in Hls.
  exists w'. repeat (split; [assumption|]). exact Hnav.
Qed.

End SessionFacts.

(** The backend answers 401 to a logout request without an Authorization
    header, which is the request a logged-out client sends. *)
Lemma logout_route_without_token jwt_verify env_JWT_SECRET now_ms stringify :
  Wire.logout_route jwt_verify env_JWT_SECRET now_ms stringify
    (Client.mkRequest "/auth/logout" "POST" (Client.headers_with None)) =
  Client.Responds 401
    (stringify (Server.ErrorJson "No authorization header provided")).
Proof. reflexivity. Qed.

(** C4 as stated fails: from the logged-out state, with this backend
    behind [fetch], [logout()] forces a hard navigation to the entry
    page. *)
Lemma logout_when_unauthenticated_redirects :
  let w := Client.mkWorld ∅ "/dashboard" [] [] None false false false true None in
  let fetch := Wire.logout_route ClearJwt.verify None 0 (fun _ => "{}") in
  let w' := snd (Client.logout (fun _ => Client.ParseThrows) fetch true true w) in
  Client.user w = None /\ Client.isAuthenticated w = false /\
  Client.localStorage w = ∅ /\
  Client.navigations w = [] /\
  Client.navigations w' = [Client.HardRedirect "/"].
Proof. vm_compute. repeat split. Qed.

Lemma logout_when_unauthenticated_witness :
  let w := Client.mkWorld ∅ "/dashboard" [] [] None false false false true None in
  let fetch := Wire.logout_route ClearJwt.verify None 0 (fun _ => "{}") in
  exists w',
    Client.logout (fun _ => Client.ParseThrows) fetch true true w =
      (Client.Return tt, w') /\
    Client.user w' = None /\
    Client.isAuthenticated w' = false /\
    Client.localStorage w' = ∅ /\
    Client.navigations w' = [Client.HardRedirect "/"].
Proof.
  intros w fetch.
  destruct (logout_when_unauthenticated (fun _ => Client.ParseThrows)
              fetch true true w eq_refl eq_refl eq_refl eq_refl
              (or_introl eq_refl))
    as (_ & w' & Hrun & Hu & Ha & Hls & _ & _ & _ & _ & Hnav).
  exists w'. repeat (split; [assumption|]). exact Hnav.
Defined.

(** When somebody is still signed in at the identity provider and the
    sign-out rejects, the rejection reaches the caller of [logout()]:
    the [catch] block does not guard its own [auth.signOut()]. *)
Example logout_sign_out_rejects :
  let somebody :=
    Client.mkFirebaseUser (JStr "x") JNull JNull JNull (Some "assertion") in
  let w := Client.mkWorld ∅ "/dashboard" [] [] None false false false true
             (Some somebody) in
  let fetch (_ : Client.Request) := Client.FetchRejects true in
  fst (Client.logout (fun _ => Client.ParseThrows) fetch true false w) =
  Client.Throw Client.IdentityProviderError.
Proof. reflexivity. Qed.

Section Construction.

Import Client.

Variable JSON_parse_response : string -> Parsed ApiResponse.
Variable JSON_parse_user : string -> Parsed UserInfo.
Variable JSON_stringify_user : UserInfo -> string.

Let mount := mount JSON_parse_user.
Let step := step JSON_parse_response JSON_stringify_user.

Lemma mount_cached storage path idp cached u t :
  storage !! "user" = Some cached -> cached <> "" ->
  JSON_parse_user cached = ParsedValue u ->
  storage !! "authToken" = Some t -> t <> "" ->
  mount storage path idp =
  (Return tt, mkWorld storage path [] [] (Some u) true true true true idp).
Proof.
  intros Hcached Hne Hparse Htoken Hnet.
  subst mount. exec. simpl.
  rewrite Hcached. simpl. rewrite (eqb_empty_false cached Hne). simpl.
  rewrite Hparse. simpl.
  rewrite Htoken. simpl. rewrite (eqb_empty_false t Hnet). reflexivity.
Qed.

(** C9. With a cached user record and a non-empty token in the token
    store, construction ends with that user, isAuthenticated and the ref
    set, while no request has been sent; the next identity-provider event
    with a user sends no request either and only ends the loading
    state. *)
Theorem cached_session_honoured storage path idp cached u t :
  storage !! "user" = Some cached -> cached <> "" ->
  JSON_parse_user cached = ParsedValue u ->
  storage !! "authToken" = Some t -> t <> "" ->
  exists w,
    mount storage path idp = (Return tt, w) /\
    user w = Some u /\
    isAuthenticated w = true /\
    hasProcessedInitialAuth w = true /\
    requests w = [] /\
    localStorage w = storage /\
    forall fetch firebaseUser,
      let w' := step w (AuthStateChanged fetch (Some firebaseUser)) in
      requests w' = [] /\
      user w' = Some u /\
      isAuthenticated w' = true /\
      hasProcessedInitialAuth w' = true /\
      localStorage w' = storage /\
      navigations w' = [] /\
      loading w' = false.
Proof.
  intros Hcached Hne Hparse Htoken Hnet.
  eexists. split; [exact (mount_cached _ _ _ _ _ _ Hcached Hne Hparse Htoken Hnet)|].
  do 5 (split; [reflexivity|]).
  intros fetch firebaseUser. repeat split.
Qed.

End Construction.

Lemma cached_session_honoured_witness :
  let u := mkUser (JStr "y") (JStr "y@b.com") (JStr "Y") JNull in
  let parse_user (s : string) :=
    if String.eqb s "cached-user-y" then Client.ParsedValue u
    else Client.ParseThrows in
  let storage : gmap string string :=
    <["authToken" := "session.token"]> (<["user" := "cached-user-y"]> ∅) in
  exists w,
    Client.mount parse_user storage "/" None = (Client.Return tt, w) /\
    Client.user w = Some u /\
    Client.isAuthenticated w = true /\
    Client.hasProcessedInitialAuth w = true /\
    Client.requests w = [].
Proof.
  intros u parse_user storage.
  destruct (cached_session_honoured (fun _ => Client.ParseThrows) parse_user
              (fun _ => "") storage "/" None "cached-user-y" u "session.token")
    as (w & Hrun & Hu & Ha & Hp & Hr & _).
  - reflexivity.
  - discriminate.
  - reflexivity.
  - reflexivity.
  - discriminate.
  - exists w. auto.
Defined.

Section Invariant.

Import Client.

Variable JSON_parse_response : string -> Parsed ApiResponse.
Variable JSON_parse_user : string -> Parsed UserInfo.
Variable JSON_stringify_user : UserInfo -> string.

Let mount := mount JSON_parse_user.
Let step := step JSON_parse_response JSON_stringify_user.
Let login := login JSON_parse_response JSON_stringify_user.

(** The callback itself does not look at the token.  Were the exchange
    answered 200 with an empty body (which the gateway reads as
    [{ success: true }]), as the exchange route of this backend never
    answers, nothing would be stored and the callback would set the user
    and isAuthenticated all the same. *)
Lemma event_exchange_without_token_authenticates :
  let firebaseUser :=
    mkFirebaseUser (JStr "x") (JStr "x@b.com") (JStr "X") JNull
                   (Some "assertion") in
  let fetch (_ : Request) := Responds 200 "" in
  let w0 := snd (mount ∅ "/" None) in
  let w1 := step w0 (AuthStateChanged fetch (Some firebaseUser)) in
  isAuthenticated w0 = false /\
  isAuthenticated w1 = true /\
  user w1 = Some (mkUser (JStr "x") (JStr "x@b.com") (JStr "X") JNull) /\
  localStorage w1 !! "authToken" = None /\
  localStorage w1 !! "user" = None.
Proof. vm_compute. repeat split. Qed.

(** The explicit [login] on the same answer: it throws "No token received
    from backend" and the session stays logged out. *)
Lemma login_without_token_throws userData :
  let fetch (_ : Request) := Responds 200 "" in
  let w0 := snd (mount ∅ "/" None) in
  exists w1,
    login fetch userData w0 = (Throw NoTokenReceived, w1) /\
    isAuthenticated w1 = false /\ user w1 = None /\
    localStorage w1 = ∅.
Proof. eexists. split; [reflexivity|]. repeat split. Qed.



(** The exchange, from what [makeRequest] returns. *)
Lemma authenticateWithGoogle_unfold fetch w :
  authenticateWithGoogle JSON_parse_response JSON_stringify_user fetch w =
  match makeRequest JSON_parse_response fetch "/auth/google" "POST" w with
  | (Return None, w1) => (Throw NullAccess, w1)
  | (Return (Some response), w1) =>
      (Return response,
       if truthy (token response)
       then with_localStorage
              (insert "user" (stringify_user JSON_stringify_user (r_user response)))
              (with_localStorage (insert "authToken" (str (token response))) w1)
       else w1)
  | (Throw e, w1) => (Throw e, w1)
  end.
Proof.
  exec_calls.
  destruct (makeRequest _ _ _ _ _) as [[[response|]|e] w1]; try reflexivity.
  destruct (truthy (token response)); reflexivity.
Qed.











End Invariant.



(** * Further properties *)

(** ** Text *)

Module TextFacts.

Import Text.

#[local] Arguments space_byte : simpl never.
#[local] Arguments space_bytes2 : simpl never.
#[local] Arguments space_bytes3 : simpl never.

Lemma text_chars s : text (chars s) = s.
Proof. apply string_of_list_ascii_of_string. Qed.

Lemma chars_text l : chars (text l) = l.
Proof. apply list_ascii_of_string_of_list_ascii. Qed.

Lemma chars_app a b : chars (a +:+ b) = (chars a ++ chars b)%list.
Proof. induction a as [|c a IH]; simpl; [reflexivity|]. f_equal. exact IH. Qed.

Lemma chars_nil s : chars s = [] -> s = "".
Proof. destruct s; [reflexivity|discriminate]. Qed.

Lemma leading_space_le l : (leading_space l <= length l)%nat.
Proof.
  destruct l as [|c [|d [|e l]]]; simpl;
    repeat match goal with |- context [if ?b then _ else _] => destruct b end;
    lia.
Qed.

Lemma trailing_space_le l : (trailing_space l <= length l)%nat.
Proof.
  destruct l as [|c [|d [|e l]]]; simpl;
    repeat match goal with |- context [if ?b then _ else _] => destruct b end;
    lia.
Qed.

Section Strip.

Variable measure : list ascii -> nat.
Hypothesis measure_le : forall l, (measure l <= length l)%nat.

Lemma strip_fixed fuel l : measure l = 0%nat -> strip measure fuel l = l.
Proof. intros H. destruct fuel; simpl; [reflexivity|]. rewrite H. reflexivity. Qed.

Lemma strip_done fuel l :
  (length l <= fuel)%nat -> measure (strip measure fuel l) = 0%nat.
Proof.
  revert l. induction fuel as [|fuel IH]; intros l Hlen; simpl.
  - destruct l; [|simpl in Hlen; lia]. pose proof (measure_le []). simpl in *. lia.
  - destruct (measure l) as [|k] eqn:Hm; [exact Hm|].
    apply IH. rewrite length_drop.
    pose proof (measure_le l). lia.
Qed.

Lemma strip_suffix fuel l : exists k, strip measure fuel l = drop k l.
Proof.
  revert l. induction fuel as [|fuel IH]; intros l; simpl.
  - exists 0%nat. reflexivity.
  - destruct (measure l) as [|k]; [exists 0%nat; reflexivity|].
    destruct (IH (drop (S k) l)) as [j ->].
    exists (S k + j)%nat. apply drop_drop.
Qed.

(** What is dropped is white space only: a byte that no white-space
    character contains stays. *)
Lemma strip_keeps c fuel l :
  (forall l', c ∈ l' -> c ∈ drop (measure l') l') ->
  c ∈ l -> c ∈ strip measure fuel l.
Proof.
  intros Hdrop. revert l. induction fuel as [|fuel IH]; intros l Hin; simpl;
    [exact Hin|].
  destruct (measure l) as [|k] eqn:Hm; [exact Hin|].
  apply IH. rewrite <- Hm. apply Hdrop, Hin.
Qed.

End Strip.

Ltac bool_facts :=
  repeat match goal with
         | H : (_ && _) = true |- _ => apply andb_prop in H; destruct H
         | H : (_ || _) = true |- _ => apply orb_prop in H; destruct H
         | H : (_ =? _)%N = true |- _ => apply N.eqb_eq in H
         | H : (_ <=? _)%N = true |- _ => apply N.leb_le in H
         end.

Lemma plain_not_space2 c d e : plain c -> space_bytes2 d e = true -> c <> d /\ c <> e.
Proof.
  unfold plain, space_bytes2. intros [Hc _] H. bool_facts.
  split; intros ->; lia.
Qed.

Lemma plain_not_space3 c x y z :
  plain c -> space_bytes3 x y z = true -> c <> x /\ c <> y /\ c <> z.
Proof.
  unfold plain, space_bytes3. intros [Hc _] H. cbv zeta in H. bool_facts.
  all: repeat split; intros ->; lia.
Qed.

Lemma plain_not_space c d : plain c -> space_byte d = true -> c <> d.
Proof. intros [_ Hc] Hd ->. congruence. Qed.

Ltac case_spaces :=
  repeat match goal with
         | |- context [if ?b then _ else _] => destruct b eqn:?
         end.

Lemma leading_keeps c l : plain c -> c ∈ l -> c ∈ drop (leading_space l) l.
Proof.
  intros Hc Hin.
  destruct l as [|x [|y [|z l]]]; simpl; case_spaces; simpl; try exact Hin;
    repeat match goal with
           | H : space_byte _ = true |- _ =>
               apply (plain_not_space c _ Hc) in H
           | H : space_bytes2 _ _ = true |- _ =>
               apply (plain_not_space2 c _ _ Hc) in H; destruct H
           | H : space_bytes3 _ _ _ = true |- _ =>
               apply (plain_not_space3 c _ _ _ Hc) in H; destruct H as (? & ? & ?)
           end;
    repeat (apply elem_of_cons in Hin as [?|Hin]; [congruence|]);
    exact Hin.
Qed.

Lemma trailing_keeps c l : plain c -> c ∈ l -> c ∈ drop (trailing_space l) l.
Proof.
  intros Hc Hin.
  destruct l as [|x [|y [|z l]]]; simpl; case_spaces; simpl; try exact Hin;
    repeat match goal with
           | H : space_byte _ = true |- _ =>
               apply (plain_not_space c _ Hc) in H
           | H : space_bytes2 _ _ = true |- _ =>
               apply (plain_not_space2 c _ _ Hc) in H; destruct H
           | H : space_bytes3 _ _ _ = true |- _ =>
               apply (plain_not_space3 c _ _ _ Hc) in H; destruct H as (? & ? & ?)
           end;
    repeat (apply elem_of_cons in Hin as [?|Hin]; [congruence|]);
    exact Hin.
Qed.

(** A text with a plain byte is not blank. *)
Lemma trim_keeps c s : plain c -> c ∈ chars s -> c ∈ chars (trim s).
Proof.
  intros Hc Hin. unfold trim, trimEnd_chars, trimStart_chars.
  rewrite chars_text. apply elem_of_reverse.
  apply strip_keeps; [intros l'; apply trailing_keeps, Hc|].
  apply elem_of_reverse.
  apply strip_keeps; [intros l'; apply leading_keeps, Hc|]. exact Hin.
Qed.

Lemma trim_not_blank c s : plain c -> c ∈ chars s -> trim s <> "".
Proof.
  intros Hc Hin Hblank. apply (trim_keeps c s Hc) in Hin.
  rewrite Hblank in Hin. simpl in Hin. apply elem_of_nil in Hin. exact Hin.
Qed.

(** A text of one-byte white space is blank. *)
Lemma trimStart_spaces l :
  Forall (fun c => space_byte c = true) l -> trimStart_chars l = [].
Proof.
  unfold trimStart_chars. induction 1 as [|c l Hc Hl IH]; [reflexivity|].
  assert (Hlead : leading_space (c :: l) = 1%nat).
  { destruct l as [|d [|e l]]; simpl; rewrite Hc; reflexivity. }
  cbn [length strip]. rewrite Hlead. exact IH.
Qed.

Lemma trim_spaces s :
  Forall (fun c => space_byte c = true) (chars s) -> trim s = "".
Proof. intros H. unfold trim. rewrite (trimStart_spaces _ H). reflexivity. Qed.

(** A white-space character at the front of a text is at the front of
    every text that extends it. *)
Lemma leading_space_app p w :
  leading_space p <> 0%nat -> leading_space (p ++ w) = leading_space p.
Proof.
  destruct p as [|x [|y [|z p]]]; simpl; [congruence| | |reflexivity].
  - destruct (space_byte x) eqn:Hx; [|congruence].
    intros _. destruct w as [|? [|? ?]]; simpl; rewrite ?Hx; reflexivity.
  - destruct (space_byte x) eqn:Hx.
    + intros _. destruct w; simpl; rewrite ?Hx; reflexivity.
    + destruct (space_bytes2 x y) eqn:Hxy; [|congruence].
      intros _. destruct w; simpl; rewrite ?Hx, ?Hxy; reflexivity.
Qed.

Lemma trim_chars_clean l :
  let t := trimEnd_chars (trimStart_chars l) in
  leading_space t = 0%nat /\ trailing_space (reverse t) = 0%nat.
Proof.
  intros t. subst t. unfold trimEnd_chars.
  set (a := trimStart_chars l).
  assert (Ha : leading_space a = 0%nat).
  { apply strip_done; [apply leading_space_le|reflexivity]. }
  split.
  - destruct (strip_suffix trailing_space (length a) (reverse a)) as [k Hk].
    rewrite Hk, drop_reverse, reverse_involutive.
    destruct (leading_space (take (length a - k) a)) eqn:Hp; [reflexivity|].
    rewrite <- (take_drop (length a - k) a), leading_space_app in Ha; congruence.
  - rewrite reverse_involutive.
    apply strip_done; [apply trailing_space_le|].
    rewrite length_reverse. reflexivity.
Qed.

(** [trim] is idempotent. *)
Lemma trim_idempotent s : trim (trim s) = trim s.
Proof.
  unfold trim at 1 2. rewrite chars_text.
  destruct (trim_chars_clean (chars s)) as [Hl Ht].
  set (t := trimEnd_chars (trimStart_chars (chars s))) in *.
  unfold trimStart_chars. rewrite (strip_fixed _ _ _ Hl).
  unfold trimEnd_chars. rewrite (strip_fixed _ _ _ Ht), reverse_involutive.
  reflexivity.
Qed.

(** A text that begins and ends with plain bytes is its own trim. *)
Lemma trim_plain_ends a b s :
  plain a -> plain b -> trim (String a (s +:+ String b "")) = String a (s +:+ String b "").
Proof.
  intros Ha Hb. unfold trim.
  set (l := chars (String a (s +:+ String b ""))).
  assert (Hlead : leading_space l = 0%nat).
  { subst l. simpl. destruct Ha as [Ha1 Ha2].
    destruct (chars (s +:+ String b "")) as [|y [|z r]]; simpl; rewrite Ha2;
      try reflexivity; unfold space_bytes2, space_bytes3;
      repeat match goal with |- context [(N_of_ascii a =? ?n)%N] =>
        replace (N_of_ascii a =? n)%N with false by (symmetry; apply N.eqb_neq; lia)
      end; reflexivity. }
  assert (Htrail : trailing_space (reverse l) = 0%nat).
  { subst l. change (chars (String a (s +:+ String b "")))
      with (a :: chars (s +:+ String b "")).
    rewrite chars_app. simpl. rewrite reverse_cons, reverse_app. simpl.
    destruct Hb as [Hb1 Hb2].
    destruct (reverse (chars s) ++ [a])%list as [|y [|z r]]; simpl; rewrite Hb2;
      try reflexivity; unfold space_bytes2, space_bytes3;
      repeat match goal with |- context [(N_of_ascii b =? ?n)%N] =>
        replace (N_of_ascii b =? n)%N with false by (symmetry; apply N.eqb_neq; lia)
      end; rewrite ?andb_false_r; simpl; rewrite ?andb_false_r;
      try reflexivity.
    all: destruct (N_of_ascii b <=? 138)%N eqn:Hle;
      rewrite ?andb_false_r, ?andb_true_r; simpl;
      rewrite ?andb_false_r; try reflexivity;
      replace (128 <=? N_of_ascii b)%N with false
        by (symmetry; apply N.leb_gt; lia);
      rewrite ?andb_false_r; reflexivity. }
  unfold trimStart_chars. rewrite (strip_fixed _ _ _ Hlead).
  unfold trimEnd_chars. rewrite (strip_fixed _ _ _ Htrail), reverse_involutive.
  subst l. apply text_chars.
Qed.

End TextFacts.

(** ** Extracting the JSON of a model's answer *)

Section JsonMatch.

Import MindMaps.

Lemma text_app_assoc (a b c : string) : (a +:+ b) +:+ c = a +:+ b +:+ c.
Proof.
  induction a as [|x a IH]; [reflexivity|].
  change (String x ((a +:+ b) +:+ c) = String x (a +:+ b +:+ c)).
  rewrite IH. reflexivity.
Qed.

Lemma after_first_app c pre rest :
  lacks c pre = true -> after_first c (pre +:+ String c rest) = Some rest.
Proof.
  induction pre as [|a pre IH]; simpl.
  - intros _. rewrite Ascii.eqb_refl. reflexivity.
  - intros [Ha Hpre]%andb_prop. apply negb_true_iff in Ha.
    rewrite Ha. exact (IH Hpre).
Qed.

Lemma after_first_inv c s rest :
  after_first c s = Some rest ->
  exists pre, s = pre +:+ String c rest /\ lacks c pre = true.
Proof.
  induction s as [|a s IH]; simpl; [discriminate|].
  destruct (Ascii.eqb a c) eqn:Ha.
  - intros [= ->]. apply Ascii.eqb_eq in Ha as ->. exists "". auto.
  - intros (pre & -> & Hpre)%IH. exists (String a pre). simpl.
    rewrite Ha, Hpre. auto.
Qed.

Lemma upto_last_lacks c s : lacks c s = true -> upto_last c s = None.
Proof.
  induction s as [|a s IH]; simpl; [reflexivity|].
  intros [Ha Hs]%andb_prop. apply negb_true_iff in Ha.
  rewrite (IH Hs), Ha. reflexivity.
Qed.

Lemma upto_last_app c mid post :
  lacks c post = true ->
  upto_last c (mid +:+ String c post) = Some (mid +:+ String c "").
Proof.
  intros Hpost. induction mid as [|a mid IH]; simpl.
  - rewrite (upto_last_lacks c post Hpost), Ascii.eqb_refl. reflexivity.
  - rewrite IH. reflexivity.
Qed.

Lemma upto_last_inv c s p :
  upto_last c s = Some p ->
  exists mid post,
    s = mid +:+ String c post /\ p = mid +:+ String c "" /\
    lacks c post = true.
Proof.
  revert p. induction s as [|a s IH]; simpl; [discriminate|]. intros p.
  destruct (upto_last c s) as [q|] eqn:Hq.
  - intros [= <-]. destruct (IH q eq_refl) as (mid & post & -> & -> & Hpost).
    exists (String a mid), post. auto.
  - destruct (Ascii.eqb a c) eqn:Ha; [|discriminate].
    intros [= <-]. apply Ascii.eqb_eq in Ha as ->.
    exists "", s. repeat split.
    clear IH. induction s as [|b s IH]; simpl in *; [reflexivity|].
    destruct (upto_last c s); [discriminate|].
    destruct (Ascii.eqb b c); [discriminate|]. simpl. apply IH. reflexivity.
Qed.

(** X1. When the answer of a model wraps a JSON object in prose, with no
    opening brace before it and no closing brace after it, the match is
    the object, from its opening brace to its closing brace. *)
Theorem jsonMatch_strips_prose (pre mid post : string) :
  lacks "{"%char pre = true -> lacks "}"%char post = true ->
  jsonMatch (pre +:+ "{" +:+ mid +:+ "}" +:+ post) =
  Some ("{" +:+ mid +:+ "}").
Proof.
  intros Hpre Hpost. unfold jsonMatch.
  change (pre +:+ "{" +:+ mid +:+ "}" +:+ post)
    with (pre +:+ String "{"%char (mid +:+ String "}"%char post)).
  rewrite (after_first_app _ _ _ Hpre). simpl.
  rewrite (upto_last_app _ _ _ Hpost). reflexivity.
Qed.

Lemma jsonMatch_strips_prose_witness :
  jsonMatch "Here is the map: {a {b} c} I hope it helps."
  = Some "{a {b} c}".
Proof.
  exact (jsonMatch_strips_prose "Here is the map: " "a {b} c"
           " I hope it helps." eq_refl eq_refl).
Defined.

(** X2. A match is a part of the answer that begins with the first
    opening brace of the answer and ends with its last closing brace;
    matching it again gives it back.  An answer without an opening brace,
    or without a closing brace, has no match. *)
Theorem jsonMatch_outermost_braces (responseText : string) :
  (forall json, jsonMatch responseText = Some json ->
     (exists pre mid post,
        responseText = pre +:+ json +:+ post /\
        json = "{" +:+ mid +:+ "}" /\
        lacks "{"%char pre = true /\ lacks "}"%char post = true) /\
     jsonMatch json = Some json) /\
  (lacks "{"%char responseText = true \/ lacks "}"%char responseText = true ->
   jsonMatch responseText = None).
Proof.
  split.
  - intros json. unfold jsonMatch.
    destruct (after_first "{" responseText) as [r|] eqn:Hr; [|discriminate].
    simpl. destruct (upto_last "}" r) as [p|] eqn:Hp; [|discriminate].
    intros [= <-].
    apply after_first_inv in Hr as (pre & -> & Hpre).
    apply upto_last_inv in Hp as (mid & post & -> & -> & Hpost).
    split.
    + exists pre, mid, post. repeat split; try assumption.
      change (String "{"%char (mid +:+ String "}"%char "") +:+ post)
        with (String "{"%char ((mid +:+ String "}"%char "") +:+ post)).
      rewrite text_app_assoc. reflexivity.
    + change (String "{"%char (mid +:+ String "}"%char ""))
        with ("" +:+ String "{"%char (mid +:+ String "}"%char "")).
      rewrite (after_first_app "{" "" _ eq_refl). simpl.
      rewrite (upto_last_app "}" mid "" eq_refl). reflexivity.
  - unfold jsonMatch. intros [H|H].
    + destruct (after_first "{" responseText) as [r|] eqn:Hr; [|reflexivity].
      apply after_first_inv in Hr as (pre & -> & _).
      rewrite lacks_app in H. simpl in H.
      rewrite andb_false_r in H. discriminate.
    + destruct (after_first "{" responseText) as [r|] eqn:Hr; [|reflexivity].
      apply after_first_inv in Hr as (pre & -> & _).
      rewrite lacks_app in H. apply andb_prop in H as [_ H]. simpl in H.
      simpl. rewrite (upto_last_lacks _ _ H). reflexivity.
Qed.

End JsonMatch.

Lemma jsonMatch_outermost_braces_witness :
  MindMaps.jsonMatch "{a}" = Some "{a}" /\
  MindMaps.jsonMatch "no braces here" = None.
Proof.
  split.
  - apply (proj1 (jsonMatch_outermost_braces "say {a} now") "{a}").
    reflexivity.
  - apply (proj2 (jsonMatch_outermost_braces "no braces here")).
    left. reflexivity.
Defined.

(** ** The fallback mind map *)

(** The lists of at most six topics, one length at a time. *)
Ltac each_length topics H :=
  destruct topics as [|? [|? [|? [|? [|? [|? [|? ?]]]]]]];
  simpl in H; try lia; clear H.

Section Fallback.

Import MindMaps.

Variable topic_position : nat -> nat -> Position.
Variable subtopic_position : nat -> nat -> nat -> Position.

Let build := build topic_position subtopic_position.
Let createFallbackMindMap :=
  createFallbackMindMap topic_position subtopic_position.

Lemma topics_of_length subjectName syllabus :
  (1 <= length (topics_of subjectName syllabus) <= 6)%nat.
Proof.
  unfold topics_of. case_bool_decide as Hempty; [simpl; lia|].
  rewrite length_take in *. lia.
Qed.

Lemma topics_of_nonblank subjectName syllabus :
  Forall (fun t => Text.trim t <> "") (topics_of subjectName syllabus).
Proof.
  unfold topics_of. case_bool_decide as Hempty.
  - unfold default_topics. rewrite !Forall_cons, Forall_nil.
    split; [|split; [|split_and!; try exact I; vm_compute; discriminate]].
    + apply (TextFacts.trim_not_blank "I"%char);
        [split; vm_compute; reflexivity|].
      rewrite TextFacts.chars_app. apply elem_of_app. left.
      vm_compute. constructor.
    + apply (TextFacts.trim_not_blank "F"%char);
        [split; vm_compute; reflexivity|].
      rewrite TextFacts.chars_app. apply elem_of_app. left.
      vm_compute. constructor.
  - apply Forall_take, Forall_forall.
    intros t [Ht _]%list_elem_of_filter. exact Ht.
Qed.

Lemma or_else_nonblank a b : a <> "" -> Text.or_else a b = a.
Proof.
  intros H. unfold Text.or_else, Text.nonempty.
  rewrite (eqb_empty_false a H). reflexivity.
Qed.

Lemma build_sizes subjectName topics :
  (length topics <= 6)%nat ->
  let k := length topics in
  length (build subjectName topics).1 = (1 + k + 3 * (k `min` 3))%nat /\
  length (build subjectName topics).2 = (k + 3 * (k `min` 3))%nat.
Proof.
  intros H. each_length topics H; vm_compute; split; reflexivity.
Qed.


Lemma build_tree subjectName topics :
  (length topics <= 6)%nat ->
  let ns := (build subjectName topics).1 in
  let es := (build subjectName topics).2 in
  NoDup (node_id <$> ns) /\
  (node_id <$> head ns) = Some (JStr "root") /\
  (parent <$> head ns) = Some JUndefined /\
  ((fun e => (source e, target e)) <$> es) =
    ((fun n => (parent n, node_id n)) <$> tail ns) /\
  NoDup (edge_id <$> es) /\
  Forall (fun n =>
            children n =
              Some (str ∘ node_id <$>
                      filter (fun c => parent c = node_id n) ns)) ns.
Proof.
  intros H. each_length topics H; cbv zeta.
  all: (split; [apply (bool_decide_unpack _); vm_compute; exact I|]).
  all: (split; [vm_compute; reflexivity|]).
  all:    (split; [vm_compute; reflexivity|]).
  all:    (split; [vm_compute; reflexivity|]).
  all:    (split; [apply (bool_decide_unpack _); vm_compute; exact I|]).
  all: (apply (bool_decide_unpack _); vm_compute; exact I).
Qed.

Lemma build_levels subjectName topics :
  (length topics <= 6)%nat ->
  let ns := (build subjectName topics).1 in
  Forall (fun n =>
            Exists (fun p => node_id p = parent n /\
                             level n = Z.succ <$> level p) ns) (tail ns).
Proof.
  intros H. each_length topics H; cbv zeta;
    apply (bool_decide_unpack _); vm_compute; exact I.
Qed.

Lemma build_labels subjectName topics :
  (length topics <= 6)%nat ->
  Forall (fun t => Text.trim t <> "") topics ->
  let ns := (build subjectName topics).1 in
  (label <$> filter (fun n => node_type n = JStr "topic") ns) =
    (JStr ∘ Text.trim <$> topics) /\
  (content <$> filter (fun n => node_type n = JStr "topic") ns) =
    (JStr ∘ topic_content ∘ Text.trim <$> topics).
Proof.
  intros H Hall. each_length topics H; cbv zeta;
  rewrite ?Forall_cons in Hall; destruct_and?.
  all: cbv -[Text.trim Text.or_else topic_content subtopic_content root_content].
  all: rewrite ?or_else_nonblank by assumption.
  all: split; reflexivity.
Qed.

Lemma fallback_build subjectName syllabus :
  createFallbackMindMap subjectName syllabus =
    mkData (JStr subjectName)
      (Some (Some <$> (build subjectName (topics_of subjectName syllabus)).1))
      (Some (build subjectName (topics_of subjectName syllabus)).2) None.
Proof.
  subst createFallbackMindMap build. unfold MindMaps.createFallbackMindMap.
  destruct (MindMaps.build _ _ _ _) as [ns es]. reflexivity.
Qed.

Lemma topics_of_lines subjectName syllabus :
  topics_of subjectName syllabus =
    match filter (fun line => Text.trim line <> "") (split newline syllabus) with
    | [] => default_topics subjectName
    | lines => take 6 lines
    end.
Proof.
  unfold topics_of.
  destruct (filter _ _) as [|line lines]; reflexivity.
Qed.

(** X3. The fallback map has a root and between one and six topics; the
    first three topics have three subtopics each, and there is one edge
    for every node but the root. *)
Theorem fallback_sizes (subjectName syllabus : string) :
  exists ns es k,
    createFallbackMindMap subjectName syllabus =
      mkData (JStr subjectName) (Some (Some <$> ns)) (Some es) None /\
    (1 <= k <= 6)%nat /\
    length ns = (1 + k + 3 * (k `min` 3))%nat /\
    length es = (length ns - 1)%nat /\
    (length ns <= 16)%nat.
Proof.
  pose proof (topics_of_length subjectName syllabus) as Hk.
  destruct (build_sizes subjectName (topics_of subjectName syllabus))
    as [Hn He]; [lia|].
  subst createFallbackMindMap. unfold MindMaps.createFallbackMindMap.
  fold build. destruct (build _ _) as [ns es]. simpl in *.
  exists ns, es, (length (topics_of subjectName syllabus)).
  split; [reflexivity|]. repeat split; lia.
Qed.

(** X4. The fallback map is a tree: the identifiers of its nodes are
    pairwise distinct, the first node is the root and has no parent, the
    edges are, in order, the links from the parent of every other node to
    that node, every node lists as children exactly the nodes that name it
    as parent, and every node but the root is one level below its
    parent. *)
Theorem fallback_is_a_tree (subjectName syllabus : string) :
  exists ns es,
    createFallbackMindMap subjectName syllabus =
      mkData (JStr subjectName) (Some (Some <$> ns)) (Some es) None /\
    NoDup (node_id <$> ns) /\
    (node_id <$> head ns) = Some (JStr "root") /\
    (parent <$> head ns) = Some JUndefined /\
    ((fun e => (source e, target e)) <$> es) =
      ((fun n => (parent n, node_id n)) <$> tail ns) /\
    NoDup (edge_id <$> es) /\
    Forall (fun n =>
              children n =
                Some (str ∘ node_id <$>
                        filter (fun c => parent c = node_id n) ns)) ns /\
    Forall (fun n =>
              Exists (fun p => node_id p = parent n /\
                               level n = Z.succ <$> level p) ns) (tail ns).
Proof.
  pose proof (topics_of_length subjectName syllabus) as [_ Hk].
  eexists _, _. split; [apply fallback_build|].
  pose proof (build_tree subjectName _ Hk) as Ht.
  pose proof (build_levels subjectName _ Hk) as Hl.
  cbv zeta in Ht, Hl. destruct Ht as (? & ? & ? & ? & ? & ?).
  split_and!; assumption.
Qed.

(** X5. The topic nodes of the fallback map carry, in order, the trimmed
    topics: the first six lines of the syllabus that are not blank, or the
    six default topics when every line is blank.  No label is blank, so
    the label [Topic n] that stands in for a blank topic is never used. *)
Theorem fallback_topic_labels (subjectName syllabus : string) :
  let topics :=
    match filter (fun line => Text.trim line <> "")
                 (split newline syllabus) with
    | [] => default_topics subjectName
    | lines => take 6 lines
    end in
  exists ns es,
    createFallbackMindMap subjectName syllabus =
      mkData (JStr subjectName) (Some (Some <$> ns)) (Some es) None /\
    (label <$> filter (fun n => node_type n = JStr "topic") ns) =
      (JStr ∘ Text.trim <$> topics) /\
    (content <$> filter (fun n => node_type n = JStr "topic") ns) =
      (JStr ∘ topic_content ∘ Text.trim <$> topics) /\
    Forall (fun t => Text.trim t <> "") topics.
Proof.
  cbv zeta. rewrite <- topics_of_lines.
  pose proof (topics_of_length subjectName syllabus) as [_ Hk].
  pose proof (topics_of_nonblank subjectName syllabus) as Hall.
  eexists _, _. split; [apply fallback_build|].
  destruct (build_labels subjectName _ Hk Hall) as [Hl Hc].
  split_and!; assumption.
Qed.
End Fallback.

(** ** Validation *)

Section Validate.
Import MindMaps.
Variable topic_position : nat -> nat -> Position.
Variable subtopic_position : nat -> nat -> nat -> Position.
Variable Date_now Date_now' : nat -> Z.
Variable Math_random Math_random' : nat -> string.

Let validateAndEnhanceMindMap :=
  validateAndEnhanceMindMap topic_position subtopic_position
    Date_now Math_random.
Let createFallbackMindMap :=
  createFallbackMindMap topic_position subtopic_position.

Lemma or_val_truthy a b : truthy b = true -> truthy (or_val a b) = true.
Proof. intros H. unfold or_val. destruct (truthy a) eqn:Ha; assumption. Qed.

Lemma or_val_keeps a b : truthy a = true -> or_val a b = a.
Proof. intros H. unfold or_val. rewrite H. reflexivity. Qed.

Lemma or_val_again a b c :
  truthy b = true -> or_val (or_val a b) c = or_val a b.
Proof. intros H. apply or_val_keeps, or_val_truthy, H. Qed.

Lemma mapM_objects (objects : list Node) :
  mapM (fun n : option Node => n) (Some <$> objects) = Some objects.
Proof. apply mapM_fmap_Some. reflexivity. Qed.

Lemma validate_objects data objects subjectName :
  nodes data = Some (Some <$> objects) ->
  validateAndEnhanceMindMap (Some data) subjectName =
    inl (mkData (title data)
           (Some (Some <$> imap (enhance Date_now Math_random) objects))
           (Some (default [] (edges data))) (map_id data)).
Proof.
  intros H. subst validateAndEnhanceMindMap.
  unfold MindMaps.validateAndEnhanceMindMap.
  rewrite H, mapM_objects. reflexivity.
Qed.

Lemma enhance_complete i node :
  let n := enhance Date_now Math_random i node in
  truthy (node_id n) = true /\ truthy (label n) = true /\
  truthy (node_type n) = true /\
  (exists l, level n = Some l /\ (l <> 0)%Z) /\
  position n <> None /\ truthy (content n) = true /\
  (truthy (parent n) = true \/ parent n = JNull) /\
  children n <> None.
Proof.
  cbv zeta. unfold enhance. cbn [node_id label node_type level position
    content parent children].
  split_and!; try (apply or_val_truthy; reflexivity); try discriminate.
  - destruct (level node) as [l|]; [|exists 1; split; [reflexivity|discriminate]].
    destruct (l =? 0)%Z eqn:Hl; [exists 1; split; [reflexivity|discriminate]|].
    exists l. split; [reflexivity|]. apply Z.eqb_neq, Hl.
  - unfold or_val. destruct (truthy (parent node)) eqn:Hp; [left|right];
      [exact Hp|reflexivity].
Qed.



Lemma enhance_again i j node :
  enhance Date_now' Math_random' j (enhance Date_now Math_random i node) =
    enhance Date_now Math_random i node.
Proof.
  unfold enhance at 1. 
  destruct (enhance_complete i node) as
    (Hid & Hlabel & Htype & (l & Hlevel & Hl) & Hpos & Hcontent & Hparent & Hch).
  cbv zeta in *.
  rewrite (or_val_keeps _ _ Hid), (or_val_keeps _ _ Hlabel),
    (or_val_keeps _ _ Htype), (or_val_keeps _ _ Hcontent), Hlevel.
  apply Z.eqb_neq in Hl. rewrite Hl.
  assert (or_val (parent (enhance Date_now Math_random i node)) JNull =
          parent (enhance Date_now Math_random i node)) as ->.
  { destruct Hparent as [Hp | Hp]; [apply or_val_keeps, Hp|].
    rewrite Hp. reflexivity. }
  destruct (enhance Date_now Math_random i node) as [? ? ? ? [p|] ? ? [c|]];
    cbn in *; congruence.
Qed.

(** X7. Validation is idempotent on a map that has a list of nodes:
    validating its result again, at any later time, changes nothing. *)
Theorem validate_idempotent (data validated : MindMapData)
    (subjectName subjectName' : string) :
  (exists objects, nodes data = Some (Some <$> objects)) ->
  validateAndEnhanceMindMap (Some data) subjectName = inl validated ->
  MindMaps.validateAndEnhanceMindMap topic_position subtopic_position
    Date_now' Math_random' (Some validated) subjectName' = inl validated.
Proof.
  intros [objects H] Hv. rewrite (validate_objects _ _ _ H) in Hv.
  injection Hv as <-.
  unfold MindMaps.validateAndEnhanceMindMap. cbn [nodes].
  rewrite mapM_objects. cbn [title edges map_id default].
  do 3 f_equal. apply list_eq. intros i.
  rewrite !list_lookup_fmap, !list_lookup_imap.
  destruct (objects !! i) as [node|]; [|reflexivity].
  cbn. rewrite enhance_again. reflexivity.
Qed.


Lemma truthy_text s : s <> "" -> truthy (JStr s) = true.
Proof. intros H. cbn. rewrite (eqb_empty_false s H). reflexivity. Qed.

(** A node that lacks nothing is left as it is. *)
Lemma enhance_fixed i node :
  truthy (node_id node) = true -> truthy (label node) = true ->
  truthy (node_type node) = true ->
  (exists l, level node = Some l /\ (l <> 0)%Z) ->
  position node <> None -> truthy (content node) = true ->
  truthy (parent node) = true -> children node <> None ->
  enhance Date_now Math_random i node = node.
Proof.
  intros Hid Hlabel Htype (l & Hlevel & Hl) Hpos Hcontent Hparent Hch.
  unfold enhance.
  rewrite !or_val_keeps by assumption. rewrite Hlevel.
  apply Z.eqb_neq in Hl. rewrite Hl.
  destruct node as [? ? ? ? [p|] ? ? [c|]]; cbn in *; congruence.
Qed.

Lemma build_complete subjectName topics :
  (length topics <= 6)%nat ->
  Forall (fun t => Text.trim t <> "") topics ->
  exists root rest,
    (build topic_position subtopic_position subjectName topics).1 =
      root :: rest /\
    node_id root = JStr "root" /\ label root = JStr subjectName /\
    node_type root = JStr "root" /\ level root = Some 0 /\
    position root <> None /\ content root = JStr (root_content subjectName) /\
    parent root = JUndefined /\ children root <> None /\
    Forall (fun node =>
              truthy (node_id node) = true /\ truthy (label node) = true /\
              truthy (node_type node) = true /\
              (exists l, level node = Some l /\ (l <> 0)%Z) /\
              position node <> None /\ truthy (content node) = true /\
              truthy (parent node) = true /\ children node <> None) rest.
Proof.
  intros H Hall. each_length topics H;
    rewrite ?Forall_cons in Hall; destruct_and?.
  all: cbv -[Text.trim Text.or_else topic_content subtopic_content
             root_content truthy].
  all: rewrite ?or_else_nonblank by assumption.
  all: eexists _, _; split; [reflexivity|].
  all: cbn [node_id label node_type level position content parent children].
  all: rewrite ?Forall_cons, ?Forall_nil.
  all: split_and!; try reflexivity; try discriminate; try exact I;
         try (apply truthy_text; assumption);
         try (eexists; split; [reflexivity|discriminate]).
Qed.

(** X8. Validating a fallback map moves its root: the root, built at
    level 0 and without a parent, comes out at level 1 with the parent
    [null]; nothing else changes. *)
Theorem validated_fallback_moves_root (subjectName syllabus : string)
    (subjectName' : string) :
  subjectName <> "" ->
  exists root rest es,
    createFallbackMindMap subjectName syllabus =
      mkData (JStr subjectName) (Some (Some <$> root :: rest)) (Some es)
             None /\
    level root = Some 0 /\ parent root = JUndefined /\
    validateAndEnhanceMindMap
      (Some (createFallbackMindMap subjectName syllabus)) subjectName' =
      inl (mkData (JStr subjectName)
             (Some (Some <$>
                      mkNode (node_id root) (label root) (node_type root)
                             (Some 1) (position root) (content root) JNull
                             (children root) :: rest))
             (Some es) None).
Proof.
  intros Hs.
  pose proof (topics_of_length subjectName syllabus) as [_ Hk].
  pose proof (topics_of_nonblank subjectName syllabus) as Hall.
  destruct (build_complete subjectName _ Hk Hall)
    as (root & rest & Hns & Hid & Hlabel & Htype & Hlevel & Hpos & Hcontent
        & Hparent & Hch & Hrest).
  exists root, rest, (build topic_position subtopic_position subjectName
                        (topics_of subjectName syllabus)).2.
  assert (createFallbackMindMap subjectName syllabus =
          mkData (JStr subjectName) (Some (Some <$> root :: rest))
            (Some (build topic_position subtopic_position subjectName
                     (topics_of subjectName syllabus)).2) None) as Hf.
  { rewrite <- Hns. apply fallback_build. }
  split; [exact Hf|]. split; [exact Hlevel|]. split; [exact Hparent|].
  rewrite Hf. rewrite (validate_objects _ (root :: rest)) by reflexivity.
  cbn [title edges map_id default imap]. do 4 f_equal. f_equal.
  - destruct root as [? ? ? ? [p|] ? ? [c|]]; cbn in *; try congruence.
    subst. unfold enhance.
    cbn [node_id label node_type level position content parent children].
    rewrite (or_val_keeps (JStr subjectName)) by (apply truthy_text, Hs).
    rewrite !(or_val_keeps (JStr _)) by reflexivity.
    reflexivity.
  - apply list_eq. intros i. rewrite list_lookup_imap.
    destruct (rest !! i) as [node|] eqn:Hnode; [|reflexivity].
    cbn. f_equal.
    pose proof (Forall_lookup_1 _ _ _ _ Hrest Hnode) as Hc. cbv beta in Hc.
    destruct_and?. apply enhance_fixed; assumption.
Qed.

Lemma general_topics subjectName :
  lacks newline subjectName = true ->
  topics_of subjectName ("General topics for " +:+ subjectName) =
    ["General topics for " +:+ subjectName].
Proof.
  intros H. rewrite topics_of_lines.
  rewrite split_lacks by (rewrite lacks_app, H; reflexivity).
  rewrite filter_cons_True; [reflexivity|].
  apply (TextFacts.trim_not_blank "G"%char);
    [split; vm_compute; reflexivity|].
  rewrite TextFacts.chars_app. apply elem_of_app. left.
  vm_compute. constructor.
Qed.

(** X9. A map without a list of nodes is replaced by the fallback map
    of the one-line syllabus [General topics for <subject>]: for a subject
    of one line this is a map of five nodes, the root, one topic and its
    three subtopics, whatever the syllabus of the request was; and it is
    returned as built, with its root at level 0. *)
Theorem validate_without_nodes (data : option MindMapData)
    (subjectName : string) :
  lacks newline subjectName = true ->
  (forall d, data = Some d -> nodes d = None) ->
  exists ns es,
    validateAndEnhanceMindMap data subjectName =
      inl (mkData (JStr subjectName) (Some (Some <$> ns)) (Some es) None) /\
    (label <$> ns) =
      [JStr subjectName;
       JStr (Text.trim ("General topics for " +:+ subjectName));
       JStr "Basics"; JStr "Advanced"; JStr "Practice"] /\
    (level <$> ns) = [Some 0; Some 1; Some 2; Some 2; Some 2] /\
    length es = 4%nat.
Proof.
  intros Hs Hd.
  assert (validateAndEnhanceMindMap data subjectName =
          inl (createFallbackMindMap subjectName
                 ("General topics for " +:+ subjectName))) as Hv.
  { subst validateAndEnhanceMindMap.
    unfold MindMaps.validateAndEnhanceMindMap.
    destruct data as [d|]; [|reflexivity].
    rewrite (Hd d eq_refl). reflexivity. }
  pose proof (topics_of_nonblank subjectName
                ("General topics for " +:+ subjectName)) as Hall.
  rewrite Hv. subst createFallbackMindMap.
  rewrite fallback_build, (general_topics _ Hs).
  rewrite general_topics in Hall by exact Hs.
  apply Forall_cons in Hall as [Hall _].
  eexists _, _. split; [reflexivity|].
  cbv -[Text.trim Text.or_else topic_content subtopic_content root_content
        String.app].
  rewrite (or_else_nonblank _ _ Hall). split_and!; reflexivity.
Qed.

End Validate.


Lemma validate_idempotent_witness :
  exists validated,
    MindMaps.validateAndEnhanceMindMap
      (fun _ _ => MindMaps.mkPosition 0 0)
      (fun _ _ _ => MindMaps.mkPosition 0 0)
      (fun _ => 1700000000000) (fun _ => "0.5")
      (Some (MindMaps.mkData (JStr "Maps")
               (Some [Some (MindMaps.mkNode JUndefined (JStr "Rivers")
                              JUndefined (Some 0) None JUndefined JUndefined
                              None)])
               None None)) "Geography" = inl validated /\
    MindMaps.validateAndEnhanceMindMap
      (fun _ _ => MindMaps.mkPosition 0 0)
      (fun _ _ _ => MindMaps.mkPosition 0 0)
      (fun _ => 1700000000999) (fun _ => "0.25")
      (Some validated) "History" = inl validated.
Proof.
  eexists. split; [vm_compute; reflexivity|].
  apply (validate_idempotent
           (fun _ _ => MindMaps.mkPosition 0 0)
           (fun _ _ _ => MindMaps.mkPosition 0 0)
           (fun _ => 1700000000000) (fun _ => 1700000000999)
           (fun _ => "0.5") (fun _ => "0.25")
           (MindMaps.mkData (JStr "Maps")
              (Some [Some (MindMaps.mkNode JUndefined (JStr "Rivers")
                             JUndefined (Some 0) None JUndefined JUndefined
                             None)])
              None None) _ "Geography" "History").
  - exists [MindMaps.mkNode JUndefined (JStr "Rivers") JUndefined (Some 0)
              None JUndefined JUndefined None].
    reflexivity.
  - vm_compute. reflexivity.
Defined.

Lemma validated_fallback_moves_root_witness :
  exists root rest es,
    MindMaps.validateAndEnhanceMindMap
      (fun _ _ => MindMaps.mkPosition 0 0)
      (fun _ _ _ => MindMaps.mkPosition 0 0)
      (fun _ => 1700000000000) (fun _ => "0.5")
      (Some (MindMaps.createFallbackMindMap
               (fun _ _ => MindMaps.mkPosition 0 0)
               (fun _ _ _ => MindMaps.mkPosition 0 0)
               "Geography" "Rivers")) "Geography" =
      inl (MindMaps.mkData (JStr "Geography")
             (Some (Some <$>
                      MindMaps.mkNode (MindMaps.node_id root)
                        (MindMaps.label root) (MindMaps.node_type root)
                        (Some 1) (MindMaps.position root)
                        (MindMaps.content root) JNull
                        (MindMaps.children root) :: rest))
             (Some es) None).
Proof.
  destruct (validated_fallback_moves_root
              (fun _ _ => MindMaps.mkPosition 0 0)
              (fun _ _ _ => MindMaps.mkPosition 0 0)
              (fun _ => 1700000000000) (fun _ => "0.5")
              "Geography" "Rivers" "Geography")
    as (root & rest & es & _ & _ & _ & H); [discriminate|].
  exists root, rest, es. exact H.
Defined.

Lemma validate_without_nodes_witness :
  exists ns es,
    MindMaps.validateAndEnhanceMindMap
      (fun _ _ => MindMaps.mkPosition 0 0)
      (fun _ _ _ => MindMaps.mkPosition 0 0)
      (fun _ => 1700000000000) (fun _ => "0.5")
      None "Geography" =
      inl (MindMaps.mkData (JStr "Geography") (Some (Some <$> ns)) (Some es)
             None) /\
    (MindMaps.label <$> ns) =
      [JStr "Geography"; JStr "General topics for Geography";
       JStr "Basics"; JStr "Advanced"; JStr "Practice"].
Proof.
  destruct (validate_without_nodes
              (fun _ _ => MindMaps.mkPosition 0 0)
              (fun _ _ _ => MindMaps.mkPosition 0 0)
              (fun _ => 1700000000000) (fun _ => "0.5")
              None "Geography" eq_refl)
    as (ns & es & H & Hl & _); [discriminate|].
  exists ns, es. split; [exact H|exact Hl].
Defined.

(** ** Cross-origin requests *)

Section Cors.

Import Routes.

(** The [origin] callback of [cors] accepts every origin: the list of
    allowed origins has no effect on it. *)
Lemma cors_origin_never_refuses NODE_ENV origin :
  cors_origin NODE_ENV origin = true.
Proof.
  unfold cors_origin. destruct (negb _); [reflexivity|].
  destruct (bool_decide _); reflexivity.
Qed.

(** The middleware after it names the origin only when it is on the list
    (or missing), and allows credentials in every case. *)
Lemma cors_headers_unlisted_origin NODE_ENV method origin :
  origin <> "" -> origin ∉ allowedOrigins NODE_ENV ->
  ("Access-Control-Allow-Origin" ∉
     fst <$> (cors_headers NODE_ENV method (Some origin)).1) /\
  (("Access-Control-Allow-Credentials", "true") ∈
     (cors_headers NODE_ENV method (Some origin)).1).
Proof.
  intros Hne Hnot. unfold cors_headers. cbn [default from_option truthy_str].
  unfold id. rewrite (bool_decide_eq_false_2 _ Hnot).
  rewrite (eqb_empty_false origin Hne). cbn [negb orb app fst].
  split.
  - cbn. intros H. repeat (apply elem_of_cons in H as [H|H]; [discriminate|]).
    apply elem_of_nil in H. exact H.
  - do 2 apply list_elem_of_further. apply list_elem_of_here.
Qed.

End Cors.

(** ** The routes that call a language model *)

Section Models.

Import Server Routes.

Variable groq : string -> Completion.

(** A model gives no script: it throws, or the text it answers is
    missing or blank. *)
Let no_script (model : string) : Prop :=
  forall raw, groq model = GroqAnswers raw ->
              Text.trim (MindMaps.str raw) = "".

Lemma blank_script script :
  truthy script && Text.nonempty (Text.trim (MindMaps.str script)) = false <->
  Text.trim (MindMaps.str script) = "".
Proof.
  unfold Text.nonempty. split.
  - destruct script as [| |s]; try reflexivity.
    cbn [MindMaps.str truthy]. intros H.
    apply andb_false_iff in H as [H|H].
    + apply negb_false_iff, String.eqb_eq in H. subst. reflexivity.
    + apply negb_false_iff, String.eqb_eq in H. exact H.
  - intros ->. apply andb_false_iff. right. reflexivity.
Qed.

Lemma first_script_spec models :
  let '(r, calls) := first_script groq models in
  exists tried,
    calls = GroqCall <$> tried /\
    match r with
    | Some script =>
        exists failed model raw,
          tried = (failed ++ [model])%list /\
          (failed ++ [model])%list `prefix_of` models /\
          Forall no_script failed /\
          groq model = GroqAnswers raw /\
          script = Text.trim (MindMaps.str raw) /\ script <> ""
    | None => tried = models /\ Forall no_script models
    end.
Proof.
  induction models as [|model rest IH]; cbn [first_script].
  - exists []. split; [reflexivity|]. split; [reflexivity|constructor].
  - destruct (first_script groq rest) as [r calls].
    destruct IH as (tried & -> & IH).
    assert (no_script model ->
            exists tried0,
              GroqCall model :: (GroqCall <$> tried) = GroqCall <$> tried0 /\
              match r with
              | Some script =>
                  exists failed model0 raw,
                    tried0 = (failed ++ [model0])%list /\
                    (failed ++ [model0])%list `prefix_of` model :: rest /\
                    Forall no_script failed /\
                    groq model0 = GroqAnswers raw /\
                    script = Text.trim (MindMaps.str raw) /\ script <> ""
              | None => tried0 = model :: rest /\
                        Forall no_script (model :: rest)
              end) as Hnext.
    { intros Hno. exists (model :: tried). split; [reflexivity|].
      destruct r as [script|].
      - destruct IH as (failed & model0 & raw & -> & Hpre & Hfailed & Hm & Hs).
        exists (model :: failed), model0, raw.
        split; [reflexivity|]. split; [apply prefix_cons, Hpre|].
        split; [constructor; assumption|]. split; assumption.
      - destruct IH as [-> Hall]. split; [reflexivity|].
        constructor; assumption. }
    destruct (groq model) as [st|script] eqn:Hm.
    + apply Hnext. intros raw Hraw. rewrite Hm in Hraw. discriminate.
    + destruct (truthy script && _) eqn:Hs.
      * exists [model]. split; [reflexivity|].
        exists [], model, script. split; [reflexivity|].
        split; [apply prefix_cons, prefix_nil|]. split; [constructor|].
        split; [exact Hm|]. split; [reflexivity|].
        apply andb_true_iff in Hs as [_ Hs].
        unfold Text.nonempty in Hs. apply negb_true_iff in Hs.
        intros Heq. rewrite Heq in Hs. discriminate.
      * apply Hnext. intros raw Hraw. rewrite Hm in Hraw.
        injection Hraw as <-.
        apply blank_script, Hs.
Qed.

Lemma podcast_fallback_not_blank topicTitle content :
  Text.trim (podcast_fallback topicTitle content) <> "".
Proof.
  apply (TextFacts.trim_not_blank "W"%char);
    [split; vm_compute; reflexivity|].
  unfold podcast_fallback. rewrite TextFacts.chars_app.
  apply elem_of_app. left. vm_compute. constructor.
Qed.


(** X10. The podcast script is never blank.  The models are asked in
    order until one answers a text that is not blank, and the script is
    that text, trimmed; when none does, all three were asked and the
    script is the fixed text around the title and the content. *)
Theorem podcast_script_never_blank (topicTitle content : string) :
  let '(script, calls) := generatePodcastScript groq topicTitle content in
  Text.trim script <> "" /\
  exists tried,
    calls = GroqCall <$> tried /\ tried <> [] /\
    tried `prefix_of` podcast_models /\
    ((exists failed model raw,
        tried = (failed ++ [model])%list /\ Forall no_script failed /\
        groq model = GroqAnswers raw /\
        script = Text.trim (MindMaps.str raw)) \/
     (tried = podcast_models /\ Forall no_script podcast_models /\
      script = podcast_fallback topicTitle content)).
Proof.
  unfold generatePodcastScript.
  pose proof (first_script_spec podcast_models) as H.
  destruct (first_script groq podcast_models) as [[script|] calls];
    destruct H as (tried & -> & H); cbn [default from_option]; cbv beta iota delta [id].
  - destruct H as (failed & model & raw & -> & Hpre & Hfailed & Hm & -> & Hs).
    split; [rewrite TextFacts.trim_idempotent; exact Hs|].
    eexists. split; [reflexivity|].
    split; [intros Heq; destruct failed; discriminate|].
    split; [exact Hpre|]. left. exists failed, model, raw. auto.
  - destruct H as [-> Hall].
    split; [apply podcast_fallback_not_blank|].
    exists podcast_models. split; [reflexivity|].
    split; [discriminate|]. split; [reflexivity|]. right. auto.
Qed.

Variable text_to_speech : string -> string -> Upstream.










End Models.

Lemma podcast_script_never_blank_witness :
  Text.trim
    (Routes.generatePodcastScript
       (fun _ => Routes.GroqAnswers (JStr "  ")) "Rivers" "A river flows.").1
    <> "".
Proof.
  pose proof (podcast_script_never_blank
                (fun _ => Routes.GroqAnswers (JStr "  "))
                "Rivers" "A river flows.") as H.
  destruct (Routes.generatePodcastScript _ _ _) as [script calls].
  exact (proj1 H).
Defined.



(** ** Voices *)

Section Voices.

Import Server Routes.

Lemma recommended_before a b :
  podcast_recommended a = true -> (recommended_first a b <=? 0)%Z = true.
Proof.
  intros Ha. unfold recommended_first. rewrite Ha.
  destruct (podcast_recommended b); reflexivity.
Qed.

Lemma other_after a b :
  podcast_recommended a = false ->
  (recommended_first a b <=? 0)%Z = negb (podcast_recommended b).
Proof.
  intros Ha. unfold recommended_first. rewrite Ha.
  destruct (podcast_recommended b); reflexivity.
Qed.

Lemma insert_recommended a l :
  podcast_recommended a = true ->
  insert_sorted recommended_first a l = a :: l.
Proof.
  intros Ha. destruct l as [|b l]; [reflexivity|].
  cbn [insert_sorted]. rewrite (recommended_before a b Ha). reflexivity.
Qed.

Lemma insert_other a recs others :
  podcast_recommended a = false ->
  Forall (fun v => podcast_recommended v = true) recs ->
  Forall (fun v => podcast_recommended v = false) others ->
  insert_sorted recommended_first a (recs ++ others) =
    (recs ++ a :: others)%list.
Proof.
  intros Ha Hrecs Hothers. induction Hrecs as [|b recs Hb _ IH].
  - destruct Hothers as [|b others Hb _]; [reflexivity|].
    cbn [app insert_sorted]. rewrite (other_after a b Ha), Hb. reflexivity.
  - cbn [app insert_sorted]. rewrite (other_after a b Ha), Hb.
    cbn [negb]. rewrite IH. reflexivity.
Qed.

Lemma sort_recommended_first (l : list VoiceInfo) :
  Array_sort recommended_first l =
    (filter (fun v => podcast_recommended v = true) l ++
     filter (fun v => podcast_recommended v = false) l)%list.
Proof.
  induction l as [|a l IH]; [reflexivity|].
  unfold Array_sort in *. cbn [foldr]. rewrite IH.
  destruct (podcast_recommended a) eqn:Ha.
  - rewrite insert_recommended by exact Ha.
    rewrite filter_cons_True by exact Ha.
    rewrite filter_cons_False by congruence. reflexivity.
  - rewrite insert_other; [| exact Ha | |].
    + rewrite filter_cons_False by congruence.
      rewrite filter_cons_True by exact Ha. reflexivity.
    + apply Forall_forall. intros v [Hv _]%list_elem_of_filter. exact Hv.
    + apply Forall_forall. intros v [Hv _]%list_elem_of_filter. exact Hv.
Qed.

Lemma recommended_of_sorted (l : list VoiceInfo) :
  filter (fun v => podcast_recommended v = true)
         (filter (fun v => podcast_recommended v = true) l ++
          filter (fun v => podcast_recommended v = false) l)%list =
    filter (fun v => podcast_recommended v = true) l.
Proof.
  rewrite filter_app.
  assert (filter (fun v => podcast_recommended v = true)
            (filter (fun v => podcast_recommended v = false) l) = []) as ->.
  { induction l as [|a l IH]; [reflexivity|].
    destruct (podcast_recommended a) eqn:Ha.
    - rewrite filter_cons_False by congruence. exact IH.
    - rewrite filter_cons_True by exact Ha.
      rewrite filter_cons_False by congruence. exact IH. }
  rewrite app_nil_r.
  induction l as [|a l IH]; [reflexivity|].
  destruct (podcast_recommended a) eqn:Ha.
  - rewrite !filter_cons_True by exact Ha. rewrite IH. reflexivity.
  - rewrite filter_cons_False by congruence. exact IH.
Qed.

Variable voices_api : Upstream.
Variable JSON_parse_voices : string -> Client.Parsed (option (list Voice)).

(** X13. The voices are served with the recommended ones first: the
    list is the voices whose identifier is one of the five recommended
    ones, followed by the others, each group in the order ElevenLabs gave
    them, and [podcast_recommendations] is the first group. *)
Theorem voices_recommended_first (status : Z) (content : string)
    (data_voices : list Voice) :
  voices_api = UpstreamResponds status (Some content) ->
  response_ok status = true ->
  JSON_parse_voices content = Client.ParsedValue (Some data_voices) ->
  let recommended v := v_voice_id v ∈ JStr <$> recommended_ids in
  audio_voices voices_api JSON_parse_voices =
    (mkReply 200
       (VoiceList
          ((voice_info <$> filter recommended data_voices) ++
           (voice_info <$> filter (fun v => ~ recommended v) data_voices))
          (voice_info <$> filter recommended data_voices)),
     [VoicesCall]).
Proof.
  intros Hapi Hok Hparse. cbv zeta. unfold audio_voices.
  rewrite Hapi, Hok, Hparse. cbn [negb]. rewrite sort_recommended_first.
  assert (forall l : list Voice,
            filter (fun v => podcast_recommended v = true) (voice_info <$> l) =
            voice_info <$>
              filter (fun v => v_voice_id v ∈ JStr <$> recommended_ids) l)
    as Hrec.
  { induction l as [|v l IH]; [reflexivity|].
    rewrite fmap_cons.
    destruct (decide (v_voice_id v ∈ JStr <$> recommended_ids)) as [Hv|Hv].
    - rewrite filter_cons_True
        by (cbn [voice_info podcast_recommended]; apply bool_decide_eq_true, Hv).
      rewrite (filter_cons_True _ v) by exact Hv.
      rewrite fmap_cons, IH. reflexivity.
    - rewrite filter_cons_False
        by (cbn [voice_info podcast_recommended];
            rewrite bool_decide_eq_true; exact Hv).
      rewrite (filter_cons_False _ v) by exact Hv. exact IH. }
  assert (forall l : list Voice,
            filter (fun v => podcast_recommended v = false) (voice_info <$> l) =
            voice_info <$>
              filter (fun v => ~ v_voice_id v ∈ JStr <$> recommended_ids) l)
    as Hother.
  { induction l as [|v l IH]; [reflexivity|].
    rewrite fmap_cons.
    destruct (decide (v_voice_id v ∈ JStr <$> recommended_ids)) as [Hv|Hv].
    - rewrite filter_cons_False
        by (cbn [voice_info podcast_recommended];
            rewrite bool_decide_eq_false; tauto).
      rewrite (filter_cons_False _ v) by tauto. exact IH.
    - rewrite filter_cons_True
        by (cbn [voice_info podcast_recommended];
            apply bool_decide_eq_false, Hv).
      rewrite (filter_cons_True _ v) by exact Hv.
      rewrite fmap_cons, IH. reflexivity. }
  rewrite recommended_of_sorted, Hrec, Hother. reflexivity.
Qed.

(** X14. A failure of ElevenLabs is passed on with its status: when
    listing the voices is refused with 401 and the refusal can be read,
    the backend answers 401 itself, and the client, which sent the
    request through [makeRequest], takes the answer for the end of its
    own session: it removes the token and the user and navigates to the
    entry page.  The call then throws: the error of the answer, which is
    a [TypeError] when the body it received parses to [null] and the
    error of the status otherwise. *)
Theorem voices_upstream_401_ends_session
    (JSON_parse_response : string -> Client.Parsed Client.ApiResponse)
    (fetch : Client.Request -> Client.FetchOutcome) (w : Client.World)
    (content text : string) :
  voices_api = UpstreamResponds 401 (Some content) ->
  fetch (Client.mkRequest "/audio/voices" "GET"
           (Client.headers_with (Client.localStorage w !! "authToken"))) =
    Client.Responds (status (audio_voices voices_api JSON_parse_voices).1)
                    text ->
  (audio_voices voices_api JSON_parse_voices).1 =
    mkReply 401 (Failure None "Failed to fetch voices" (DetailsText content))
  /\
  exists w',
    Client.getAvailableVoices JSON_parse_response fetch w =
      (Client.Throw
         (match JSON_parse_response text with
          | Client.ParsedNull => Client.NullAccess
          | _ => Client.ApiError 401
          end), w') /\
    Client.localStorage w' !! "authToken" = None /\
    Client.localStorage w' !! "user" = None /\
    Client.navigations w' =
      (Client.navigations w ++ [Client.HardRedirect "/"])%list.
Proof.
  intros Hapi Hfetch. unfold audio_voices in *. rewrite Hapi in *.
  cbn in Hfetch. split; [reflexivity|].
  apply (makeRequest_401_tears_down JSON_parse_response _ _ _ _ _ Hfetch).
Qed.

End Voices.

Lemma voices_recommended_first_witness :
  Routes.audio_voices
    (Routes.UpstreamResponds 200 (Some "voices"))
    (fun _ =>
       Client.ParsedValue
         (Some [Routes.mkVoice (JStr "custom") (JStr "Mine") JUndefined
                  JUndefined JUndefined None;
                Routes.mkVoice (JStr "21m00Tcm4TlvDq8ikWAM") (JStr "Rachel")
                  JUndefined JUndefined JUndefined None])) =
    (Routes.mkReply 200
       (Routes.VoiceList
          (Routes.voice_info <$>
             [Routes.mkVoice (JStr "21m00Tcm4TlvDq8ikWAM") (JStr "Rachel")
                JUndefined JUndefined JUndefined None;
              Routes.mkVoice (JStr "custom") (JStr "Mine") JUndefined
                JUndefined JUndefined None])
          (Routes.voice_info <$>
             [Routes.mkVoice (JStr "21m00Tcm4TlvDq8ikWAM") (JStr "Rachel")
                JUndefined JUndefined JUndefined None])),
     [Routes.VoicesCall]).
Proof.
  exact (voices_recommended_first
           (Routes.UpstreamResponds 200 (Some "voices"))
           (fun _ =>
              Client.ParsedValue
                (Some [Routes.mkVoice (JStr "custom") (JStr "Mine") JUndefined
                         JUndefined JUndefined None;
                       Routes.mkVoice (JStr "21m00Tcm4TlvDq8ikWAM")
                         (JStr "Rachel") JUndefined JUndefined JUndefined
                         None]))
           200 "voices" _ eq_refl eq_refl eq_refl).
Defined.

Lemma voices_upstream_401_ends_session_witness :
  let w :=
    Client.mkWorld (<["authToken" := "token"]> (<["user" := "{}"]> ∅))
      "/dashboard" [] [] None false true true true None in
  (exists w',
     Client.getAvailableVoices (fun _ => Client.ParseThrows)
       (fun _ => Client.Responds 401 "{}") w =
       (Client.Throw (Client.ApiError 401), w') /\
     Client.localStorage w' !! "authToken" = None) /\
  (exists w',
     Client.getAvailableVoices (fun _ => Client.ParsedNull)
       (fun _ => Client.Responds 401 "null") w =
       (Client.Throw Client.NullAccess, w') /\
     Client.localStorage w' !! "authToken" = None).
Proof.
  intros w. split.
  - destruct (voices_upstream_401_ends_session
                (Routes.UpstreamResponds 401 (Some "invalid api key"))
                (fun _ => Client.ParseThrows) (fun _ => Client.ParseThrows)
                (fun _ => Client.Responds 401 "{}") w
                "invalid api key" "{}" eq_refl eq_refl)
      as (_ & w' & Hrun & Htoken & _).
    exists w'. split; assumption.
  - destruct (voices_upstream_401_ends_session
                (Routes.UpstreamResponds 401 (Some "invalid api key"))
                (fun _ => Client.ParseThrows) (fun _ => Client.ParsedNull)
                (fun _ => Client.Responds 401 "null") w
                "invalid api key" "null" eq_refl eq_refl)
      as (_ & w' & Hrun & Htoken & _).
    exists w'. split; assumption.
Defined.

(** ** Generating a mind map *)

Section Generate.

Import Server Routes.

Variable groq : string -> Completion.
Variable JSON_parse_mindmap : string -> Client.Parsed MindMaps.MindMapData.
Variable topic_position : nat -> nat -> MindMaps.Position.
Variable subtopic_position : nat -> nat -> nat -> MindMaps.Position.
Variable Date_now : nat -> Z.
Variable Math_random : nat -> string.

Let createFallbackMindMap :=
  createFallbackMindMap topic_position subtopic_position.
Let validateAndEnhanceMindMap :=
  validateAndEnhanceMindMap topic_position subtopic_position
    Date_now Math_random.
Let mindmap_generate :=
  mindmap_generate groq JSON_parse_mindmap topic_position subtopic_position
    Date_now Math_random.







Lemma grown_differs {A} (l : list A) (x : A) : (l ++ [x])%list <> l.
Proof.
  intros H. apply (f_equal length) in H. rewrite length_app in H.
  cbn in H. lia.
Qed.





End Generate.




(** ** The stored mind maps *)

Section Stored.

Import Server Routes.

Variable db_ok : bool.
Variable castable : string -> bool.

Let mindmap_get := mindmap_get db_ok castable.
Let mindmap_delete := mindmap_delete db_ok castable.

Lemma find_owned_Some id uid db i doc :
  find_owned id uid db = Some (i, doc) ->
  db !! i = Some doc /\ _id doc = id /\ user_uid doc = uid.
Proof.
  unfold find_owned. intros (Hi & [Hid Hu] & _)%list_find_Some. auto.
Qed.

Lemma find_owned_None id uid db :
  find_owned id uid db = None ->
  Forall (fun m => ~ (_id m = id /\ user_uid m = uid)) db.
Proof. unfold find_owned. intros H%list_find_None. exact H. Qed.

Lemma filter_delete_other {A} (P : A -> Prop) `{!forall x, Decision (P x)}
    (l : list A) i x :
  l !! i = Some x -> ~ P x -> filter P (delete i l) = filter P l.
Proof.
  revert i. induction l as [|a l IH]; intros [|i] Hi Hx; try discriminate.
  - injection Hi as ->. change (filter P l = filter P (x :: l)).
    rewrite filter_cons_False by exact Hx. reflexivity.
  - change (filter P (a :: delete i l) = filter P (a :: l)).
    cbn in Hi. rewrite !filter_cons, (IH i Hi Hx). reflexivity.
Qed.

(** X18. Deleting a mind map removes one document at most, and only a
    document of the requester with the key of the request; the maps of
    the other users are what they were, whatever the key.  The answer is
    200 when a document was removed; otherwise it is 404 or 500 and the
    collection is unchanged. *)
Theorem mindmap_delete_own_map_only (id : string) (req_user : Decoded)
    (db : list MindMapDoc) :
  let '(reply, db') := mindmap_delete id req_user db in
  filter (fun m => user_uid m <> d_uid req_user) db' =
    filter (fun m => user_uid m <> d_uid req_user) db /\
  ((exists i doc,
      db !! i = Some doc /\ _id doc = id /\ user_uid doc = d_uid req_user /\
      db' = delete i db /\
      reply = mkReply 200 (Deleted "Mind map deleted successfully" id)) \/
   (db' = db /\ (status reply = 404 \/ status reply = 500))).
Proof.
  subst mindmap_delete. unfold Routes.mindmap_delete.
  destruct (db_ok && castable id); [|split; [reflexivity|right; auto]].
  destruct (find_owned id (d_uid req_user) db) as [[i doc]|] eqn:Hfind;
    [|split; [reflexivity|right; auto]].
  apply find_owned_Some in Hfind as (Hi & Hid & Hu). split.
  - apply (filter_delete_other _ _ _ _ Hi). intros H. exact (H Hu).
  - left. exists i, doc. auto.
Qed.

(** X19. Reading a mind map gives a document of the requester with the
    key of the request, or none: the answer is 200 with such a document
    of the collection, or 404 when the requester has no document with
    that key (a document of somebody else with that key does not count),
    or 500 when the store fails or the key is malformed. *)
Theorem mindmap_get_own_map_only (id : string) (req_user : Decoded)
    (db : list MindMapDoc) :
  (exists doc,
     mindmap_get id req_user db = mkReply 200 (MindMapFound doc) /\
     doc ∈ db /\ _id doc = id /\ user_uid doc = d_uid req_user) \/
  (mindmap_get id req_user db =
     mkReply 404 (Failure None "Mind map not found" NoDetails) /\
   forall doc, doc ∈ db -> _id doc = id -> user_uid doc <> d_uid req_user) \/
  (mindmap_get id req_user db =
     mkReply 500 (Failure None "Failed to fetch mind map" NoDetails) /\
   (db_ok = false \/ castable id = false)).
Proof.
  subst mindmap_get. unfold Routes.mindmap_get.
  destruct db_ok; [destruct (castable id)|]; cbn [andb]; auto.
  destruct (find_owned id (d_uid req_user) db) as [[i doc]|] eqn:Hfind.
  - apply find_owned_Some in Hfind as (Hi & Hid & Hu).
    left. exists doc. split; [reflexivity|].
    split; [exact (list_elem_of_lookup_2 _ _ _ Hi)|auto].
  - right. left. split; [reflexivity|].
    intros doc Hin Hid Hu. apply find_owned_None in Hfind.
    exact (proj1 (Forall_forall _ _) Hfind doc Hin (conj Hid Hu)).
Qed.

(** X20. A deleted mind map is gone: when the keys of the collection
    are pairwise distinct and the deletion answered 200, reading the same
    key afterwards never finds a document, for every user: the answer is
    404 when the store answers the read, and 500 when it fails then. *)
Theorem mindmap_delete_then_get (store_answers_read : bool) (id : string)
    (req_user reader : Decoded) (db : list MindMapDoc) :
  NoDup (_id <$> db) ->
  status (mindmap_delete id req_user db).1 = 200 ->
  Routes.mindmap_get store_answers_read castable id reader
    (mindmap_delete id req_user db).2 =
    if store_answers_read
    then mkReply 404 (Failure None "Mind map not found" NoDetails)
    else mkReply 500 (Failure None "Failed to fetch mind map" NoDetails).
Proof.
  subst mindmap_delete.
  unfold Routes.mindmap_get, Routes.mindmap_delete. intros Hnodup.
  destruct db_ok; [|discriminate].
  destruct (castable id); [|discriminate]. cbn [andb].
  destruct (find_owned id (d_uid req_user) db) as [[i doc]|] eqn:Hfind;
    [|discriminate].
  intros _. cbn [fst snd].
  destruct store_answers_read; [|reflexivity]. cbn [andb].
  apply find_owned_Some in Hfind as (Hi & Hid & Hu).
  destruct (find_owned id (d_uid reader) (delete i db)) as [[j doc']|]
    eqn:Hfind'; [|reflexivity].
  exfalso. apply find_owned_Some in Hfind' as (Hj & Hid' & _).
  apply list_elem_of_lookup_2 in Hj. rewrite delete_take_drop in Hj.
  rewrite <- (take_drop_middle _ _ _ Hi), fmap_app, fmap_cons in Hnodup.
  apply NoDup_app in Hnodup as (_ & Hbefore & Hafter).
  apply NoDup_cons in Hafter as [Hafter _].
  apply elem_of_app in Hj as [Hj|Hj].
  - apply (Hbefore (_id doc')).
    + apply list_elem_of_fmap. exists doc'. auto.
    + rewrite Hid', <- Hid. left.
  - apply Hafter. rewrite Hid, <- Hid'.
    apply list_elem_of_fmap. exists doc'. auto.
Qed.

(** X22. The profile route serves the record the exchange wrote.  After
    an exchange that stored the user, and when the store answers, the
    holder of a token with the uid of that user is served a record with
    that uid and with the display name and the photo of the exchange. *)
Theorem user_profile_after_exchange (now_ms : Z) (user : UserInfo)
    (out : DbOutcome) (users users' : list UserRecord) (req_user : Decoded) :
  db_ok = true ->
  storeUser now_ms (Some user) out users = inl users' ->
  d_uid req_user = uid user ->
  exists record,
    user_profile db_ok req_user users' = mkReply 200 (Profile record) /\
    firebase_uid record = uid user /\
    display_name record = displayName user /\
    photo_url record = photoURL user.
Proof.
  intros Hok Hstore Huid. unfold user_profile. rewrite Hok, Huid.
  assert (exists i record,
            findOne (uid user) users' = Some (i, record) /\
            firebase_uid record = uid user /\
            display_name record = displayName user /\
            photo_url record = photoURL user) as (i & record & -> & H).
  { unfold storeUser in Hstore. unfold findOne in *.
    destruct (list_find _ users) as [[i dbUser]|] eqn:Hfind.
    - apply list_find_Some in Hfind as (Hi & Hu & Hfirst).
      destruct out; try discriminate. injection Hstore as <-.
      eexists i, _. split.
      { apply list_find_Some.
        split; [apply list_lookup_insert_eq; eapply lookup_lt_Some; eauto|].
        split; [exact Hu|]. intros j y Hj Hlt.
        rewrite list_lookup_insert_ne in Hj by lia.
        exact (Hfirst j y Hj Hlt). }
      split; [exact Hu|split; reflexivity].
    - apply list_find_None in Hfind.
      destruct out; try discriminate. injection Hstore as <-.
      eexists (length users), _. split.
      { apply list_find_Some.
        split; [apply list_lookup_middle; reflexivity|].
        split; [reflexivity|]. intros j y Hj Hlt.
        rewrite lookup_app_l in Hj by exact Hlt.
        exact (proj1 (Forall_forall _ _) Hfind y
                 (list_elem_of_lookup_2 _ _ _ Hj)). }
      split; [reflexivity|split; reflexivity]. }
  exists record. split; [reflexivity|exact H].
Qed.

Lemma find_owned_new key uid (db : list MindMapDoc) doc :
  Forall (fun m => _id m <> key) db -> _id doc = key ->
  (user_uid doc = uid ->
   find_owned key uid (db ++ [doc]) = Some (length db, doc)) /\
  (user_uid doc <> uid -> find_owned key uid (db ++ [doc]) = None).
Proof.
  intros Hfresh Hkey. unfold find_owned. split; intros Hu.
  - apply list_find_Some.
    split; [apply list_lookup_middle; reflexivity|]. split; [auto|].
    intros j y Hj Hlt [Hy _]. rewrite lookup_app_l in Hj by exact Hlt.
    exact (proj1 (Forall_forall _ _) Hfresh y
             (list_elem_of_lookup_2 _ _ _ Hj) Hy).
  - apply list_find_None, Forall_app. split.
    + apply (Forall_impl _ _ _ Hfresh). intros m Hm [Hy _]. exact (Hm Hy).
    + apply Forall_singleton. intros [_ Hy]. exact (Hu Hy).
Qed.

(** X23. A generated map can be read back by its owner and by nobody
    else.  When the map was stored under a new key, and the store answers
    the read, reading that key as the requester answers 200 with a
    document that bears the subject and the syllabus of the request and
    whose map, given the key as identifier, is the map that was served;
    reading it as another user answers 404. *)
Theorem mindmap_generate_then_get
    (groq : string -> Completion)
    (JSON_parse_mindmap : string -> Client.Parsed MindMaps.MindMapData)
    (topic_position : nat -> nat -> MindMaps.Position)
    (subtopic_position : nat -> nat -> nat -> MindMaps.Position)
    (Date_now : nat -> Z) (Math_random : nat -> string)
    (now_ms : Z) (key : string) (created updated : Z)
    (req_user : Decoded) (body : GenerateBody) (db : list MindMapDoc)
    (served : MindMaps.MindMapData) :
  let result :=
    Routes.mindmap_generate groq JSON_parse_mindmap topic_position
      subtopic_position Date_now Math_random now_ms
      (Saved key created updated) req_user body db in
  db_ok = true -> castable key = true ->
  Forall (fun m => _id m <> key) db ->
  result.1.1 = Answers (mkReply 200 (MindMapReply served None)) ->
  (exists doc,
     mindmap_get key req_user result.1.2 = mkReply 200 (MindMapFound doc) /\
     with_id (MindMaps.IdText key) (mindmap_data doc) = served /\
     subject_name doc = MindMaps.str (g_subjectName body) /\
     syllabus doc = shown (g_syllabus body)) /\
  (forall other,
     d_uid other <> d_uid req_user ->
     mindmap_get key other result.1.2 =
       mkReply 404 (Failure None "Mind map not found" NoDetails)).
Proof.
  cbv zeta. intros Hok Hcast Hfresh.
  subst mindmap_get. unfold Routes.mindmap_get, Routes.mindmap_generate.
  rewrite Hok, Hcast. cbn [andb].
  destruct (negb _ || negb _); [discriminate|].
  destruct (first_mindmap groq JSON_parse_mindmap generate_models)
    as [[data|] calls];
    [|destruct (fallback_of _ _ _ _) as [data|e] eqn:Hfallback;
      [|rewrite ?Hfallback; discriminate]];
    (destruct (Routes.validateAndEnhanceMindMap _ _ _ _ _ _)
       as [validated|e'];
     [|destruct (fallback_of _ _ _ _); discriminate]);
    cbn [fst snd]; intros [= <-];
    match goal with
    | |- context [(db ++ [?d])%list] =>
        destruct (find_owned_new key (d_uid req_user) db d Hfresh eq_refl)
          as [Hown _];
        pose proof (fun uid =>
                      proj2 (find_owned_new key uid db d Hfresh eq_refl))
          as Hother
    end;
    (split;
     [rewrite (Hown eq_refl); eexists; split; [reflexivity|]; auto
     |intros other Hne; rewrite Hother; [reflexivity|];
      cbn [user_uid]; congruence]).
Qed.

Variable sort_newest_first : list MindMapDoc -> list MindMapDoc.

(** X21. The list of mind maps shows the maps of the requester and no
    others: when the store works, its entries are the keys, subjects and
    dates of the documents of the requester, one entry for each document;
    when the store fails the answer is still 200, with an empty list. *)
Theorem mindmap_list_own_maps (req_user : Decoded) (db : list MindMapDoc) :
  (forall l, sort_newest_first l ≡ₚ l) ->
  exists mindMaps,
    mindmap_list db_ok sort_newest_first req_user db =
      mkReply 200 (MindMapList mindMaps) /\
    (db_ok = false -> mindMaps = []) /\
    (db_ok = true ->
     mindMaps ≡ₚ
       summary <$> filter (fun m => user_uid m = d_uid req_user) db).
Proof.
  intros Hsort. clear mindmap_get mindmap_delete. unfold mindmap_list.
  destruct db_ok; eexists; (split; [reflexivity|]); split;
    try discriminate; try reflexivity.
  intros _. rewrite Hsort. reflexivity.
Qed.

End Stored.

Lemma mindmap_get_own_map_only_witness :
  let doc :=
    Routes.mkDoc "k1" (JStr "u1") "Geography" "Rivers"
      (MindMaps.mkData (JStr "Geography") (Some []) (Some []) None) 0 0 in
  Routes.mindmap_get true (fun _ => true) "k1"
    (Server.mkDecoded (JStr "u2") JNull JNull 0 604800) [doc] =
    Routes.mkReply 404
      (Routes.Failure None "Mind map not found" Routes.NoDetails).
Proof.
  intros doc.
  destruct (mindmap_get_own_map_only true (fun _ => true) "k1"
              (Server.mkDecoded (JStr "u2") JNull JNull 0 604800) [doc])
    as [(d & H & _)|[[H _]|[H _]]].
  - discriminate H.
  - exact H.
  - discriminate H.
Defined.

Lemma mindmap_delete_then_get_witness :
  let doc :=
    Routes.mkDoc "k1" (JStr "u1") "Geography" "Rivers"
      (MindMaps.mkData (JStr "Geography") (Some []) (Some []) None) 0 0 in
  let owner := Server.mkDecoded (JStr "u1") JNull JNull 0 604800 in
  Routes.mindmap_get true (fun _ => true) "k1" owner
    (Routes.mindmap_delete true (fun _ => true) "k1" owner [doc]).2 =
    Routes.mkReply 404
      (Routes.Failure None "Mind map not found" Routes.NoDetails) /\
  Routes.mindmap_get false (fun _ => true) "k1" owner
    (Routes.mindmap_delete true (fun _ => true) "k1" owner [doc]).2 =
    Routes.mkReply 500
      (Routes.Failure None "Failed to fetch mind map" Routes.NoDetails).
Proof.
  intros doc owner. split.
  - apply (mindmap_delete_then_get true (fun _ => true) true "k1" owner owner
             [doc]).
    + apply NoDup_singleton.
    + reflexivity.
  - apply (mindmap_delete_then_get true (fun _ => true) false "k1" owner
             owner [doc]).
    + apply NoDup_singleton.
    + reflexivity.
Defined.

Lemma mindmap_list_own_maps_witness :
  let mine :=
    Routes.mkDoc "k1" (JStr "u1") "Geography" "Rivers"
      (MindMaps.mkData (JStr "Geography") (Some []) (Some []) None) 0 0 in
  let other :=
    Routes.mkDoc "k2" (JStr "u2") "History" "Wars"
      (MindMaps.mkData (JStr "History") (Some []) (Some []) None) 5 5 in
  exists mindMaps,
    Routes.mindmap_list true (fun l => l)
      (Server.mkDecoded (JStr "u1") JNull JNull 0 604800) [other; mine] =
      Routes.mkReply 200 (Routes.MindMapList mindMaps) /\
    mindMaps ≡ₚ [Routes.mkSummary "k1" "Geography" 0].
Proof.
  intros mine other.
  destruct (mindmap_list_own_maps true (fun l => l)
              (Server.mkDecoded (JStr "u1") JNull JNull 0 604800)
              [other; mine] (fun l => reflexivity l))
    as (mindMaps & H & _ & Hmine).
  exists mindMaps. split; [exact H|]. exact (Hmine eq_refl).
Defined.

Lemma user_profile_after_exchange_witness :
  let user := mkUser (JStr "u1") (JStr "a@b.c") (JStr "Ada") JNull in
  exists record,
    Routes.user_profile true
      (Server.mkDecoded (JStr "u1") (JStr "a@b.c") (JStr "Ada") 0 604800)
      [Server.mkRecord (JStr "u1") (JStr "a@b.c") (JStr "Ada") JNull None] =
      Routes.mkReply 200 (Routes.Profile record) /\
    Server.firebase_uid record = JStr "u1".
Proof.
  intros user.
  destruct (user_profile_after_exchange true 0 user Server.DbOk []
              [Server.mkRecord (JStr "u1") (JStr "a@b.c") (JStr "Ada") JNull
                 None]
              (Server.mkDecoded (JStr "u1") (JStr "a@b.c") (JStr "Ada") 0
                 604800)
              eq_refl eq_refl eq_refl)
    as (record & H & Hu & _).
  exists record. split; assumption.
Defined.

Lemma mindmap_generate_then_get_witness :
  let owner := Server.mkDecoded (JStr "u1") JNull JNull 0 604800 in
  let result :=
    Routes.mindmap_generate (fun _ => Routes.GroqThrows None)
      (fun _ => Client.ParseThrows)
      (fun _ _ => MindMaps.mkPosition 0 0)
      (fun _ _ _ => MindMaps.mkPosition 0 0)
      (fun _ => 1700000000000) (fun _ => "0.5")
      1700000000000 (Routes.Saved "k1" 1 1) owner
      (Routes.mkGenerateBody (JStr "Geography")
         (Routes.Plain (JStr "Rivers"))) [] in
  Routes.status (Routes.mindmap_get true (fun _ => true) "k1" owner result.1.2)
    = 200.
Proof.
  intros owner result.
  destruct (mindmap_generate_then_get true (fun _ => true)
              (fun _ => Routes.GroqThrows None)
              (fun _ => Client.ParseThrows)
              (fun _ _ => MindMaps.mkPosition 0 0)
              (fun _ _ _ => MindMaps.mkPosition 0 0)
              (fun _ => 1700000000000) (fun _ => "0.5")
              1700000000000 "k1" 1 1 owner
              (Routes.mkGenerateBody (JStr "Geography")
                 (Routes.Plain (JStr "Rivers"))) []
              _ eq_refl eq_refl (Forall_nil_2 _) eq_refl)
    as [(doc & H & _) _].
  fold result in H. rewrite H. reflexivity.
Defined.

(** ** Protected routes *)

Section Protected.

Import Server Routes.

Variable jwt_verify : string -> string -> Z -> Decoded + JsError.
Variable env_JWT_SECRET : option string.
Variable now_ms : Z.

(** X24. A route behind [verifyToken] runs its handler only with the
    claims of a token that [jwt.verify] accepted, the second segment of
    the [Authorization] header; every other request is answered 401 by
    the middleware and leaves everything as it was. *)
Theorem protected_route_runs_with_verified_claims {A : Type}
    (handler : Decoded -> Reply * A) (unchanged : A)
    (authorization : option string) :
  let result :=
    behind_verifyToken
      (verifyToken jwt_verify env_JWT_SECRET now_ms authorization)
      unchanged handler in
  (exists code,
     result = (mkReply 401 (FromAuth (ErrorJson code)), unchanged)) \/
  (exists header token decoded,
     authorization = Some header /\
     split space header !! 1%nat = Some token /\ token <> "" /\
     jwt_verify token (jwtSecret env_JWT_SECRET) (clockTimestamp now_ms) =
       inl decoded /\
     result = handler decoded).
Proof.
  cbv zeta. unfold verifyToken, behind_verifyToken.
  destruct authorization as [header|]; [|left; eexists; reflexivity].
  cbv beta iota zeta delta [truthy_str default from_option id].
  destruct (String.eqb header ""); cbn [negb]; [left; eexists; reflexivity|].
  destruct (split space header !! 1%nat) as [token|] eqn:Htoken;
    [|left; eexists; reflexivity].
  cbv beta iota zeta delta [truthy_str default from_option id].
  destruct (String.eqb token "") eqn:Hempty; cbn [negb];
    [left; eexists; reflexivity|].
  destruct (jwt_verify token _ _) as [decoded|error] eqn:Hverify.
  - right. exists header, token, decoded.
    split_and!; try reflexivity; try assumption.
    intros ->. discriminate.
  - left. destruct (String.eqb (Server.name error) "TokenExpiredError");
      [|destruct (String.eqb (Server.name error) "JsonWebTokenError")];
      eexists; reflexivity.
Qed.

End Protected.

(** ** The mind-map page *)

Section DummyMap.

Import MindMaps.

Lemma dummy_build_tree subject topics :
  let ns := (Page.build subject topics).1 in
  let es := (Page.build subject topics).2 in
  NoDup (node_id <$> ns) /\ NoDup (position <$> ns) /\
  ((fun e => (source e, target e)) <$> es) =
    ((fun n => (parent n, node_id n)) <$> tail ns) /\
  length ns = (1 + length (take 6 topics) +
               3 * (length (take 6 topics) `min` 3))%nat.
Proof.
  unfold Page.build.
  assert (length (take 6 topics) <= 6)%nat as H
    by (rewrite length_take; lia).
  destruct (take 6 topics) as [|? [|? [|? [|? [|? [|? [|? ?]]]]]]];
    simpl in H; try lia; clear H; cbv zeta.
  all: split; [apply (bool_decide_unpack _); vm_compute; exact I|].
  all: split; [apply (bool_decide_unpack _); vm_compute; exact I|].
  all: split; vm_compute; reflexivity.
Qed.

(** X25. The map the page makes up is a tree that does not overlap:
    whatever the subject and the content, the identifiers of its nodes
    are pairwise distinct, no two nodes are placed at the same point, and
    the edges are, in order, the links from the parent of every node but
    the root to that node. *)
Theorem dummy_map_is_a_tree_without_overlap (now_ms : Z)
    (created updated subject content : string) :
  let map := Page.generateDummyMindMap now_ms created updated subject content in
  NoDup (node_id <$> Page.d_nodes map) /\
  NoDup (position <$> Page.d_nodes map) /\
  ((fun e => (source e, target e)) <$> Page.d_edges map) =
    ((fun n => (parent n, node_id n)) <$> tail (Page.d_nodes map)) /\
  (length (Page.d_nodes map) <= 16)%nat.
Proof.
  cbv zeta. unfold Page.generateDummyMindMap.
  pose proof (dummy_build_tree subject (Page.topics_of subject content)) as H.
  cbv zeta in H.
  destruct (Page.build subject _) as [ns es]. cbn [fst snd] in H.
  cbn [Page.d_nodes Page.d_edges].
  destruct H as (Hid & Hpos & Hedges & Hlen). split_and!; try assumption.
  rewrite Hlen, length_take. lia.
Qed.

(** X26. The page and the backend disagree on a content of blank
    lines.  For a content that is not empty and has only blank lines the
    page makes a map of the root alone, without edges, where the fallback
    of the backend has the six default topics (sixteen nodes); the page
    uses its default topics for the empty content only. *)
Theorem dummy_map_of_blank_content (now_ms : Z)
    (created updated subject content : string)
    (topic_position : nat -> nat -> Position)
    (subtopic_position : nat -> nat -> nat -> Position) :
  content <> "" ->
  Forall (fun line => Text.trim line = "") (split newline content) ->
  let map := Page.generateDummyMindMap now_ms created updated subject content in
  Page.d_nodes map = [Page.root_node subject] /\ Page.d_edges map = [] /\
  exists ns es,
    createFallbackMindMap topic_position subtopic_position subject content =
      mkData (JStr subject) (Some (Some <$> ns)) (Some es) None /\
    length ns = 16%nat.
Proof.
  intros Hne Hblank. cbv zeta.
  assert (filter (fun line => Text.trim line <> "") (split newline content)
          = []) as Hnone.
  { induction Hblank as [|line lines Hline _ IH]; [reflexivity|].
    rewrite filter_cons_False by (intros H; exact (H Hline)). exact IH. }
  unfold Page.generateDummyMindMap, Page.topics_of, Text.nonempty.
  rewrite (eqb_empty_false content Hne), Hnone.
  split; [reflexivity|]. split; [reflexivity|].
  eexists _, _. split; [apply fallback_build|].
  unfold topics_of. rewrite Hnone.
  exact (proj1 (build_sizes topic_position subtopic_position subject
                  (default_topics subject) ltac:(cbn; lia))).
Qed.

End DummyMap.

Lemma protected_route_runs_with_verified_claims_witness :
  Routes.behind_verifyToken
    (Server.verifyToken ClearJwt.verify None 0 (Some "Bearer"))
    [] (fun req_user =>
          Routes.mindmap_delete true (fun _ => true) "k1" req_user []) =
    (Routes.mkReply 401
       (Routes.FromAuth (Server.ErrorJson "No token provided")), []).
Proof.
  destruct (protected_route_runs_with_verified_claims ClearJwt.verify None 0
              (fun req_user =>
                 Routes.mindmap_delete true (fun _ => true) "k1" req_user [])
              [] (Some "Bearer"))
    as [[code H]|(header & token & decoded & [= <-] & Htoken & _)].
  - rewrite H. vm_compute in H. injection H as <-. reflexivity.
  - vm_compute in Htoken. discriminate Htoken.
Defined.

Lemma dummy_map_of_blank_content_witness :
  Page.d_nodes
    (Page.generateDummyMindMap 0 "2025-06-10" "2025-06-10" "Geography" " ") =
    [Page.root_node "Geography"].
Proof.
  apply (dummy_map_of_blank_content 0 "2025-06-10" "2025-06-10" "Geography"
           " " (fun _ _ => MindMaps.mkPosition 0 0)
           (fun _ _ _ => MindMaps.mkPosition 0 0)).
  - discriminate.
  - repeat constructor.
Defined.

(** ** The session on the client, further *)

Section SessionMore.

Import Client.

Variable JSON_parse_response : string -> Parsed ApiResponse.
Variable JSON_parse_user : string -> Parsed UserInfo.
Variable JSON_stringify_user : UserInfo -> string.

Let authenticateWithGoogle :=
  authenticateWithGoogle JSON_parse_response JSON_stringify_user.
Let onAuthStateChanged :=
  onAuthStateChanged JSON_parse_response JSON_stringify_user.
Let login := login JSON_parse_response JSON_stringify_user.

(** What an exchange leaves alone, whatever the answer, and what it
    stores. *)
Lemma exchange_frame fetch w :
  exists r w',
    authenticateWithGoogle fetch w = (r, w') /\
    user w' = user w /\ isAuthenticated w' = isAuthenticated w /\
    hasProcessedInitialAuth w' = hasProcessedInitialAuth w /\
    isComponentMounted w' = isComponentMounted w /\
    loading w' = loading w /\ pathname w' = pathname w /\
    currentUser w' = currentUser w /\
    match r with
    | Return response =>
        truthy (token response) = true ->
        localStorage w' =
          <["user" := stringify_user JSON_stringify_user (r_user response)]>
            (<["authToken" := str (token response)]> (localStorage w))
    | Throw _ => True
    end.
Proof.
  subst authenticateWithGoogle.
  rewrite authenticateWithGoogle_unfold, makeRequest_unfold.
  destruct w as [ls pn nav rq us ld ia hp cm cu].
  destruct (fetch _) as [b|status text]; cbn.
  - do 2 eexists. split; [reflexivity|]. repeat split.
  - destruct (response_ok status); cbn.
    + destruct (String.eqb text ""); cbn.
      * do 2 eexists. split; [reflexivity|]. cbn. repeat split. intros [=].
      * destruct (JSON_parse_response text) as [| |response]; cbn.
        -- do 2 eexists. split; [reflexivity|]. repeat split.
        -- do 2 eexists. split; [reflexivity|]. repeat split.
        -- do 2 eexists. split; [reflexivity|]. cbn.
           destruct (truthy (token response)); cbn; repeat split;
             first [intros [=] | intros _; reflexivity].
    + destruct (status =? 401)%Z; do 2 eexists; (split; [reflexivity|]);
        repeat split.
Qed.

(** X27. The callback of the identity provider never throws, whatever
    the exchange does.  While the provider is mounted the callback ends
    with [loading] false; after the cleanup of the effect it does nothing
    at all: no request is sent and the state is as it was. *)
Theorem auth_event_settles (fetch : Request -> FetchOutcome)
    (firebaseUser : option FirebaseUser) (w : World) :
  exists w',
    onAuthStateChanged fetch firebaseUser w = (Return tt, w') /\
    (isComponentMounted w = true -> loading w' = false) /\
    (isComponentMounted w = false -> w' = w) /\
    isComponentMounted w' = isComponentMounted w.
Proof.
  subst onAuthStateChanged. exec_session.
  destruct (isComponentMounted w) eqn:Hm; cbn [negb].
  2:{ exists w. split; [reflexivity|]. split; [discriminate|]. auto. }
  assert (forall w1 : World,
            isComponentMounted w1 = true ->
            exists w',
              (if isComponentMounted w1
               then fun w : World => (Return tt, with_loading false w)
               else fun w : World => (Return tt, w)) w1 = (Return tt, w') /\
              (true = true -> loading w' = false) /\
              (true = false -> w' = w) /\ isComponentMounted w' = true)
    as Hend.
  { intros w1 H1. rewrite H1. eexists. split; [reflexivity|].
    destruct w1. cbn in *. split; [reflexivity|]. split; [discriminate|].
    exact H1. }
  destruct firebaseUser as [fu|].
  - destruct (hasProcessedInitialAuth w) eqn:Hp; cbn [negb];
      [apply Hend, Hm|].
    destruct (getIdToken fu) as [idToken|]; [|apply Hend, Hm].
    destruct (exchange_frame fetch w) as (r & w1 & Hex & _ & _ & _ & Hm1 & _).
    subst authenticateWithGoogle. rewrite Hex.
    destruct r as [response|e]; [|apply Hend; congruence].
    destruct w1 as [ls pn nav rq us ld ia hp cm cu]. cbn in Hm1. cbn.
    destruct (String.eqb pn "/"); apply Hend; cbn; congruence.
  - destruct (hasProcessedInitialAuth w) eqn:Hp; [|apply Hend, Hm].
    apply Hend. destruct w. exact Hm.
Qed.


(** X29. An exchange answered with a token but without a user poisons
    the cache: the text [undefined] is stored as the cached user, and as
    [JSON.parse] throws on it, every later start of the provider on that
    token store throws in its cached-session check. *)
Theorem exchange_without_user_poisons_cache (fetch : Request -> FetchOutcome)
    (w : World) (status : Z) (text : string) (response : ApiResponse) :
  fetch (mkRequest "/auth/google" "POST"
           (headers_with (localStorage w !! "authToken"))) =
    Responds status text ->
  response_ok status = true -> text <> "" ->
  JSON_parse_response text = ParsedValue response ->
  truthy (token response) = true -> r_user response = None ->
  JSON_parse_user "undefined" = ParseThrows ->
  exists w',
    authenticateWithGoogle fetch w = (Return response, w') /\
    localStorage w' !! "user" = Some "undefined" /\
    forall path idp,
      fst (mount JSON_parse_user (localStorage w') path idp) =
        Throw SyntaxError.
Proof.
  intros Hfetch Hok Hne Hparse Htoken Huser Hundefined.
  subst authenticateWithGoogle.
  rewrite authenticateWithGoogle_unfold, makeRequest_unfold.
  rewrite Hfetch, Hok. cbn [negb]. rewrite (eqb_empty_false text Hne), Hparse.
  rewrite Htoken, Huser. eexists. split; [reflexivity|].
  destruct w as [ls pn nav rq us ld ia hp cm cu]. cbn.
  split; [apply lookup_insert_eq|].
  intros path idp. exec. cbn. rewrite lookup_insert_eq. cbn.
  rewrite Hundefined. reflexivity.
Qed.

(** X30. Signing out on the page always ends logged out and never
    throws, even when the backend or the identity provider fails: the
    user and the token are gone, and the page, rendered again, shows
    nothing and sends the visitor to the entry page. *)
Theorem sign_out_leaves_the_page (fetch : Request -> FetchOutcome)
    (signOut_try signOut_catch : bool) (w : World) :
  loading w = false ->
  exists w',
    Page.handleSignOut JSON_parse_response fetch signOut_try signOut_catch w =
      (Return tt, w') /\
    user w' = None /\ isAuthenticated w' = false /\
    localStorage w' !! "authToken" = None /\
    localStorage w' !! "user" = None /\
    Page.render w' =
      (Return Page.Nothing, with_navigation (RouterPush "/") w').
Proof.
  intros Hloading. unfold Page.handleSignOut, Page.render.
  cbv [try_catch mbind M_bind modify gets mret M_ret].
  destruct (logout_spec JSON_parse_response fetch signOut_try signOut_catch w)
    as (r & w1 & Hlogout & Hu & Hia & Hls & Hld & _).
  rewrite Hlogout.
  assert (localStorage w1 !! "authToken" = None /\
          localStorage w1 !! "user" = None) as [Ht Hc].
  { rewrite Hls. split; [|apply lookup_delete_eq].
    rewrite lookup_delete_ne by discriminate. apply lookup_delete_eq. }
  destruct w1 as [ls pn nav rq us ld ia hp cm cu]. cbn in *. subst.
  destruct r as [[]|e]; eexists; (split; [reflexivity|]); cbn;
    rewrite Hloading; auto.
Qed.

End SessionMore.

Lemma auth_event_settles_witness :
  let w := Client.mkWorld ∅ "/" [] [] None true false false true None in
  let somebody :=
    Client.mkFirebaseUser (JStr "u1") JNull JNull JNull (Some "assertion") in
  Client.loading
    (Client.onAuthStateChanged (fun _ => Client.ParseThrows) (fun _ => "{}")
       (fun _ => Client.FetchRejects true) (Some somebody) w).2 = false.
Proof.
  intros w somebody.
  destruct (auth_event_settles (fun _ => Client.ParseThrows) (fun _ => "{}")
              (fun _ => Client.FetchRejects true) (Some somebody) w)
    as (w' & Hrun & Hloading & _).
  rewrite Hrun. exact (Hloading eq_refl).
Defined.

Lemma exchange_without_user_poisons_cache_witness :
  let w := Client.mkWorld ∅ "/" [] [] None true false false true None in
  let parse (_ : string) :=
    Client.ParsedValue (Client.mkApiResponse (JStr "token") None) in
  exists w',
    Client.authenticateWithGoogle parse (fun _ => "{}")
      (fun _ => Client.Responds 200 "{}") w =
      (Client.Return (Client.mkApiResponse (JStr "token") None), w') /\
    Client.localStorage w' !! "user" = Some "undefined".
Proof.
  intros w parse.
  destruct (exchange_without_user_poisons_cache parse
              (fun _ => Client.ParseThrows) (fun _ => "{}")
              (fun _ => Client.Responds 200 "{}") w 200 "{}"
              (Client.mkApiResponse (JStr "token") None)
              eq_refl eq_refl ltac:(discriminate) eq_refl eq_refl eq_refl
              eq_refl)
    as (w' & Hrun & Hcache & _).
  exists w'. split; assumption.
Defined.

Lemma sign_out_leaves_the_page_witness :
  let w :=
    Client.mkWorld (<["authToken" := "token"]> (<["user" := "{}"]> ∅))
      "/mind-map" [] [] None false true true true None in
  exists w',
    Page.handleSignOut (fun _ => Client.ParseThrows)
      (fun _ => Client.FetchRejects true) true true w =
      (Client.Return tt, w') /\
    Client.isAuthenticated w' = false.
Proof.
  intros w.
  destruct (sign_out_leaves_the_page (fun _ => Client.ParseThrows)
              (fun _ => Client.FetchRejects true) true true w eq_refl)
    as (w' & Hrun & _ & Hout & _).
  exists w'. split; assumption.
Defined.
